(** * Programming-in-Python: the data-cleaning / profiling toolkit (A2) and
    the book-catalogue / comment-repository toolkit (A3)

    A shallow embedding of the parts of [src/A2/A2.py] and
    [src/A3/assignment3_code.py] that the specification's claims are about,
    followed by the theorems that settle them, and then by further
    properties of the code: of the helpers, of [bookData] and [commentData],
    of live measurements and of the algorithms they measure.

    Conventions of the embedding.
    - A Python [str] is a Rocq [string]; each character stands for the code
      point of the same number, so the model covers the strings whose code
      points are below 256 (ASCII and Latin-1).
    - A Python [int] is a [Z].  A Python [float] is the rational [Q] it
      denotes; the text Python prints for a float is a parameter of the model
      (class [Builtins]).
    - An exception is its class (the message text is dropped).  A computation
      ends in [Ok v], in [Raise e], or it never ends ([Diverge]).
    - Objects that are shared and mutated (the dictionaries of a collection,
      the list an instance holds, the instances themselves) live in a store
      and are named by locations. *)

From Stdlib Require Import ZArith QArith String Ascii List Bool Lia DecimalString.
From Stdlib Require Sorted.
From stdpp Require Import base option gmap strings list fin_maps.

Open Scope Z_scope.

(** ** Python basics shared by both toolkits *)

Module Py.

(** The exception classes the modelled code can raise.  [SystemError] is
    raised by no modelled statement: it marks the use of a location that
    names no object of the store, which no Python program can hold. *)
Inductive exn : Type :=
| ValueError
| TypeError
| KeyError
| IndexError
| NameError
| AttributeError
| ZeroDivisionError
| SystemError.

(** How a call ends. *)
Inductive result (A : Type) : Type :=
| Ok (a : A)
| Raise (e : exn)
| Diverge.
Arguments Ok {A} a.
Arguments Raise {A} e.
Arguments Diverge {A}.

Definition rbind {A B : Type} (r : result A) (k : A -> result B) : result B :=
  match r with
  | Ok a => k a
  | Raise e => Raise e
  | Diverge => Diverge
  end.

Notation "'let?' x ':=' r 'in' k" := (rbind r (fun x => k))
  (at level 10, x pattern, r at level 100, k at level 200).

(** Effectful code: a state [S] is threaded through, and survives a raise. *)
Definition M (S A : Type) : Type := S -> result A * S.

Definition ret {S A : Type} (a : A) : M S A := fun s => (Ok a, s).
Definition bind {S A B : Type} (m : M S A) (k : A -> M S B) : M S B :=
  fun s =>
    match m s with
    | (Ok a, s') => k a s'
    | (Raise e, s') => (Raise e, s')
    | (Diverge, s') => (Diverge, s')
    end.
Definition raise {S A : Type} (e : exn) : M S A := fun s => (Raise e, s).
Definition lift {S A : Type} (r : result A) : M S A := fun s => (r, s).
Definition gets {S A : Type} (f : S -> A) : M S A := fun s => (Ok (f s), s).
Definition modify {S : Type} (f : S -> S) : M S unit := fun s => (Ok tt, f s).

Notation "'let*' x ':=' m 'in' k" := (bind m (fun x => k))
  (at level 10, x pattern, m at level 100, k at level 200).
Notation "m ';;' k" := (bind m (fun _ => k))
  (at level 100, k at level 200, right associativity).

(** [for x in xs: body x] *)
Fixpoint for_each {S A : Type} (xs : list A) (body : A -> M S unit) : M S unit :=
  match xs with
  | [] => ret tt
  | x :: xs' => bind (body x) (fun _ => for_each xs' body)
  end.

(** A loop that carries an accumulator (a local variable the body rebinds). *)
Fixpoint fold_each {S A B : Type} (xs : list A) (body : B -> A -> M S B) (acc : B) : M S B :=
  match xs with
  | [] => ret acc
  | x :: xs' => bind (body acc x) (fun acc' => fold_each xs' body acc')
  end.

Fixpoint rfold {A B : Type} (xs : list A) (body : B -> A -> result B) (acc : B) : result B :=
  match xs with
  | [] => Ok acc
  | x :: xs' => rbind (body acc x) (fun acc' => rfold xs' body acc')
  end.

(** *** Characters and strings *)

Definition code (c : ascii) : N := N_of_ascii c.

(** ['0'] to ['9']. *)
Definition is_decimal (c : ascii) : bool := ((48 <=? code c) && (code c <=? 57))%N.

(** [str.isdigit] on one character: the decimal digits and, below 256, the
    superscripts two, three and one. *)
Definition char_isdigit (c : ascii) : bool :=
  is_decimal c || (code c =? 178)%N || (code c =? 179)%N || (code c =? 185)%N.

(** [str.isspace] on one character (what [str.split()] splits at). *)
Definition char_isspace (c : ascii) : bool :=
  (((9 <=? code c) && (code c <=? 13)) || ((28 <=? code c) && (code c <=? 32))
   || (code c =? 133) || (code c =? 160))%N.

Definition char_lower (c : ascii) : ascii :=
  let n := code c in
  if (((65 <=? n) && (n <=? 90)) || ((192 <=? n) && (n <=? 214)) || ((216 <=? n) && (n <=? 222)))%N
  then ascii_of_N (n + 32) else c.

Definition chars (s : string) : list ascii := list_ascii_of_string s.
Definition of_chars (cs : list ascii) : string := string_of_list_ascii cs.

Definition len (s : string) : Z := Z.of_nat (String.length s).

(** [s.isdigit()]: every character is a digit and there is at least one. *)
Definition isdigit (s : string) : bool :=
  match chars s with
  | [] => false
  | cs => forallb char_isdigit cs
  end.

(** [s.lower()] *)
Definition lower (s : string) : string := of_chars (map char_lower (chars s)).

(** [s.replace(a, b)] for single characters [a], [b]. *)
Definition replace_char (a b : ascii) (s : string) : string :=
  of_chars (map (fun c => if Ascii.eqb c a then b else c) (chars s)).

(** [int(d)] for a one-character string [d]. *)
Definition int_of_char (c : ascii) : result Z :=
  if is_decimal c then Ok (Z.of_N (code c) - 48) else Raise ValueError.

(** [str(n)] for an int. *)
Definition str_of_int (n : Z) : string := NilZero.string_of_int (Z.to_int n).

(** [sub in s] for strings. *)
Fixpoint contains_chars (sub s : list ascii) : bool :=
  match s with
  | [] => match sub with [] => true | _ => false end
  | _ :: s' => bool_decide (sub `prefix_of` s) || contains_chars sub s'
  end.
Definition contains (sub s : string) : bool := contains_chars (chars sub) (chars s).

(** [s * n]: repetition of a one-character string. *)
Definition repeat_char (c : ascii) (n : Z) : string := of_chars (replicate (Z.to_nat n) c).

(** Slices [xs[:k]] and [xs[k:]], with Python's reading of a negative or
    too large bound. *)
Definition clamp {A : Type} (xs : list A) (k : Z) : nat :=
  let n := Z.of_nat (length xs) in
  Z.to_nat (if k <? 0 then Z.max 0 (n + k) else Z.min k n).
Definition slice_to {A : Type} (xs : list A) (k : Z) : list A := take (clamp xs k) xs.
Definition slice_from {A : Type} (xs : list A) (k : Z) : list A := drop (clamp xs k) xs.

Definition str_to (s : string) (k : Z) : string := of_chars (slice_to (chars s) k).
Definition str_from (s : string) (k : Z) : string := of_chars (slice_from (chars s) k).

(** [s.split()]: the maximal runs of characters that are not white space. *)
Fixpoint split_chars (cur : list ascii) (s : list ascii) : list (list ascii) :=
  match s with
  | [] => match cur with [] => [] | _ => [rev cur] end
  | c :: s' =>
      if char_isspace c
      then match cur with [] => split_chars [] s' | _ => rev cur :: split_chars [] s' end
      else split_chars (c :: cur) s'
  end.
Definition split (s : string) : list string := map of_chars (split_chars [] (chars s)).

(** [xs[i]] for [0 <= i]; out of range raises [IndexError]. *)
Definition index {A : Type} (xs : list A) (i : nat) : result A :=
  match xs !! i with
  | Some x => Ok x
  | None => Raise IndexError
  end.

(** [xs[-1]] *)
Definition index_last {A : Type} (xs : list A) : result A :=
  match last xs with
  | Some x => Ok x
  | None => Raise IndexError
  end.

(** [format(s, '<w')] and [format(s, '>w')] for a string [s]: a negative
    width is not a format specification. *)
Definition ljust (s : string) (w : Z) : result string :=
  if w <? 0 then Raise ValueError
  else Ok (s +:+ repeat_char " " (w - len s)).
Definition rjust (s : string) (w : Z) : result string :=
  if w <? 0 then Raise ValueError
  else Ok (repeat_char " " (w - len s) +:+ s).

(** *** Values held in records *)

Inductive value : Type :=
| VStr (s : string)
| VInt (n : Z)
| VFloat (q : Q)
| VNone.

(** Conversions of Python's own that the model takes as given: the text of
    a float, [str(x)] and [format(x, '.2f')], and the text
    [d.strftime('%Y:%m:%d')] of the date [n] days after 1 January 2010. *)
Class Builtins : Type := {
  float_str : Q -> string;
  float_fmt2 : Q -> string;
  date_str : Z -> string
}.

(** [str(v)] *)
Definition str `{Builtins} (v : value) : string :=
  match v with
  | VStr s => s
  | VInt n => str_of_int n
  | VFloat q => float_str q
  | VNone => "None"
  end.

(** The number a numeric value denotes. *)
Definition number (v : value) : option Q :=
  match v with
  | VInt n => Some (inject_Z n)
  | VFloat q => Some q
  | _ => None
  end.

Definition is_number (v : value) : bool :=
  match v with VInt _ | VFloat _ => true | _ => false end.

(** [a < b] on strings: by code point, a proper prefix first. *)
Fixpoint chars_lt (a b : list ascii) : bool :=
  match a, b with
  | _, [] => false
  | [], _ :: _ => true
  | x :: a', y :: b' =>
      if (code x <? code y)%N then true
      else if (code y <? code x)%N then false
      else chars_lt a' b'
  end.

(** [a < b] on values: numbers with numbers, strings with strings. *)
Definition lt (a b : value) : result bool :=
  match a, b with
  | VStr s, VStr t => Ok (chars_lt (chars s) (chars t))
  | _, _ =>
      match number a, number b with
      | Some p, Some q => Ok (negb (Qle_bool q p))
      | _, _ => Raise TypeError
      end
  end.

(** [a > b] *)
Definition gt (a b : value) : result bool := lt b a.

(** [a == b] *)
Definition eq (a b : value) : bool :=
  match a, b with
  | VStr s, VStr t => bool_decide (s = t)
  | VNone, VNone => true
  | _, _ =>
      match number a, number b with
      | Some p, Some q => Qeq_bool p q
      | _, _ => false
      end
  end.

(** [format(v, '<w')]: [None] accepts no format specification. *)
Definition format_left `{Builtins} (v : value) (w : Z) : result string :=
  match v with
  | VNone => Raise TypeError
  | _ => ljust (str v) w
  end.

(** [format(v, '.2f')]: a string has no such format code. *)
Definition format_2f `{Builtins} (v : value) : result string :=
  match v with
  | VInt n => Ok (float_fmt2 (inject_Z n))
  | VFloat q => Ok (float_fmt2 q)
  | VStr _ => Raise ValueError
  | VNone => Raise TypeError
  end.

(** [v.lower()]: only a string has the method. *)
Definition lower_of (v : value) : result string :=
  match v with
  | VStr s => Ok (lower s)
  | _ => Raise AttributeError
  end.

(** The line feed, and a one-character string. *)
Definition nl : string := String (ascii_of_N 10) EmptyString.
Definition pound : string := String (ascii_of_N 163) EmptyString.

(** *** Dictionaries: keys in insertion order *)

Definition dict : Type := list (string * value).

Definition keys (d : dict) : list string := map fst d.

Fixpoint dict_get (k : string) (d : dict) : option value :=
  match d with
  | [] => None
  | (k', v) :: d' => if String.eqb k k' then Some v else dict_get k d'
  end.

(** [d[k] = v]: an existing key keeps its place, a new key goes last. *)
Fixpoint dict_set (k : string) (v : value) (d : dict) : dict :=
  match d with
  | [] => [(k, v)]
  | (k', v') :: d' => if String.eqb k k' then (k', v) :: d' else (k', v') :: dict_set k v d'
  end.

(** [d[k]] *)
Definition getitem (d : dict) (k : string) : result value :=
  match dict_get k d with
  | Some v => Ok v
  | None => Raise KeyError
  end.

(** [d.get(k, default)] *)
Definition get_or (d : dict) (k : string) (default : value) : value :=
  match dict_get k d with
  | Some v => v
  | None => default
  end.

(** [k in xs] for a list of strings. *)
Definition mem (k : string) (xs : list string) : bool :=
  existsb (String.eqb k) xs.

(** *** [sorted(xs, key=..., reverse=...)]

    The keys are computed first.  The sort is stable, also when reversed.
    Comparing two keys that are not both numbers or both strings raises
    [TypeError]; a list of fewer than two elements is not compared at all. *)

Definition comparable (a b : value) : bool :=
  match a, b with
  | VStr _, VStr _ => true
  | _, _ => is_number a && is_number b
  end.

Definition lt_bool (a b : value) : bool :=
  match lt a b with Ok true => true | _ => false end.

Fixpoint insert_sorted {A : Type} (reverse : bool) (x : value * A) (ys : list (value * A))
  : list (value * A) :=
  match ys with
  | [] => [x]
  | y :: ys' =>
      if (if reverse then lt_bool x.1 y.1 else lt_bool y.1 x.1)
      then y :: insert_sorted reverse x ys'
      else x :: y :: ys'
  end.

Definition sorted_by {A : Type} (keyed : list (value * A)) (reverse : bool) : result (list A) :=
  match keyed with
  | [] | [_] => Ok (map snd keyed)
  | k0 :: _ =>
      if forallb (fun k => comparable k0.1 k.1) keyed
      then Ok (map snd (foldr (insert_sorted reverse) [] keyed))
      else Raise TypeError
  end.

End Py.

(** ** A2: [CleanerClass.count_removed_rows] and [TimeAndMemory] *)

Module A2.
Import Py.

(** A DataFrame built from a dictionary of columns: the columns in order,
    each with its values.  [len(df)] is the number of rows. *)
Definition DataFrame : Type := list (string * list value).

Definition nrows (df : DataFrame) : Z :=
  match df with
  | [] => 0
  | (_, column) :: _ => Z.of_nat (length column)
  end.

(** Row [i]: the value of each column there. *)
Definition row (df : DataFrame) (i : nat) : list (string * option value) :=
  map (fun '(name, column) => (name, column !! i)) df.

(** *** CleanerClass.count_removed_rows *)

(** The names [count_removed_rows] can read: its parameters, its locals
    once assigned, and the module's names.  No builtin is called
    [original_len] or [new_len]. *)
Definition names_in_scope : list string :=
  ["self"; "df1"; "df2"; "df1_len"; "df2_len";
   "pd"; "np"; "plt"; "time"; "gc"; "psutil"; "os"; "CleanerClass"; "TimeAndMemory"].

(** Reading a name: an unbound name raises [NameError]. *)
Definition read_name (name : string) : result unit :=
  if mem name names_in_scope then Ok tt else Raise NameError.

(** Evaluating the replacement fields of an f-string, left to right. *)
Definition fstring_fields (names : list string) : result unit :=
  rfold names (fun _ name => read_name name) tt.

(** [round((a / b) * 100, 2)] in float arithmetic, for [b] not zero, is
    Python's own; the model takes it as given. *)
Class Percent : Type := percent2 : Z -> Z -> Q.

Section CleanerClass.
Context `{Builtins} `{Percent}.

Definition count_removed_rows (df1 df2 : DataFrame) : result string :=
  (* [if not isinstance(df1, ...) or isinstance(df2, ...): TypeError(...)]
     builds an exception and drops it: nothing is raised. *)
  let df1_len := nrows df1 in
  let df2_len := nrows df2 in
  if df1_len <? df2_len then
    (* the argument of [ValueError(...)] is evaluated first *)
    let? _ := fstring_fields ["df1"; "df2"; "df1"; "original_len"; "df2"; "new_len"] in
    Raise ValueError
  else
    let removed_rows := df1_len - df2_len in
    if df1_len =? 0 then Raise ZeroDivisionError
    else
      let perc_removed := percent2 removed_rows df1_len in
      Ok ("Number of rows removed from DataFrame: " +:+ str_of_int removed_rows +:+ nl
          +:+ "Percentage of rows removed: " +:+ float_str perc_removed +:+ nl).

End CleanerClass.

(** *** TimeAndMemory *)

(** What a live measurement does to the process and its surroundings. *)
Inductive event : Type :=
| Seed (n : Z)
| GcCollect
| GcDisable
| GcEnable
| ReadClock
| ReadRss
| Call (size : Z).

(** A profiler ([self.results], [self.residuals]) and its surroundings: the
    effects so far, and what the clock and the resident-memory counter
    will read next. *)
Record world : Type := World {
  results : gmap string DataFrame;
  residuals : gmap (string * string) (list Q);
  trace : list event;
  clock : nat -> Q;
  rss : nat -> Z
}.

Definition set_results (f : gmap string DataFrame -> gmap string DataFrame) (w : world) : world :=
  World (f (results w)) (residuals w) (trace w) (clock w) (rss w).

Definition emit (e : event) : M world unit :=
  fun w => (Ok tt, World (results w) (residuals w) (trace w ++ [e]) (clock w) (rss w)).

(** [time.time()] *)
Definition time_time : M world Q :=
  fun w => (Ok (clock w 0%nat),
            World (results w) (residuals w) (trace w ++ [ReadClock]) (fun n => clock w (S n)) (rss w)).

(** [process.memory_info().rss] *)
Definition memory_rss : M world Z :=
  fun w => (Ok (rss w 0%nat),
            World (results w) (residuals w) (trace w ++ [ReadRss]) (clock w) (fun n => rss w (S n))).

Definition table_mat_mult : DataFrame :=
  [
   ("Size",
    [VFloat 15.0; VFloat 30.0; VFloat 45.0; VFloat 60.0; VFloat 75.0; VFloat 90.0;
     VFloat 105.0; VFloat 120.0; VFloat 135.0; VFloat 150.0]);
   ("Time (s)",
    [VFloat 0.007217; VFloat 0.079013; VFloat 0.262462; VFloat 0.661467; VFloat 1.452451;
     VFloat 2.369175; VFloat 3.473095; VFloat 5.244003; VFloat 7.414388; VFloat 10.134657]);
   ("Memory (bytes)",
    [VFloat 69632.0; VFloat 77824.0; VFloat 118784.0; VFloat 147456.0; VFloat 200704.0;
     VFloat 241664.0; VFloat 430080.0; VFloat 483328.0; VFloat 544768.0; VFloat 610304.0])
  ].

Definition table_mat_mult_np : DataFrame :=
  [
   ("Size",
    [VFloat 500.0; VFloat 1000.0; VFloat 1500.0; VFloat 2000.0; VFloat 2500.0; VFloat 3000.0;
     VFloat 3500.0; VFloat 4000.0; VFloat 4500.0; VFloat 5000.0]);
   ("Time (s)",
    [VFloat 0.030703; VFloat 0.121913; VFloat 0.309546; VFloat 0.597226; VFloat 0.994957;
     VFloat 1.622734; VFloat 2.379991; VFloat 3.268138; VFloat 4.443916; VFloat 5.982008]);
   ("Memory (bytes)",
    [VFloat 2097152.0; VFloat 5853184.0; VFloat 8491008.0; VFloat 9031680.0;
     VFloat 10604544.0; VFloat 12177408.0; VFloat 13692928.0; VFloat 15065088.0;
     VFloat 16896000.0; VFloat 18468864.0])
  ].

Definition table_sort_ints : DataFrame :=
  [
   ("Size",
    [VInt 400; VInt 800; VInt 1200; VInt 1600; VInt 2000; VInt 2400; VInt 2800; VInt 3200;
     VInt 3600; VInt 4000]);
   ("Time (s)",
    [VFloat 0.082925; VFloat 0.200214; VFloat 0.451068; VFloat 0.997305; VFloat 1.469594;
     VFloat 3.735391; VFloat 4.827899; VFloat 6.239969; VFloat 8.044682; VFloat 9.797529]);
   ("Memory (bytes)",
    [VInt 40960; VInt 40960; VInt 40960; VInt 40960; VInt 40960; VInt 40960; VInt 57344;
     VInt 57344; VInt 57344; VInt 77824])
  ].

Definition table_substring_inv : DataFrame :=
  [
   ("Size",
    [VInt 1000; VInt 2000; VInt 3000; VInt 4000; VInt 5000; VInt 6000; VInt 7000; VInt 8000;
     VInt 9000; VInt 10000]);
   ("Time (s)",
    [VFloat 0.001513; VFloat 0.002078; VFloat 0.003120; VFloat 0.004072; VFloat 0.005971;
     VFloat 0.007802; VFloat 0.008427; VFloat 0.009420; VFloat 0.010666; VFloat 0.011602]);
   ("Memory (bytes)",
    [VInt 163840; VInt 299008; VInt 413696; VInt 528384; VInt 638976; VInt 733184;
     VInt 901120; VInt 995328; VInt 1175552; VInt 1269760])
  ].

Definition table_python_find_inv : DataFrame :=
  [
   ("Size",
    [VInt 1000; VInt 2000; VInt 3000; VInt 4000; VInt 5000; VInt 6000; VInt 7000; VInt 8000;
     VInt 9000; VInt 10000]);
   ("Time (s)",
    [VFloat 0.002591; VFloat 0.002223; VFloat 0.004204; VFloat 0.006453; VFloat 0.004950;
     VFloat 0.005067; VFloat 0.009603; VFloat 0.009444; VFloat 0.007722; VFloat 0.008916]);
   ("Memory (bytes)",
    [VInt 163840; VInt 307200; VInt 425984; VInt 532480; VInt 679936; VInt 798720;
     VInt 888832; VInt 999424; VInt 1142784; VInt 1282048])
  ].

(** [TimeAndMemory()]: the five tables are stored at construction. *)
Definition init (clock : nat -> Q) (rss : nat -> Z) : world :=
  World
       (<["python_find_inv" := table_python_find_inv]>
       (<["substring_inv" := table_substring_inv]>
       (<["sort_ints" := table_sort_ints]>
       (<["mat_mult_np" := table_mat_mult_np]>
       (<["mat_mult" := table_mat_mult]>
        ∅))))) ∅ [] clock rss.

Definition recognised : list string :=
  ["mat_mult"; "mat_mult_np"; "sort_ints"; "substring_inv"; "python_find_inv"].

(** In the [else] branch the source writes [ValueError('Name is not
    recognised.')] without [raise]: the exception is built and dropped. *)
Definition save_results (name : string) (func_df : DataFrame) : M world unit :=
  if mem name recognised
  then modify (set_results <[name := func_df]>)
  else let _ := ValueError in ret tt.

(** [np.zeros(10)] *)
Definition zeros : list value := replicate 10 (VFloat 0).

(** One round of [for i in range(1, 11)]. *)
Definition measure (function : Z -> M world unit) (step_size baseRam : Z)
    (arrays : list value * list value * list value) (i : nat)
  : M world (list value * list value * list value) :=
  let '(var_size, resTime, resSpace) := arrays in
  let size := Z.of_nat i * step_size in
  let var_size := <[(i - 1)%nat := VFloat (inject_Z size)]> var_size in
  let* start := time_time in
  emit (Call size);;
  function size;;
  let* end_ := time_time in
  let* ram := memory_rss in
  let resTime := <[(i - 1)%nat := VFloat (end_ - start)]> resTime in
  let resSpace := <[(i - 1)%nat := VFloat (inject_Z (ram - baseRam))]> resSpace in
  ret (var_size, resTime, resSpace).

Definition investigate (function : Z -> M world unit) (name : string) (step_size : Z)
    (submission : bool) : M world DataFrame :=
  if submission then
    let* stored := gets results in
    match stored !! name with
    | Some table => ret table
    | None => raise ValueError
    end
  else
    emit (Seed 1303);;
    emit GcCollect;;
    let* baseRam := memory_rss in
    emit GcDisable;;
    let* (var_size, resTime, resSpace) :=
      fold_each (seq 1 10) (measure function step_size baseRam) (zeros, zeros, zeros) in
    emit GcEnable;;
    emit GcCollect;;
    let func_df :=
      [("Size", var_size); ("Time (s)", resTime); ("Memory (bytes)", resSpace)] in
    save_results name func_df;;
    ret func_df.

(** [df[name]]: the column of that name. *)
Fixpoint getcolumn (name : string) (df : DataFrame) : result (list value) :=
  match df with
  | [] => Raise KeyError
  | (name', column) :: df' => if String.eqb name name' then Ok column else getcolumn name df'
  end.

Definition extract_vars (name : string) : M world (list value * list value * list value) :=
  let* stored := gets results in
  match stored !! name with
  | None => raise KeyError
  | Some table =>
      let* size := lift (getcolumn "Size" table) in
      let* resTime := lift (getcolumn "Time (s)" table) in
      let* resSpace := lift (getcolumn "Memory (bytes)" table) in
      ret (size, resTime, resSpace)
  end.

(** *** TimeAndMemory: the algorithms under measurement *)

(** [np.random]: the numbers the generator will draw next. *)
Definition generator : Type := nat -> nat.

(** [size] draws, each turned into a value by [pick]; NumPy refuses a
    negative size. *)
Definition draw {A : Type} (pick : nat -> A) (size : Z) : M generator (list A) :=
  fun g =>
    if size <? 0 then (Raise ValueError, g)
    else (Ok (map (fun k => pick (g k)) (seq 0 (Z.to_nat size))),
          fun k => g (Z.to_nat size + k)%nat).

(** One round of [for j in range(i + 1, length)]. *)
Definition least (values : list Z) (min_index j : nat) : nat :=
  if nth j values 0 <? nth min_index values 0 then j else min_index.

(** One round of [for i in range(length - 1)]: both sides of the swap are
    read before either is written. *)
Definition select (values : list Z) (i : nat) : list Z :=
  let min_index := foldl (least values) i (seq (i + 1) (length values - (i + 1))) in
  let at_min := nth min_index values 0 in
  let at_i := nth i values 0 in
  <[min_index := at_i]> (<[i := at_min]> values).

(** The loops of [sort_ints], on an array of [length] values. *)
Definition selection_sort (values : list Z) : list Z :=
  foldl select values (seq 0 (length values - 1)).

Definition sort_ints (length : value) : M generator unit :=
  match length with
  | VInt length =>
      if length <=? 0 then raise ValueError
      else
        let* values := draw (fun n => Z.of_nat n mod 10000) length in
        let values := selection_sort values in
        ret tt
  | _ => raise TypeError
  end.

Definition characters : string := "abcdefghijklmnopqrstuvwxyz ".

Definition random_str (length : value) : M generator string :=
  match length with
  | VInt length =>
      let options := chars characters in
      let* chosen := draw (fun n => nth (n mod List.length options) options " "%char) length in
      ret (of_chars chosen)
  | _ => raise TypeError
  end.

(** [string[i : j]] for [0 <= i <= j]. *)
Definition between (s : string) (i j : nat) : string :=
  of_chars (take (j - i) (drop i (chars s))).

(** The loop of [substring_check], which returns at the first match. *)
Fixpoint first_match (string substring : string) (indices : list nat) : bool :=
  match indices with
  | [] => false
  | i :: indices' =>
      if String.eqb (between string i (i + String.length substring)) substring then true
      else first_match string substring indices'
  end.

Definition substring_check (string substring : value) : result bool :=
  match string, substring with
  | VStr string, VStr substring =>
      if String.eqb string "" || String.eqb substring "" then Raise ValueError
      else if len string <? len substring then Ok false
      else Ok (first_match string substring
                 (seq 0 (Z.to_nat (len string - len substring + 1))))
  | _, _ => Raise ValueError
  end.

(** [int(length * 0.1)] in float arithmetic is Python's own; the model
    takes it as given. *)
Class Tenth : Type := tenth : Z -> Z.

(** [s.find(sub)]: the least index at which [sub] occurs, or -1. *)
Fixpoint find_chars (sub s : list ascii) (i : Z) : Z :=
  if bool_decide (sub `prefix_of` s) then i
  else match s with
       | [] => -1
       | _ :: s' => find_chars sub s' (i + 1)
       end.
Definition find (s sub : string) : Z := find_chars (chars sub) (chars s) 0.

Section Substring.
Context `{Tenth}.

Definition substring_inv (length : value) : M generator unit :=
  match length with
  | VInt length =>
      let* string := random_str (VInt length) in
      let substring_length := tenth length in
      let* substring := random_str (VInt substring_length) in
      let* _ := lift (substring_check (VStr string) (VStr substring)) in
      ret tt
  | _ => raise TypeError
  end.

Definition python_find_inv (length : value) : M generator unit :=
  match length with
  | VInt length =>
      let* string := random_str (VInt length) in
      let substring_length := tenth length in
      let* substring := random_str (VInt substring_length) in
      let _ := find string substring in
      ret tt
  | _ => raise TypeError
  end.

End Substring.

End A2.

(** ** A3: [helperClass], [bookData] and [commentData] *)

Module A3.
Import Py.

Abbreviation loc := positive (only parsing).

(** The store.  [dicts] holds the records (dictionaries), [lists] the list
    objects that instances hold (a list of references to records),
    [book_objs] and [comment_objs] the instances of [bookData] and
    [commentData], each with the one attribute it has.  [stdout] is what
    was printed, a line per [print]; [random] is what the process-wide
    random generator will draw next; [today] is [date.today()], in days
    after 1 January 2010. *)
Record world : Type := World {
  dicts : gmap loc dict;
  lists : gmap loc (list loc);
  book_objs : gmap loc loc;
  comment_objs : gmap loc loc;
  stdout : list string;
  random : nat -> Z;
  today : Z
}.

Definition set_dicts (f : gmap loc dict -> gmap loc dict) (w : world) : world :=
  World (f (dicts w)) (lists w) (book_objs w) (comment_objs w) (stdout w) (random w) (today w).
Definition set_lists (f : gmap loc (list loc) -> gmap loc (list loc)) (w : world) : world :=
  World (dicts w) (f (lists w)) (book_objs w) (comment_objs w) (stdout w) (random w) (today w).
Definition set_book_objs (f : gmap loc loc -> gmap loc loc) (w : world) : world :=
  World (dicts w) (lists w) (f (book_objs w)) (comment_objs w) (stdout w) (random w) (today w).
Definition set_comment_objs (f : gmap loc loc -> gmap loc loc) (w : world) : world :=
  World (dicts w) (lists w) (book_objs w) (f (comment_objs w)) (stdout w) (random w) (today w).
Definition set_stdout (f : list string -> list string) (w : world) : world :=
  World (dicts w) (lists w) (book_objs w) (comment_objs w) (f (stdout w)) (random w) (today w).
Definition set_random (f : (nat -> Z) -> nat -> Z) (w : world) : world :=
  World (dicts w) (lists w) (book_objs w) (comment_objs w) (stdout w) (f (random w)) (today w).

Definition read {A : Type} (m : world -> gmap loc A) (l : loc) : M world A :=
  fun w => match m w !! l with
           | Some x => (Ok x, w)
           | None => (Raise SystemError, w)
           end.

(** [print(line)] *)
Definition print (line : string) : M world unit :=
  modify (set_stdout (fun out => out ++ [line])).

(** A list that is built locally becomes an object of the store when it is
    handed on; it gets a location no object has. *)
Definition new_list (items : list loc) : M world loc :=
  fun w => let l := fresh (dom (lists w)) in (Ok l, set_lists <[l := items]> w).

(** [bookData(books)] and [commentData(comments)] *)
Definition new_bookData (books : loc) : M world loc :=
  fun w => let o := fresh (dom (book_objs w)) in (Ok o, set_book_objs <[o := books]> w).
Definition new_commentData (comments : loc) : M world loc :=
  fun w => let o := fresh (dom (comment_objs w)) in (Ok o, set_comment_objs <[o := comments]> w).

(** [random.randint(a, b)] *)
Definition randint (a b : Z) : M world Z :=
  fun w =>
    if b <? a then (Raise ValueError, w)
    else (Ok (a + random w 0%nat mod (b - a + 1)), set_random (fun r n => r (S n)) w).

(** *** helperClass *)

Section Helpers.
Context `{Builtins}.

(** One round of [for item in data] in [maxLength]. *)
Definition longest (key : string) (acc : Z * bool) (item : dict) : Z * bool :=
  let '(max_length, found_key) := acc in
  match dict_get key item with
  | Some v => (Z.max max_length (len (str v)), true)
  | None => (max_length, found_key)
  end.

Definition maxLength (data : list dict) (key : string) : result Z :=
  let '(max_length, found_key) := foldl (longest key) (0, false) data in
  if negb found_key then Raise ValueError else Ok max_length.

Definition add_hyphen (to_string : value) (index : Z) : result string :=
  let string := str to_string in
  if (index <? 0) || (len string <=? index) then Raise ValueError
  else Ok (str_to string index +:+ "-" +:+ str_from string index).

(** The [while len(word) > width] loop of [wrap_text]: [None] when the
    fuel is used up before the loop ends. *)
Fixpoint split_long (fuel : nat) (width : Z) (word : string) (lines : list string)
  : option (string * list string) :=
  if width <? len word then
    match fuel with
    | O => None
    | S fuel' => split_long fuel' width (str_from word width) (lines ++ [str_to word width])
    end
  else Some (word, lines).

(** One round of [for word in words].  The inner loop is run with the
    word's length as fuel: that is enough whenever the loop ends at all
    (lemmas [split_long_ends] and [split_long_never_ends]). *)
Definition wrap_word (width : Z) (st : list string * string) (word : string)
  : result (list string * string) :=
  let '(lines, current_line) := st in
  match split_long (String.length word) width word lines with
  | None => Diverge
  | Some (word, lines) =>
      if len current_line + len word + 1 <=? width
      then Ok (lines, current_line +:+ (if String.eqb current_line "" then "" else " ") +:+ word)
      else Ok (lines ++ [current_line], word)
  end.

Definition wrap_text (text : value) (width : Z) : result (list string) :=
  match text with
  | VStr text =>
      let text := replace_char (ascii_of_N 10) " " text in
      let words := split text in
      let? (lines, current_line) := rfold words (wrap_word width) ([], "") in
      if String.eqb current_line "" then Ok lines else Ok (lines ++ [current_line])
  | _ => Raise TypeError
  end.

Definition preview_limit (text : value) (max_length : Z) : result value :=
  match text with
  | VStr text =>
      if max_length <? len text then Ok (VStr (str_to text max_length +:+ "..."))
      else Ok (VStr text)
  | _ => Raise TypeError
  end.

(** Two digits, as [strftime] writes an hour, a minute or a second. *)
Definition two_digits (n : Z) : string :=
  if n <? 10 then "0" +:+ str_of_int n else str_of_int n.

Definition gen_rand_time : M world string :=
  let* hour := randint 0 23 in
  let* minute := randint 0 59 in
  let* second := randint 0 59 in
  ret (two_digits hour +:+ ":" +:+ two_digits minute +:+ ":" +:+ two_digits second).

Definition gen_rand_date : M world string :=
  let* day_difference := gets (fun w => today w - 1) in
  let* random_days := randint 0 day_difference in
  ret (date_str random_days).

Definition gen_rand_ip : M world string :=
  let* num_1 := randint 0 255 in
  let* num_2 := randint 0 255 in
  let* num_3 := randint 0 255 in
  let* num_4 := randint 0 255 in
  ret (str_of_int num_1 +:+ "." +:+ str_of_int num_2 +:+ "." +:+ str_of_int num_3
        +:+ "." +:+ str_of_int num_4).

End Helpers.

(** The module's sample data, [books]. *)
Definition books : list dict :=
  [
   [("ISBN", VStr "9781785150289"); ("Title", VStr "Go Set a Watchman");
    ("Author", VStr "Harper Lee"); ("Price", VFloat 9.89)];
   [("ISBN", VStr "9780744016697"); ("Title", VStr "The Legend of Zelda: Tri Force Heroes");
    ("Author", VStr "Prima Games"); ("Price", VFloat 14.99)];
   [("ISBN", VStr "9780099529126"); ("Title", VStr "Catch-22");
    ("Author", VStr "Joseph Heller"); ("Price", VFloat 6.29)];
   [("ISBN", VStr "9780007447831"); ("Title", VStr "A Clash of Kings");
    ("Author", VStr "George R. R. Martin"); ("Price", VFloat 4.95)];
   [("ISBN", VStr "9781853260001"); ("Title", VStr "Pride and Prejudice");
    ("Author", VStr "Jane Austin"); ("Price", VFloat 1.99)];
   [("ISBN", VStr "9780099576853"); ("Title", VStr "Casino Royale");
    ("Author", VStr "Ian Fleming"); ("Price", VFloat 6.79)];
   [("ISBN", VStr "9780099549482"); ("Title", VStr "To Kill a Mockingbird");
    ("Author", VStr "Harper Lee"); ("Price", VFloat 4.99)];
   [("ISBN", VStr "9780333998667"); ("Title", VStr "Fundamentals of Computer Architecture");
    ("Author", VStr "Mark Burrell"); ("Price", VFloat 41.10)];
   [("ISBN", VStr "9780701189358"); ("Title", VStr "Simply Nigella: Feel Good Food");
    ("Author", VStr "Nigella Lawson"); ("Price", VFloat 12.50)]
  ].

(** *** bookData *)

Section BookData.
Context `{Builtins}.

(** [self.books], and the records the list holds. *)
Definition books_of (self : loc) : M world (list loc) :=
  let* books := read book_objs self in
  read lists books.

Definition toISBN (isbn : value) : result string :=
  let str_isbn := str isbn in
  let indices := [3; 5; 9; 15] in
  rfold indices (fun new_isbn index => add_hyphen (VStr new_isbn) index) str_isbn.

(** The loop [for i in range(12)] of [valid]: [products] grows by one
    entry a round and [cumulative_sum] by that entry. *)
Definition valid_round (digits : list Z) (st : list Z * Z) (i : nat) : result (list Z * Z) :=
  let '(products, cumulative_sum) := st in
  let? d := index digits i in
  let products := products ++ [if (Z.of_nat i mod 2 =? 1) then d * 3 else d] in
  let? p := index products i in
  Ok (products, cumulative_sum + p).

Definition valid (isbn : value) : result bool :=
  let str_isbn := str isbn in
  if negb (isdigit str_isbn) || negb (len str_isbn =? 13) then Raise ValueError
  else
    let? digits := rfold (chars str_isbn) (fun ds d => let? n := int_of_char d in Ok (ds ++ [n])) [] in
    let? (products, cumulative_sum) := rfold (seq 0 12) (valid_round digits) ([], 0) in
    let check_digit := 10 - cumulative_sum mod 10 in
    let? last_digit := index_last digits in
    if negb (last_digit =? check_digit) then Ok false else Ok true.

(** One round of [for book in self.books] in [validateISBNs]. *)
Definition validate_round (valid_books : list loc) (book : loc) : M world (list loc) :=
  let* record := read dicts book in
  let* isbn := lift (getitem record "ISBN") in
  let* ok := lift (valid isbn) in
  if ok then ret (valid_books ++ [book])
  else
    let* title := lift (getitem record "Title") in
    print ("Removing book: '" +:+ str title +:+ "' from the database.");;
    ret valid_books.

Definition validateISBNs (self : loc) : M world loc :=
  let* books := books_of self in
  let* valid_books := fold_each books validate_round [] in
  (if (length valid_books =? length books)%nat
   then print "All books in database have valid ISBN numbers."
   else ret tt);;
  let* held := new_list valid_books in
  modify (set_book_objs <[self := held]>);;
  ret self.

(** [[""] * n] *)
Definition blanks {A : Type} (blank : A) (n : Z) : list A := replicate (Z.to_nat n) blank.

Definition book_row (len_title len_author len_price : Z)
    (isbn_lines title_lines : list string) (author_lines : list value)
    (price_lines : list string) (i : nat) : M world unit :=
  let* isbn := lift (index isbn_lines i) in
  let* isbn := lift (ljust isbn 19) in
  let* title := lift (index title_lines i) in
  let* title := lift (ljust title len_title) in
  let* author := lift (index author_lines i) in
  let* author := lift (format_left author len_author) in
  let* price := lift (index price_lines i) in
  let* price := lift (rjust price len_price) in
  print ("| " +:+ isbn +:+ " | " +:+ title +:+ " | " +:+ author +:+ " | " +:+ price +:+ " |").

Definition printAllBooks (self : loc) (limit : option Z) : M world loc :=
  let* books := books_of self in
  match books with
  | [] => print "No books found.";; ret self
  | _ =>
      let wrap_width := 18 in
      let len_title := wrap_width in
      let* records := fold_each books (fun rs b => let* r := read dicts b in ret (rs ++ [r])) [] in
      let* longest_author := lift (maxLength records "Author") in
      let len_author := Z.max longest_author (len "Author") in
      let* longest_price := lift (maxLength records "Price") in
      let len_price := Z.max longest_price (len ("Price (" +:+ pound +:+ ")")) in
      let total_width := 19 + len_title + len_author + len_price in
      print (repeat_char "-" (total_width + 13));;
      let* isbn_head := lift (ljust "ISBN" 19) in
      let* title_head := lift (ljust "Title" len_title) in
      let* author_head := lift (ljust "Author" len_author) in
      let* price_head := lift (rjust ("Price (" +:+ pound +:+ ")") len_price) in
      print ("| " +:+ isbn_head +:+ " | " +:+ title_head +:+ " | " +:+ author_head
             +:+ " | " +:+ price_head +:+ " |");;
      print (repeat_char "-" (total_width + 13));;
      let books := match limit with Some n => slice_to books n | None => books end in
      for_each books (fun b =>
        let* book := read dicts b in
        let* title := lift (getitem book "Title") in
        let* title_lines := lift (wrap_text title wrap_width) in
        let* author := lift (getitem book "Author") in
        let* price := lift (getitem book "Price") in
        let* price := lift (format_2f price) in
        let* isbn := lift (getitem book "ISBN") in
        let* isbn := lift (toISBN isbn) in
        let max_lines := Z.of_nat (length title_lines) in
        let author_lines := [author] ++ blanks (VStr "") (max_lines - 1) in
        let price_lines := [price] ++ blanks "" (max_lines - 1) in
        let isbn_lines := [isbn] ++ blanks "" (max_lines - 1) in
        for_each (seq 0 (length title_lines))
          (book_row len_title len_author len_price isbn_lines title_lines author_lines price_lines));;
      print (repeat_char "-" (total_width + 13));;
      ret self
  end.

(** The comprehension [[book for book in self.books if test(book)]]. *)
Definition filter_records (items : list loc) (test : dict -> result bool) : M world (list loc) :=
  fold_each items (fun kept item =>
      let* record := read dicts item in
      let* keep := lift (test record) in
      ret (if keep then kept ++ [item] else kept)) [].

(** The common end of the filters: wrap the new list, print it, return it. *)
Definition wrap_books (items : list loc) (show : bool) : M world loc :=
  let* held := new_list items in
  let* new_obj := new_bookData held in
  (if show then printAllBooks new_obj None;; ret tt else ret tt);;
  ret new_obj.

Definition printByTitle (self : loc) (title : value) (show : bool) : M world loc :=
  match title with
  | VStr title =>
      let* books := books_of self in
      let* filtered_books := filter_records books (fun book =>
          let? held_title := getitem book "Title" in
          let? held_title := lower_of held_title in
          Ok (contains (lower title) held_title)) in
      wrap_books filtered_books show
  | _ => raise TypeError
  end.

Definition printByAuthor (self : loc) (author : value) (show : bool) : M world loc :=
  match author with
  | VStr author =>
      let* books := books_of self in
      let* filtered_books := filter_records books (fun book =>
          let? held_author := getitem book "Author" in
          let? held_author := lower_of held_author in
          Ok (contains (lower author) held_author)) in
      wrap_books filtered_books show
  | _ => raise TypeError
  end.

Definition printOverPrice (self : loc) (price : value) (show : bool) : M world loc :=
  if negb (is_number price) then raise TypeError
  else
    let* books := books_of self in
    let* filtered_books := filter_records books (fun book =>
        let? held_price := getitem book "Price" in
        gt held_price price) in
    wrap_books filtered_books show.

(** The keys [x[field]] of the records, each with its record. *)
Definition keyed_by (items : list loc) (field : string) : M world (list (value * loc)) :=
  fold_each items (fun ks item =>
      let* record := read dicts item in
      let* k := lift (getitem record field) in
      ret (ks ++ [(k, item)])) [].

Definition printAllBooksSorted (self : loc) (sortedBy : value) (reverse_param show : bool)
    (limit : option Z) : M world loc :=
  let* sortedBy_lower := lift (lower_of sortedBy) in
  if negb (mem sortedBy_lower ["price"; "title"; "author"]) then raise ValueError
  else
    let* books := books_of self in
    let* keyed := keyed_by books (str sortedBy) in
    let* sorted_books := lift (sorted_by keyed reverse_param) in
    let sorted_books := match limit with Some n => slice_to sorted_books n | None => sorted_books end in
    wrap_books sorted_books show.

End BookData.

(** *** commentData *)

Section CommentData.
Context `{Builtins}.

Definition comments_of (self : loc) : M world (list loc) :=
  let* comments := read comment_objs self in
  read lists comments.

(** [self.comments[0].keys()] *)
Definition first_keys (comments : list loc) : M world (list string) :=
  let* first := lift (index comments 0) in
  let* first := read dicts first in
  ret (keys first).

Definition pad_lines (lines : list string) (max_lines : Z) : list string :=
  lines ++ blanks "" (max_lines - Z.of_nat (length lines)).

Definition comment_row (comment : dict) (body_width : Z) (post_info_flag : bool)
    (name_lines email_lines body_lines post_info_lines : list string) (i : nat) : M world unit :=
  let id_width := 3 in
  let post_id_width := 7 in
  let* id_col :=
    (if (i =? 0)%nat
     then let* id := lift (getitem comment "id") in lift (format_left id id_width)
     else ret (repeat_char " " id_width)) in
  let* post_id_col :=
    (if (i =? 0)%nat
     then let* post_id := lift (getitem comment "postId") in lift (format_left post_id post_id_width)
     else ret (repeat_char " " post_id_width)) in
  let* name_col := lift (index name_lines i) in
  let* email_col := lift (index email_lines i) in
  let* body_col := lift (index body_lines i) in
  let* post_info_col := (if post_info_flag then lift (index post_info_lines i) else ret "") in
  let* name_col := lift (ljust name_col 10) in
  let* email_col := lift (ljust email_col 12) in
  let* body_col := lift (ljust body_col body_width) in
  let row := "| " +:+ id_col +:+ " | " +:+ post_id_col +:+ " | " +:+ name_col +:+ " | "
             +:+ email_col +:+ " | " +:+ body_col +:+ " |" in
  let* row :=
    (if post_info_flag
     then let* post_info_col := lift (ljust post_info_col 16) in
          ret (row +:+ " " +:+ post_info_col +:+ " |")
     else ret row) in
  print row.

Definition printAllComments (self : loc) (wrap_width : value) (preview_only : bool)
    (limit : option Z) : M world unit :=
  let* comments := comments_of self in
  let* comment_vars := first_keys comments in
  let post_info_flag := (5 <? length comment_vars)%nat in
  let post_info_width := 16 in
  match wrap_width with
  | VInt body_width =>
      let* id_head := lift (ljust "ID" 3) in
      let* post_id_head := lift (ljust "Post ID" 7) in
      let* name_head := lift (ljust "Name" 10) in
      let* email_head := lift (ljust "Email" 12) in
      let* body_head := lift (ljust "Body" body_width) in
      let header := "| " +:+ id_head +:+ " | " +:+ post_id_head +:+ " | " +:+ name_head
                    +:+ " | " +:+ email_head +:+ " | " +:+ body_head +:+ " |" in
      let* header :=
        (if post_info_flag
         then let* post_info_head := lift (ljust "Post Info" post_info_width) in
              ret (header +:+ " " +:+ post_info_head +:+ " |")
         else ret header) in
      let separator := repeat_char "-" (len header) in
      print separator;;
      print header;;
      print separator;;
      let comments_to_process :=
        match limit with
        | Some n => if n =? 0 then comments else slice_to comments n
        | None => comments
        end in
      for_each comments_to_process (fun c =>
        let* comment := read dicts c in
        let* email_lines := lift (wrap_text (get_or comment "email" (VStr "")) 12) in
        let* name_text :=
          (if preview_only then lift (preview_limit (get_or comment "name" (VStr "")) 16)
           else ret (get_or comment "name" (VStr ""))) in
        let* body_text :=
          (if preview_only then lift (preview_limit (get_or comment "body" (VStr "")) 26)
           else ret (get_or comment "body" (VStr ""))) in
        let* name_lines := lift (wrap_text name_text 10) in
        let* body_lines := lift (wrap_text body_text body_width) in
        let* post_info_lines :=
          (if post_info_flag
           then lift (wrap_text (get_or comment "post_info" (VStr "")) post_info_width)
           else ret []) in
        let max_lines :=
          Z.of_nat (Nat.max (Nat.max (Nat.max (length name_lines) (length email_lines))
                                     (length body_lines)) (length post_info_lines)) in
        let name_lines := pad_lines name_lines max_lines in
        let email_lines := pad_lines email_lines max_lines in
        let body_lines := pad_lines body_lines max_lines in
        let post_info_lines := pad_lines post_info_lines max_lines in
        for_each (seq 0 (Z.to_nat max_lines))
          (comment_row comment body_width post_info_flag
                       name_lines email_lines body_lines post_info_lines);;
        print separator)
  | _ => raise TypeError
  end.

(** The common end of the filters and of the sort: wrap the new list,
    print it, return the new instance. *)
Definition wrap_comments (items : list loc) (show preview_only : bool) : M world loc :=
  let* held := new_list items in
  let* new_obj := new_commentData held in
  (if show then printAllComments new_obj (VInt 24) preview_only None else ret tt);;
  ret new_obj.

Definition printByVar (self : loc) (var : string) (value : value) (show preview_only : bool)
  : M world loc :=
  let* comments := comments_of self in
  let* comment_vars := first_keys comments in
  if negb (mem var comment_vars) then raise ValueError
  else
    let* filtered_comments := filter_records comments (fun comment =>
        let comment_value := get_or comment var VNone in
        match comment_value with
        | VStr held =>
            let? wanted := lower_of value in
            Ok (contains wanted (lower held))
        | VInt _ | VFloat _ => Ok (eq comment_value value)
        | VNone => Ok false
        end) in
    match filtered_comments with
    | _ :: _ => wrap_comments filtered_comments show preview_only
    | [] =>
        print ("No comments found with '" +:+ var +:+ "' matching '" +:+ str value +:+ "'.");;
        ret self
    end.

(** [printOverVar] returns the new instance, or nothing. *)
Definition printOverVar (self : loc) (var : string) (value : value) (show preview_only : bool)
    (limit : option Z) : M world (option loc) :=
  let* comments := comments_of self in
  let* first := lift (index comments 0) in
  let* first := read dicts first in
  let num_vars := filter (fun num => is_number (get_or first num VNone)) (keys first) in
  if negb (mem var num_vars) then raise ValueError
  else
    let* filtered_comments := filter_records comments (fun comment =>
        gt (get_or comment var VNone) value) in
    let filtered_comments :=
      match limit with Some n => slice_to filtered_comments n | None => filtered_comments end in
    match filtered_comments with
    | _ :: _ =>
        let* new_obj := wrap_comments filtered_comments show preview_only in
        ret (Some new_obj)
    | [] =>
        print ("No comments found with " +:+ var +:+ " greater than " +:+ str value +:+ ".");;
        ret None
    end.

Definition printCommentsSorted (self : loc) (sortVar : string) (reverse_param show preview_only : bool)
    (limit : option Z) : M world loc :=
  let* comments := comments_of self in
  let* comment_vars := first_keys comments in
  let sort_vars := filter (fun var => negb (String.eqb var "body")) comment_vars in
  if negb (mem sortVar sort_vars) then raise ValueError
  else
    let* keyed := keyed_by comments sortVar in
    let* sorted_comments := lift (sorted_by keyed reverse_param) in
    let sorted_comments :=
      match limit with Some n => slice_to sorted_comments n | None => sorted_comments end in
    wrap_comments sorted_comments show preview_only.

(** [item['post_info'] = ...] *)
Definition set_post_info (item : loc) (text : string) : M world unit :=
  let* record := read dicts item in
  modify (set_dicts <[item := dict_set "post_info" (VStr text) record]>).

(** One round of [for item in self.comments] in [add_field]. *)
Definition add_post_info (item : loc) : M world unit :=
  let* time := gen_rand_time in
  let* date := gen_rand_date in
  let* ip := gen_rand_ip in
  set_post_info item ("Time: " +:+ time +:+ nl +:+ "Date: " +:+ date +:+ nl
                      +:+ "IP address: " +:+ ip).

(** [add_field] returns [self] after it has added the field, and nothing
    when the field is already there. *)
Definition add_field (self : loc) (show preview_only : bool) (limit_field : option Z)
  : M world (option loc) :=
  let* comments := comments_of self in
  let* comment_vars := first_keys comments in
  let post_info := "post_info" in
  if mem post_info comment_vars then ret None
  else
    for_each comments add_post_info;;
    (if show
     then if preview_only
          then printAllComments self (VInt 11) true limit_field
          else printAllComments self (VInt 24) false limit_field
     else ret tt);;
    ret (Some self).

End CommentData.

End A3.

(** * What the properties are stated with *)

Module Vocabulary.
Import Py A3.

(** ** Effects *)

(** A call [keeps] a relation between states when the state it ends in,
    however it ends, is related to the state it started in. *)
Definition keeps {S A : Type} (R : relation S) (m : M S A) : Prop :=
  forall s, R s (m s).2.

(** What a call adds to the trace. *)
Definition trace_grows (w w' : A2.world) : Prop := exists later, A2.trace w' = A2.trace w ++ later.

(** ** ISBN strings *)

(** The decimal digits of a string: [Some] when every character is one of
    ['0'] to ['9']. *)
Fixpoint digits_of (cs : list ascii) : option (list Z) :=
  match cs with
  | [] => Some []
  | c :: cs' =>
      if is_decimal c
      then match digits_of cs' with
           | Some ds => Some (Z.of_N (code c) - 48 :: ds)
           | None => None
           end
      else None
  end.
Definition decimal_digits (s : string) : option (list Z) := digits_of (chars s).

(** The sum of the specification: over the first [n] positions, the digit
    times 3 at an odd position and times 1 at an even one. *)
Fixpoint weighted (odd : bool) (n : nat) (ds : list Z) : Z :=
  match n, ds with
  | S n', d :: ds' => (if odd then d * 3 else d) + weighted (negb odd) n' ds'
  | _, _ => 0
  end.
Definition weighted_sum (ds : list Z) : Z := weighted false 12 ds.

(** A string of exactly 13 decimal digits. *)
Definition isbn13 (s : string) (ds : list Z) : Prop :=
  decimal_digits s = Some ds /\ length ds = 13%nat.

(** ** Lines *)

Definition fits (width : Z) (line : string) : Prop := len line <= width.

(** ** Stores: what instances hold and what calls may change *)

(** [self] is a [bookData] whose held list is [books]. *)
Definition holds_books (self : positive) (books : list positive) (w : world) : Prop :=
  exists held, book_objs w !! self = Some held /\ lists w !! held = Some books.

(** [self] is a [commentData] whose held list is [items]. *)
Definition holds_comments (self : positive) (items : list positive) (w : world) : Prop :=
  exists held, comment_objs w !! self = Some held /\ lists w !! held = Some items.

(** An instance whose held list is empty. *)
Definition empty_repository (self : positive) (w : world) : Prop :=
  exists held, comment_objs w !! self = Some held /\ lists w !! held = Some [].

(** Only [stdout] differs. *)
Definition only_prints (w w' : world) : Prop :=
  dicts w' = dicts w /\ lists w' = lists w /\ book_objs w' = book_objs w
  /\ comment_objs w' = comment_objs w /\ random w' = random w /\ today w' = today w.

(** Only the random generator has moved on. *)
Definition only_draws (w w' : world) : Prop :=
  dicts w' = dicts w /\ lists w' = lists w /\ comment_objs w' = comment_objs w
  /\ today w' = today w.

(** Objects may have been added and lines printed; every list and every
    instance that was there is as it was, and so is every record. *)
Definition only_allocates (w w' : world) : Prop :=
  dicts w' = dicts w /\ lists w ⊆ lists w' /\ book_objs w ⊆ book_objs w'
  /\ comment_objs w' = comment_objs w /\ random w' = random w /\ today w' = today w.

(** The record at [item] has the key ['post_info']. *)
Definition has_post_info (records : gmap positive dict) (item : positive) : Prop :=
  exists record, records !! item = Some record /\ mem "post_info" (keys record) = true.

(** Records may have been given fields; none is lost, and a record that has
    ['post_info'] keeps the key. *)
Definition adds_fields (w w' : world) : Prop :=
  lists w' = lists w /\ comment_objs w' = comment_objs w /\ today w' = today w
  /\ (forall item, is_Some (dicts w !! item) -> is_Some (dicts w' !! item))
  /\ (forall item, has_post_info (dicts w) item -> has_post_info (dicts w') item).

(** ** Records *)

(** What [validateISBNs] assumes of a record: it is a dictionary with an
    ['ISBN'] and a ['Title']. *)
Definition has_isbn_and_title (records : gmap positive dict) (book : positive) : Prop :=
  exists record isbn title,
    records !! book = Some record
    /\ dict_get "ISBN" record = Some isbn /\ dict_get "Title" record = Some title.

(** The string form of the record's ISBN is not exactly 13 decimal digits. *)
Definition isbn_not_13_digits `{Builtins} (records : gmap positive dict) (book : positive) : Prop :=
  exists record isbn,
    records !! book = Some record /\ dict_get "ISBN" record = Some isbn
    /\ forall ds, ~ isbn13 (str isbn) ds.

(** A Book Record: a 13-digit string as ISBN, strings as title and author,
    a number as price. *)
Definition book_record (records : gmap positive dict) (book : positive) : Prop :=
  exists record isbn digits title author price,
    records !! book = Some record
    /\ dict_get "ISBN" record = Some (VStr isbn) /\ isbn13 isbn digits
    /\ dict_get "Title" record = Some (VStr title)
    /\ dict_get "Author" record = Some (VStr author)
    /\ dict_get "Price" record = Some price /\ is_number price = true.

(** ** The filters and the sort of [bookData] as calls *)

(** A call of one of the four operations, with its arguments. *)
Inductive filter_call : Type :=
| ByTitle (title : value) (show : bool)
| ByAuthor (author : value) (show : bool)
| OverPrice (price : value) (show : bool)
| Sorted (sortedBy : value) (reverse_param show : bool) (limit : option Z).

Definition call `{Builtins} (c : filter_call) (self : positive) : M world positive :=
  match c with
  | ByTitle title show => printByTitle self title show
  | ByAuthor author show => printByAuthor self author show
  | OverPrice price show => printOverPrice self price show
  | Sorted sortedBy reverse_param show limit =>
      printAllBooksSorted self sortedBy reverse_param show limit
  end.

(** The arguments the operations are written for: a string to search a
    title or an author for, a number as price, and one of the three field
    names, as the records spell them, to sort by. *)
Definition accepted (c : filter_call) : Prop :=
  match c with
  | ByTitle title _ => exists s, title = VStr s
  | ByAuthor author _ => exists s, author = VStr s
  | OverPrice price _ => is_number price = true
  | Sorted sortedBy _ _ _ =>
      sortedBy = VStr "Price" \/ sortedBy = VStr "Title" \/ sortedBy = VStr "Author"
  end.

(** Keys that one field of Book Records gives: all strings, or all numbers. *)
Definition keys_of_kind (kind : value -> Prop) (w0 : world) (keyed : list (value * positive))
  : Prop :=
  Forall (fun k => kind k.1 /\ book_record (dicts w0) k.2) keyed.

(** ** Calls that return *)

(** [ok_from w0 m Q]: started in a store that differs from [w0] in what was
    printed only, [m] returns a value that satisfies [Q], and it only
    prints. *)
Definition ok_from {A : Type} (w0 : world) (m : M world A) (Q : A -> Prop) : Prop :=
  forall w, only_prints w0 w ->
    exists a w', m w = (Ok a, w') /\ only_prints w w' /\ Q a.

(** [returns_from w0 m]: started in a store that differs from [w0] in what
    was printed only, [m] returns. *)
Definition returns_from {A : Type} (w0 : world) (m : M world A) : Prop :=
  forall w, only_prints w0 w -> exists a w', m w = (Ok a, w').

(** ** Words *)

Definition no_space (cs : list ascii) : Prop := Forall (fun c => char_isspace c = false) cs.

(** A word: at least one character, none of them white space. *)
Definition word (w : string) : Prop := chars w <> [] /\ no_space (chars w).

Definition words_of (lines : list string) : list string := concat (map split lines).


(** ** What the operations of [bookData] select *)

(** The value a record has under a key; [None] when it has none. *)
Definition field_of (records : gmap positive dict) (book : positive) (field : string) : value :=
  match records !! book with
  | Some record => get_or record field VNone
  | None => VNone
  end.

(** The ISBN of the record passes [valid]. *)
Definition passes_valid `{Builtins} (records : gmap positive dict) (book : positive) : bool :=
  match valid (field_of records book "ISBN") with
  | Ok true => true
  | _ => false
  end.

(** A record with a 13-digit ISBN, in its string form, and a title. *)
Definition has_isbn13_and_title `{Builtins} (records : gmap positive dict) (book : positive)
  : Prop :=
  exists record isbn digits title,
    records !! book = Some record
    /\ dict_get "ISBN" record = Some isbn /\ isbn13 (str isbn) digits
    /\ dict_get "Title" record = Some title.

(** The records a filter keeps: the title, or the author, contains the
    term, both in lower case; the price is greater than the given one. *)
Definition selects (records : gmap positive dict) (c : filter_call) (book : positive) : bool :=
  match c with
  | ByTitle (VStr title) _ =>
      match field_of records book "Title" with
      | VStr held => contains (lower title) (lower held)
      | _ => false
      end
  | ByAuthor (VStr author) _ =>
      match field_of records book "Author" with
      | VStr held => contains (lower author) (lower held)
      | _ => false
      end
  | OverPrice price _ =>
      match gt (field_of records book "Price") price with
      | Ok greater => greater
      | _ => false
      end
  | _ => false
  end.

Definition is_filter (c : filter_call) : Prop :=
  match c with
  | Sorted _ _ _ _ => False
  | _ => True
  end.

(** [a] may stand before [b] in a sorted list: [b] is not less than [a],
    and the other way round when the order is reversed. *)
Definition in_order (reverse : bool) (a b : value) : Prop :=
  if reverse then lt_bool a b = false else lt_bool b a = false.

(** The same, of records with their keys. *)
Definition keys_in_order {A : Type} (reverse : bool) (x y : value * A) : Prop :=
  in_order reverse x.1 y.1.

(** ** Comment Records and what the operations of [commentData] select *)

(** A Comment Record: numbers as id and post id; strings as name, email
    and body, and as post info when the record has one. *)
Definition comment_record (records : gmap positive dict) (item : positive) : Prop :=
  exists record id post_id name email body,
    records !! item = Some record
    /\ dict_get "id" record = Some id /\ is_number id = true
    /\ dict_get "postId" record = Some post_id /\ is_number post_id = true
    /\ dict_get "name" record = Some (VStr name)
    /\ dict_get "email" record = Some (VStr email)
    /\ dict_get "body" record = Some (VStr body)
    /\ (forall v, dict_get "post_info" record = Some v -> exists s, v = VStr s).


(** The records [printOverVar] keeps. *)
Definition exceeds (records : gmap positive dict) (var : string) (bound : value)
    (item : positive) : bool :=
  match gt (field_of records item var) bound with
  | Ok greater => greater
  | _ => false
  end.



(** [record'] is [record] but for the value under ['post_info']. *)
Definition same_but_post_info (record record' : dict) : Prop :=
  forall k, k <> "post_info" -> dict_get k record' = dict_get k record.

(** What the loop of [add_field] over [items] has done to the records:
    each of [items] has a string under ['post_info'], no other value of any
    record has changed, and nothing else has. *)
Definition post_info_added (items : list positive) (w w' : world) : Prop :=
  lists w' = lists w /\ book_objs w' = book_objs w /\ comment_objs w' = comment_objs w
  /\ stdout w' = stdout w /\ today w' = today w
  /\ forall item record,
       dicts w !! item = Some record ->
       exists record',
         dicts w' !! item = Some record' /\ same_but_post_info record record'
         /\ (item ∈ items -> exists text, dict_get "post_info" record' = Some (VStr text))
         /\ (item ∉ items -> record' = record).

(** ** Functions under measurement *)

(** A function that returns on every size and leaves the profiler and its
    surroundings as they are. *)
Definition quiet (function : Z -> M A2.world unit) : Prop :=
  forall size w, function size w = (Ok tt, w).

(** The sizes, the events and the readings of the ten rounds of a live
    measurement that starts in [w]. *)
Definition sizes_measured (step_size : Z) : list value :=
  map (fun i => VFloat (inject_Z (Z.of_nat i * step_size))) (seq 1 10).

Definition times_measured (w : A2.world) : list value :=
  map (fun i => VFloat (A2.clock w (2 * i - 1)%nat - A2.clock w (2 * i - 2)%nat)) (seq 1 10).

Definition memory_measured (w : A2.world) : list value :=
  map (fun i => VFloat (inject_Z (A2.rss w i - A2.rss w 0%nat))) (seq 1 10).

Definition round_events (step_size : Z) (i : nat) : list A2.event :=
  [A2.ReadClock; A2.Call (Z.of_nat i * step_size); A2.ReadClock; A2.ReadRss].

(** ** Strings *)

(** [substring] occurs in [string]. *)
Definition occurs_in (substring string : string) : Prop :=
  exists before after, string = before +:+ substring +:+ after.

(** Every character of [s] is one of [options]. *)
Definition made_of (options : string) (s : string) : Prop :=
  Forall (fun c => c ∈ chars options) (chars s).

(** ** Arrays *)

(** No value of the array is less than one before it. *)
Definition ascending (values : list Z) : Prop :=
  forall a b, (a <= b < length values)%nat -> nth a values 0 <= nth b values 0.

(** After [k] rounds: the array has the values it had, and the values at
    the first [k] places are in order and none is greater than a value after
    them. *)
Definition sorted_up_to (k : nat) (original values : list Z) : Prop :=
  length values = length original /\ Permutation values original
  /\ forall a b, (a < k)%nat -> (a <= b < length values)%nat ->
                 nth a values 0 <= nth b values 0.

End Vocabulary.

(** ** Stores and conversions for running examples *)

Module Examples.
Import Py A3 Vocabulary.

(** A way to write floats and dates, for running the code on examples:
    a float as numerator, slash, denominator, a date as its day number.
    No example below depends on what it writes. *)
Definition plain : Builtins := {|
  float_str q := str_of_int (Qnum q) +:+ "/" +:+ str_of_int (Z.pos (Qden q));
  float_fmt2 q := str_of_int (Qnum q) +:+ "/" +:+ str_of_int (Z.pos (Qden q));
  date_str n := str_of_int n
|}.

(** Records [1 .. n] hold [records]; list [1] holds them in order. *)
Definition locs_of (records : list dict) : list positive :=
  map Pos.of_succ_nat (seq 0 (length records)).

Definition store_of (records : list dict) : gmap positive dict :=
  list_to_map (zip (locs_of records) records).

(** A [bookData] instance, at [1], over the list [1] of [records]. *)
Definition catalogue (records : list dict) : world :=
  World (store_of records) {[ 1%positive := locs_of records ]} {[ 1%positive := 1%positive ]} ∅
        [] (fun n => Z.of_nat n) 6000.

(** A [commentData] instance, at [1], over the list [1] of [records]. *)
Definition repository (records : list dict) : world :=
  World (store_of records) {[ 1%positive := locs_of records ]} ∅ {[ 1%positive := 1%positive ]}
        [] (fun n => Z.of_nat n) 6000.

Definition comment (id postId : Z) (name email body : string) : dict :=
  [("postId", VInt postId); ("id", VInt id); ("name", VStr name); ("email", VStr email);
   ("body", VStr body)].

(** A table of [n] rows. *)
Definition frame_of_rows (n : nat) : A2.DataFrame := [("x", replicate n (VInt 0))].

(** Three records: the first fails the check, the second has a 12-digit
    ISBN. *)
Definition short_isbn_books : list dict :=
  [ [("ISBN", VStr "9780099529126"); ("Title", VStr "Catch-22")];
    [("ISBN", VStr "978178515028"); ("Title", VStr "Go Set a Watchman")];
    [("ISBN", VStr "9780744016697"); ("Title", VStr "Tri Force Heroes")] ].

(** A repository of two comments. *)
Definition two_comments : world :=
  repository
    [ comment 1 1 "id labore ex et quam laborum" "Eliseo@gardner.biz" "laudantium enim quasi";
      comment 2 1 "quo vero reiciendis velit" "Jayne_Kuhic@sydney.com" "est natus enim nihil" ].

(** The module's sample data as a catalogue. *)
Definition sample : world := catalogue books.

(** An empty store on 1 January 2010. *)
Definition new_year_2010 : world := World ∅ ∅ ∅ ∅ [] (fun n => Z.of_nat n) 0.

(** A tenth of a length for examples: the quotient by 10. *)
Definition tenths : A2.Tenth := fun n => Z.quot n 10.

End Examples.

(** * Properties *)

(** ** Running effectful code *)

Module Run.
Import Py Vocabulary.

Lemma bind_ok {S A B : Type} (m : M S A) (k : A -> M S B) (s s' : S) (a : A) :
  m s = (Ok a, s') -> bind m k s = k a s'.
Proof. intros E. unfold bind. rewrite E. reflexivity. Qed.

Lemma bind_raise {S A B : Type} (m : M S A) (k : A -> M S B) (s s' : S) (e : exn) :
  m s = (Raise e, s') -> bind m k s = (Raise e, s').
Proof. intros E. unfold bind. rewrite E. reflexivity. Qed.

Lemma bind_diverge {S A B : Type} (m : M S A) (k : A -> M S B) (s s' : S) :
  m s = (Diverge, s') -> bind m k s = (Diverge, s').
Proof. intros E. unfold bind. rewrite E. reflexivity. Qed.

Section Keeps.
Context {S : Type} (R : relation S) `{!PreOrder R}.

Lemma keeps_ret {A : Type} (a : A) : keeps R (ret a).
Proof. intros s. simpl. reflexivity. Qed.

Lemma keeps_raise {A : Type} (e : exn) : keeps R (raise (A := A) e).
Proof. intros s. simpl. reflexivity. Qed.

Lemma keeps_lift {A : Type} (r : result A) : keeps R (lift r).
Proof. intros s. simpl. reflexivity. Qed.

Lemma keeps_gets {A : Type} (f : S -> A) : keeps R (gets f).
Proof. intros s. simpl. reflexivity. Qed.

Lemma keeps_bind {A B : Type} (m : M S A) (k : A -> M S B) :
  keeps R m -> (forall a, keeps R (k a)) -> keeps R (bind m k).
Proof.
  intros Hm Hk s. unfold bind. specialize (Hm s).
  destruct (m s) as [[a| e |] s']; simpl in *; [|assumption..].
  etransitivity; [exact Hm | apply Hk].
Qed.

Lemma keeps_for_each {A : Type} (xs : list A) (body : A -> M S unit) :
  (forall x, keeps R (body x)) -> keeps R (for_each xs body).
Proof.
  intros Hb. induction xs as [|x xs IH]; simpl.
  - apply keeps_ret.
  - apply keeps_bind; [apply Hb | intros _; exact IH].
Qed.

Lemma keeps_fold_each {A B : Type} (xs : list A) (body : B -> A -> M S B) (acc : B) :
  (forall b x, keeps R (body b x)) -> keeps R (fold_each xs body acc).
Proof.
  intros Hb. revert acc. induction xs as [|x xs IH]; intros acc; simpl.
  - apply keeps_ret.
  - apply keeps_bind; [apply Hb | intros acc'; apply IH].
Qed.

End Keeps.

Lemma keeps_weaken {S A : Type} (R R' : relation S) (m : M S A) :
  (forall s s', R s s' -> R' s s') -> keeps R m -> keeps R' m.
Proof. intros HR Hm s. apply HR, Hm. Qed.

(** Lengths of strings. *)
Lemma chars_length (s : string) : length (chars s) = String.length s.
Proof. induction s as [|c s IH]; simpl; congruence. Qed.

Lemma of_chars_length (cs : list ascii) : String.length (of_chars cs) = length cs.
Proof. induction cs as [|c cs IH]; simpl; congruence. Qed.

Lemma chars_of_chars (cs : list ascii) : chars (of_chars cs) = cs.
Proof. apply list_ascii_of_string_of_list_ascii. Qed.

Lemma len_of_chars (cs : list ascii) : len (of_chars cs) = Z.of_nat (length cs).
Proof. unfold len. rewrite of_chars_length. reflexivity. Qed.

Lemma len_chars (s : string) : Z.of_nat (length (chars s)) = len s.
Proof. unfold len. rewrite chars_length. reflexivity. Qed.

Lemma len_append (s t : string) : len (s +:+ t) = len s + len t.
Proof.
  unfold len. induction s as [|c s IH]; simpl; [reflexivity|].
  rewrite !Nat2Z.inj_succ. simpl in IH. lia.
Qed.

Lemma len_nonneg (s : string) : 0 <= len s.
Proof. unfold len. lia. Qed.

End Run.

(** ** The ISBN check of [bookData.valid] *)

Module ValidFacts.
Import Py A3 Vocabulary Examples Run.

Lemma digits_of_length cs ds : digits_of cs = Some ds -> length ds = length cs.
Proof.
  revert ds. induction cs as [|c cs IH]; intros ds; simpl.
  - intros [= <-]. reflexivity.
  - destruct (is_decimal c); [|discriminate].
    destruct (digits_of cs) as [ds'|]; [|discriminate].
    intros [= <-]. simpl. f_equal. apply IH. reflexivity.
Qed.

Lemma digits_of_isdigit cs ds : digits_of cs = Some ds -> forallb char_isdigit cs = true.
Proof.
  revert ds. induction cs as [|c cs IH]; intros ds; simpl; [reflexivity|].
  unfold char_isdigit at 1.
  destruct (is_decimal c); [|discriminate].
  destruct (digits_of cs) as [ds'|]; [|discriminate].
  intros _. simpl. eapply IH. reflexivity.
Qed.

Lemma digits_of_range cs ds : digits_of cs = Some ds -> Forall (fun d => 0 <= d <= 9) ds.
Proof.
  revert ds. induction cs as [|c cs IH]; intros ds; simpl.
  - intros [= <-]. constructor.
  - destruct (is_decimal c) eqn:Ec; [|discriminate].
    destruct (digits_of cs) as [ds'|]; [|discriminate].
    intros [= <-]. constructor; [|apply IH; reflexivity].
    unfold is_decimal in Ec. apply andb_prop in Ec as [E1 E2].
    apply N.leb_le in E1, E2. lia.
Qed.

(** [[int(d) for d in str_isbn]] *)
Lemma int_of_chars cs acc :
  rfold cs (fun ds d => let? n := int_of_char d in Ok (ds ++ [n])) acc
  = match digits_of cs with
    | Some ds => Ok (acc ++ ds)
    | None => Raise ValueError
    end.
Proof.
  revert acc. induction cs as [|c cs IH]; intros acc; simpl.
  - rewrite app_nil_r. reflexivity.
  - unfold int_of_char at 1. destruct (is_decimal c); simpl; [|reflexivity].
    rewrite IH. destruct (digits_of cs); [|reflexivity].
    rewrite <- app_assoc. reflexivity.
Qed.

Ltac parities :=
  repeat match goal with
         | |- context [Z.of_nat ?n mod 2 =? 1] =>
             let b := eval vm_compute in (Z.of_nat n mod 2 =? 1) in
             change (Z.of_nat n mod 2 =? 1) with b
         end.

Section Valid.
Context `{Builtins}.

Lemma valid_isbn13 isbn ds :
  isbn13 (str isbn) ds ->
  valid isbn = Ok (nth 12 ds 0 =? 10 - weighted_sum ds mod 10).
Proof.
  intros [Hds Hlen]. unfold valid, decimal_digits in *.
  assert (Hcs : length (chars (str isbn)) = 13%nat)
    by (rewrite <- (digits_of_length _ _ Hds); exact Hlen).
  assert (Hd : isdigit (str isbn) = true).
  { unfold isdigit. destruct (chars (str isbn)) eqn:E; [discriminate|].
    eapply digits_of_isdigit; eauto. }
  rewrite Hd. unfold len. rewrite <- chars_length, Hcs. simpl negb. simpl orb. cbv iota.
  rewrite int_of_chars, Hds. simpl app.
  do 14 (destruct ds as [|? ds]; try discriminate Hlen).
  unfold weighted_sum. cbn. parities. cbv iota.
  match goal with
  | |- (if negb (_ =? 10 - ?a mod 10) then _ else _) = Ok (_ =? 10 - ?b mod 10) =>
      replace a with b by lia
  end.
  destruct (_ =? _); reflexivity.
Qed.

Lemma valid_not_isbn13 isbn :
  (forall ds, ~ isbn13 (str isbn) ds) -> valid isbn = Raise ValueError.
Proof.
  intros Hno. unfold valid.
  destruct (isdigit (str isbn)); simpl; [|reflexivity].
  destruct (len (str isbn) =? 13) eqn:El; simpl; [|reflexivity].
  rewrite int_of_chars.
  destruct (digits_of (chars (str isbn))) as [ds|] eqn:Eds; [|reflexivity].
  exfalso. apply (Hno ds). split; [exact Eds|].
  rewrite (digits_of_length _ _ Eds), chars_length.
  apply Z.eqb_eq in El. unfold len in El. lia.
Qed.

(** [valid] returns a truth value or raises [ValueError]; nothing else. *)
Lemma valid_outcome isbn :
  (exists b, valid isbn = Ok b) \/ valid isbn = Raise ValueError.
Proof.
  destruct (decimal_digits (str isbn)) as [ds|] eqn:Eds.
  - destruct (decide (length ds = 13%nat)) as [Hl|Hl].
    + left. eexists. apply valid_isbn13. split; eassumption.
    + right. apply valid_not_isbn13. intros ds' [E1 E2]. congruence.
  - right. apply valid_not_isbn13. intros ds' [E1 E2]. congruence.
Qed.

End Valid.

End ValidFacts.

Module BookCatalog.
Import Py A3 Vocabulary Examples Run ValidFacts.

(** C1.  When the string form of the input is exactly 13 decimal digits,
    [valid] returns whether the 13th digit equals 10 - (S mod 10), S being
    the sum over positions 0 to 11 of the digit times 3 at odd positions and
    times 1 at even ones; the value is not reduced modulo 10, so when
    S mod 10 = 0 [valid] returns false.  For every other input [valid]
    raises [ValueError]. *)
Theorem valid_check_digit `{Builtins} (isbn : value) :
  (forall ds, isbn13 (str isbn) ds ->
     valid isbn = Ok (nth 12 ds 0 =? 10 - weighted_sum ds mod 10)
     /\ (weighted_sum ds mod 10 = 0 -> valid isbn = Ok false))
  /\ ((forall ds, ~ isbn13 (str isbn) ds) -> valid isbn = Raise ValueError).
Proof.
  split; [|apply valid_not_isbn13].
  intros ds Hds. pose proof (valid_isbn13 isbn ds Hds) as Hv. split; [exact Hv|].
  intros Hz. rewrite Hv, Hz. f_equal. apply Z.eqb_neq.
  destruct Hds as [Hds Hlen]. apply digits_of_range in Hds.
  do 14 (destruct ds as [|? ds]; try discriminate Hlen).
  repeat match goal with Hf : Forall _ (_ :: _) |- _ => inversion Hf; subst; clear Hf end.
  simpl. lia.
Qed.

(** The three cases of C1 on inputs: a 13-digit string whose last digit is
    the check value, one with S mod 10 = 0, and an input of 12 digits. *)
Lemma valid_check_digit_witness :
  (isbn13 "9781785150289" [9; 7; 8; 1; 7; 8; 5; 1; 5; 0; 2; 8; 9]
   /\ valid (H := plain) (VStr "9781785150289") = Ok true)
  /\ (weighted_sum [9; 7; 8; 0; 2; 0; 1; 6; 3; 3; 6; 1; 0] mod 10 = 0
      /\ valid (H := plain) (VInt 9780201633610) = Ok false)
  /\ valid (H := plain) (VStr "978178515028") = Raise ValueError.
Proof.
  assert (H1 : isbn13 "9781785150289" [9; 7; 8; 1; 7; 8; 5; 1; 5; 0; 2; 8; 9])
    by (split; reflexivity).
  assert (H2 : isbn13 "9780201633610" [9; 7; 8; 0; 2; 0; 1; 6; 3; 3; 6; 1; 0])
    by (split; reflexivity).
  split; [|split].
  - split; [exact H1|].
    exact (proj1 (proj1 (valid_check_digit (H := plain) (VStr "9781785150289")) _ H1)).
  - split; [reflexivity|].
    exact (proj2 (proj1 (valid_check_digit (H := plain) (VInt 9780201633610)) _ H2) eq_refl).
  - apply (proj2 (valid_check_digit (H := plain) (VStr "978178515028"))).
    intros ds [E1 E2]. vm_compute in E1. injection E1 as <-. discriminate E2.
Defined.

(** C2, as the code has it.  The check value of 978009952912 is 5: [valid]
    returns true for "9780099529125" and false for "9780099529126" and for
    "9780099529127". *)
Theorem valid_catch22 `{Builtins} :
  valid (VStr "9780099529125") = Ok true
  /\ valid (VStr "9780099529126") = Ok false
  /\ valid (VStr "9780099529127") = Ok false.
Proof. repeat split; reflexivity. Qed.

(** C2 as stated fails: [valid("9780099529126")] is false, not true. *)
Lemma valid_catch22_as_stated_fails :
  valid (H := plain) (VStr "9780099529126") = Ok false.
Proof. reflexivity. Qed.

End BookCatalog.

(** ** The profiler and the row counter of A2 *)

Module Profiler.
Import Py A2 Vocabulary Examples Run.

Lemma fresh_mat_mult (clock : nat -> Q) (rss : nat -> Z) :
  results (init clock rss) !! "mat_mult" = Some table_mat_mult.
Proof.
  unfold init. simpl.
  rewrite !lookup_insert_ne by discriminate. apply lookup_insert_eq.
Qed.

#[local] Instance trace_grows_preorder : PreOrder trace_grows.
Proof.
  split.
  - intros w. exists []. rewrite app_nil_r. reflexivity.
  - intros w1 w2 w3 [l1 E1] [l2 E2]. exists (l1 ++ l2). rewrite E2, E1, app_assoc. reflexivity.
Qed.

Lemma emit_grows (e : event) : keeps trace_grows (emit e).
Proof. intros w. exists [e]. reflexivity. Qed.

Lemma time_time_grows : keeps trace_grows time_time.
Proof. intros w. exists [ReadClock]. reflexivity. Qed.

Lemma memory_rss_grows : keeps trace_grows memory_rss.
Proof. intros w. exists [ReadRss]. reflexivity. Qed.

Lemma save_results_grows (name : string) (func_df : DataFrame) :
  keeps trace_grows (save_results name func_df).
Proof.
  intros w. unfold save_results. destruct (mem name recognised); exists []; simpl;
    rewrite app_nil_r; reflexivity.
Qed.

Ltac grows :=
  repeat first
    [ apply emit_grows | apply memory_rss_grows | apply time_time_grows
    | apply save_results_grows | apply keeps_ret; typeclasses eauto
    | assumption
    | apply keeps_bind; [typeclasses eauto | | intros] ].

Lemma measure_grows (function : Z -> M world unit) (step_size baseRam : Z)
    (arrays : list value * list value * list value) (i : nat) :
  (forall size, keeps trace_grows (function size)) ->
  keeps trace_grows (measure function step_size baseRam arrays i).
Proof.
  intros Hf. destruct arrays as [[var_size resTime] resSpace]. unfold measure.
  pose proof (Hf (Z.of_nat i * step_size)). grows.
Qed.

(** A live measurement starts by seeding the random generator: its trace
    is never empty, unlike that of a call with [submission=True].  The
    function under measurement is taken to add to the trace only. *)
Lemma investigate_live_seeds (function : Z -> M world unit) (name : string) (step_size : Z)
    (w : world) :
  (forall size, keeps trace_grows (function size)) ->
  exists later, trace (investigate function name step_size false w).2
                = trace w ++ Seed 1303 :: later.
Proof.
  intros Hf. unfold investigate.
  match goal with
  | |- context [bind (emit (Seed 1303)) ?k] => set (rest := k)
  end.
  unfold bind at 1. simpl.
  assert (Hrest : keeps trace_grows (rest tt)).
  { subst rest. cbv beta.
    apply keeps_bind; [typeclasses eauto | apply emit_grows | intros _].
    apply keeps_bind; [typeclasses eauto | apply memory_rss_grows | intros baseRam].
    apply keeps_bind; [typeclasses eauto | apply emit_grows | intros _].
    apply keeps_bind; [typeclasses eauto | | intros [[var_size resTime] resSpace]].
    - apply keeps_fold_each; [typeclasses eauto|]. intros arrays i.
      apply measure_grows, Hf.
    - grows. }
  destruct (Hrest (World (results w) (residuals w) (trace w ++ [Seed 1303]) (clock w) (rss w)))
    as [later E].
  exists later. unfold emit. cbv beta iota. simpl trace in E.
  rewrite <- app_assoc in E. exact E.
Qed.

(** C3.  With [submission=True], [investigate] returns the table stored
    under [name] and leaves the profiler and its surroundings as they were
    (no event is added to the trace, the clock and the memory counter are not
    read, [results] is not changed), and it raises [ValueError] when no table
    is stored under [name].  On a new profiler the table returned for
    ['mat_mult'] has row 0 = Size 15.0, Time (s) 0.007217, Memory (bytes)
    69632.0. *)
Theorem investigate_submission (function : Z -> M world unit) (name : string) (step_size : Z)
    (w : world) (clock : nat -> Q) (rss : nat -> Z) :
  investigate function name step_size true w
  = (match results w !! name with
     | Some table => Ok table
     | None => Raise ValueError
     end, w)
  /\ (exists table,
        investigate function "mat_mult" step_size true (init clock rss)
        = (Ok table, init clock rss)
        /\ row table 0
           = [("Size", Some (VFloat 15.0)); ("Time (s)", Some (VFloat 0.007217));
              ("Memory (bytes)", Some (VFloat 69632.0))]).
Proof.
  assert (Hgen : forall w0, investigate function name step_size true w0
                            = (match results w0 !! name with
                               | Some table => Ok table
                               | None => Raise ValueError
                               end, w0)).
  { intros w0. unfold investigate, bind, gets. destruct (results w0 !! name); reflexivity. }
  split; [apply Hgen|].
  exists table_mat_mult. split; [|reflexivity].
  unfold investigate, bind, gets. rewrite fresh_mat_mult. reflexivity.
Qed.

(** C7, what the code does.  For a name that is not one of the five,
    [save_results] raises nothing: it returns normally and leaves [results]
    as it was. *)
Theorem save_results_unrecognised_is_silent (func_df : DataFrame) (w : world) :
  save_results "dummy_func" func_df w = (Ok tt, w).
Proof. reflexivity. Qed.

(** The two branches of [save_results], for every name. *)
Lemma save_results_cases (name : string) (func_df : DataFrame) (w : world) :
  save_results name func_df w
  = if mem name recognised
    then (Ok tt, set_results <[name := func_df]> w)
    else (Ok tt, w).
Proof. unfold save_results. destruct (mem name recognised); reflexivity. Qed.

Section Cleaner.
Context `{Builtins} `{Percent}.

(** C6, what the code does.  With a "before" table of 10 rows and an
    "after" table of 12 rows, [count_removed_rows] raises [NameError]: the
    message of the [ValueError] it means to raise reads [original_len],
    which is not defined. *)
Theorem count_removed_rows_larger_after :
  count_removed_rows (frame_of_rows 10) (frame_of_rows 12) = Raise NameError.
Proof. reflexivity. Qed.

(** The three ways [count_removed_rows] ends, for every pair of tables. *)
Lemma count_removed_rows_cases (df1 df2 : DataFrame) :
  count_removed_rows df1 df2
  = if nrows df1 <? nrows df2 then Raise NameError
    else if nrows df1 =? 0 then Raise ZeroDivisionError
    else Ok ("Number of rows removed from DataFrame: " +:+ str_of_int (nrows df1 - nrows df2)
             +:+ nl +:+ "Percentage of rows removed: "
             +:+ float_str (percent2 (nrows df1 - nrows df2) (nrows df1)) +:+ nl).
Proof. unfold count_removed_rows. destruct (nrows df1 <? nrows df2); reflexivity. Qed.

End Cleaner.

End Profiler.

(** ** [helperClass.wrap_text] *)

Module WrapText.
Import Py A3 Vocabulary Examples Run.

Lemma clamp_inside {A : Type} (xs : list A) (k : Z) :
  0 <= k <= Z.of_nat (length xs) -> clamp xs k = Z.to_nat k.
Proof.
  intros Hk. unfold clamp. destruct (Z.ltb_spec k 0); [lia|]. f_equal. lia.
Qed.

Lemma len_str_to (s : string) (k : Z) : 0 <= k <= len s -> len (str_to s k) = k.
Proof.
  intros Hk. unfold str_to, slice_to. rewrite len_of_chars, length_take.
  rewrite <- len_chars in Hk. rewrite clamp_inside by exact Hk. lia.
Qed.

Lemma len_str_from (s : string) (k : Z) : 0 <= k <= len s -> len (str_from s k) = len s - k.
Proof.
  intros Hk. unfold str_from, slice_from. rewrite len_of_chars, length_drop.
  rewrite <- len_chars in *. rewrite clamp_inside by exact Hk. lia.
Qed.

(** What is left of a word after [word[width:]] with [width <= 0] is not
    empty when the word is not. *)
Lemma len_str_from_nonpositive (s : string) (k : Z) :
  k <= 0 -> 1 <= len s -> 1 <= len (str_from s k).
Proof.
  intros Hk Hs. unfold str_from, slice_from. rewrite len_of_chars, length_drop.
  rewrite <- len_chars in Hs. unfold clamp.
  destruct (Z.ltb_spec k 0); lia.
Qed.

(** With a width of at least 1 the inner loop ends within [len(word)]
    rounds; every chunk it appends fits, and so does what is left. *)
Lemma split_long_ends (width : Z) (fuel : nat) (word : string) (lines : list string) :
  1 <= width -> (String.length word <= fuel)%nat ->
  exists rest chunks,
    split_long fuel width word lines = Some (rest, lines ++ chunks)
    /\ fits width rest /\ Forall (fits width) chunks.
Proof.
  intros Hw. revert word lines. induction fuel as [|fuel IH]; intros word lines Hfuel.
  - exists word, []. simpl. rewrite app_nil_r.
    destruct (Z.ltb_spec width (len word)) as [Hlt|Hge]; [unfold len in Hlt; lia|].
    repeat split; [exact Hge | constructor].
  - simpl. destruct (Z.ltb_spec width (len word)) as [Hlt|Hge].
    + destruct (IH (str_from word width) (lines ++ [str_to word width])) as (rest & chunks & E & Hr & Hc).
      { assert (Hl : len (str_from word width) = len word - width)
          by (apply len_str_from; lia).
        unfold len in Hl, Hlt. lia. }
      exists rest, (str_to word width :: chunks). rewrite E, <- app_assoc. simpl.
      repeat split; [exact Hr|]. constructor; [|exact Hc].
      unfold fits. rewrite len_str_to; lia.
    + exists word, []. rewrite app_nil_r. repeat split; [exact Hge | constructor].
Qed.

(** With a width of 0 or less the inner loop never ends on a word that is
    not empty, whatever the fuel: [Diverge] in [wrap_word] stands for a loop
    that does not end. *)
Lemma split_long_never_ends (width : Z) (fuel : nat) (word : string) (lines : list string) :
  width <= 0 -> 1 <= len word -> split_long fuel width word lines = None.
Proof.
  intros Hw. revert word lines. induction fuel as [|fuel IH]; intros word lines Hword; simpl;
    (destruct (Z.ltb_spec width (len word)) as [Hlt|Hge]; [|lia]).
  - reflexivity.
  - apply IH. apply len_str_from_nonpositive; assumption.
Qed.

Lemma wrap_word_fits (width : Z) (lines : list string) (current_line word : string) :
  1 <= width -> Forall (fits width) lines -> fits width current_line ->
  exists lines' current_line',
    wrap_word width (lines, current_line) word = Ok (lines', current_line')
    /\ Forall (fits width) lines' /\ fits width current_line'.
Proof.
  intros Hw Hlines Hcur. unfold wrap_word.
  destruct (split_long_ends width (String.length word) word lines Hw (le_n _))
    as (rest & chunks & E & Hrest & Hchunks).
  rewrite E.
  assert (Hall : Forall (fits width) (lines ++ chunks)) by (apply Forall_app; split; assumption).
  destruct (Z.leb_spec (len current_line + len rest + 1) width) as [Hle|Hgt].
  - eexists _, _. split; [reflexivity|]. split; [exact Hall|].
    unfold fits. rewrite !len_append.
    destruct (String.eqb current_line ""); pose proof (len_nonneg rest);
      pose proof (len_nonneg current_line); change (len " ") with 1; change (len "") with 0; lia.
  - eexists _, _. split; [reflexivity|]. split; [|exact Hrest].
    apply Forall_app. split; [exact Hall|]. constructor; [exact Hcur | constructor].
Qed.

Lemma wrap_words_fit (width : Z) (words : list string) (lines : list string)
    (current_line : string) :
  1 <= width -> Forall (fits width) lines -> fits width current_line ->
  exists lines' current_line',
    rfold words (wrap_word width) (lines, current_line) = Ok (lines', current_line')
    /\ Forall (fits width) lines' /\ fits width current_line'.
Proof.
  intros Hw. revert lines current_line.
  induction words as [|word words IH]; intros lines current_line Hlines Hcur.
  - exists lines, current_line. repeat split; assumption.
  - destruct (wrap_word_fits width lines current_line word Hw Hlines Hcur)
      as (lines1 & cur1 & E & Hl1 & Hc1).
    cbn [rfold]. rewrite E. cbn [rbind]. apply IH; assumption.
Qed.

(** With a width of at least 1, [wrap_text] returns on every string. *)
Lemma wrap_text_returns (text : string) (width : Z) :
  1 <= width -> exists lines, wrap_text (VStr text) width = Ok lines.
Proof.
  intros Hw. unfold wrap_text.
  destruct (wrap_words_fit width (split (replace_char (ascii_of_N 10) " " text)) [] "" Hw)
    as (lines & cur & E & _ & _).
  - constructor.
  - unfold fits. change (len "") with 0. lia.
  - rewrite E. cbn [rbind]. destruct (String.eqb cur ""); eauto.
Qed.

(** C5.  For every string and every width of at least 1, [wrap_text]
    returns a list of lines, each of length at most the width. *)
Theorem wrap_text_fits (text : string) (width : Z) :
  1 <= width ->
  exists lines, wrap_text (VStr text) width = Ok lines /\ Forall (fun line => len line <= width) lines.
Proof.
  intros Hw. unfold wrap_text.
  destruct (wrap_words_fit width (split (replace_char (ascii_of_N 10) " " text)) [] "" Hw)
    as (lines & cur & E & Hlines & Hcur).
  - constructor.
  - unfold fits. change (len "") with 0. lia.
  - rewrite E. cbn [rbind].
    destruct (String.eqb cur ""); eexists; (split; [reflexivity|]); [exact Hlines|].
    apply Forall_app. split; [exact Hlines|]. constructor; [exact Hcur | constructor].
Qed.

(** C5 on the specification's example: the four lines, and the bound
    from the theorem. *)
Lemma wrap_text_fits_witness :
  wrap_text (VStr "This is a demo of how to wrap text.") 10
  = Ok ["This is a"; "demo of"; "how to"; "wrap text."]
  /\ exists lines,
       wrap_text (VStr "This is a demo of how to wrap text.") 10 = Ok lines
       /\ Forall (fun line => len line <= 10) lines.
Proof.
  split; [reflexivity|].
  apply (wrap_text_fits "This is a demo of how to wrap text." 10). lia.
Defined.

End WrapText.

(** ** [commentData] *)

Module CommentRepository.
Import Py A3 Vocabulary Examples Run.

Lemma read_ok {A : Type} (m : world -> gmap positive A) (l : positive) (w : world) (x : A) :
  m w !! l = Some x -> read m l w = (Ok x, w).
Proof. intros E. unfold read. rewrite E. reflexivity. Qed.

Lemma comments_of_ok (self held : positive) (items : list positive) (w : world) :
  comment_objs w !! self = Some held -> lists w !! held = Some items ->
  comments_of self w = (Ok items, w).
Proof.
  intros E1 E2. unfold comments_of.
  rewrite (bind_ok _ _ _ _ _ (read_ok comment_objs self w held E1)).
  apply read_ok, E2.
Qed.

Section Empty.
Context `{Builtins}.

(** C9.  On an instance whose list is empty, [printAllComments],
    [printByVar], [printOverVar], [printCommentsSorted] and [add_field] each
    raise [IndexError] (from [self.comments[0]]) and leave everything as it
    was: nothing is printed and no instance is returned. *)
Theorem empty_repository_fails (self : positive) (w : world)
    (wrap_width value : value) (var sortVar : string)
    (show preview_only reverse_param : bool) (limit : option Z) :
  empty_repository self w ->
  printAllComments self wrap_width preview_only limit w = (Raise IndexError, w)
  /\ printByVar self var value show preview_only w = (Raise IndexError, w)
  /\ printOverVar self var value show preview_only limit w = (Raise IndexError, w)
  /\ printCommentsSorted self sortVar reverse_param show preview_only limit w
     = (Raise IndexError, w)
  /\ add_field self show preview_only limit w = (Raise IndexError, w).
Proof.
  intros (held & E1 & E2).
  pose proof (comments_of_ok self held [] w E1 E2) as Hc.
  repeat split.
  - unfold printAllComments. rewrite (bind_ok _ _ _ _ _ Hc). reflexivity.
  - unfold printByVar. rewrite (bind_ok _ _ _ _ _ Hc). reflexivity.
  - unfold printOverVar. rewrite (bind_ok _ _ _ _ _ Hc). reflexivity.
  - unfold printCommentsSorted. rewrite (bind_ok _ _ _ _ _ Hc). reflexivity.
  - unfold add_field. rewrite (bind_ok _ _ _ _ _ Hc). reflexivity.
Qed.

End Empty.

(** C9 on the repository built over no record. *)
Lemma empty_repository_fails_witness :
  empty_repository 1 (repository [])
  /\ printAllComments (H := plain) 1 (VInt 24) true None (repository [])
     = (Raise IndexError, repository [])
  /\ add_field (H := plain) 1 false true None (repository [])
     = (Raise IndexError, repository []).
Proof.
  assert (He : empty_repository 1 (repository []))
    by (exists 1%positive; split; reflexivity).
  pose proof (empty_repository_fails (H := plain) 1 (repository [])
                (VInt 24) VNone "id" "id" false true false None He) as (H1 & _ & _ & _ & H5).
  split; [exact He|]. split; [exact H1 | exact H5].
Defined.

End CommentRepository.

(** ** What a call may change in the store *)

Module Frames.
Import Py A3 Vocabulary Examples Run.

#[export] Instance only_prints_preorder : PreOrder only_prints.
Proof.
  split.
  - intros w. repeat split.
  - intros w1 w2 w3 (A1 & A2 & A3 & A4 & A5 & A6) (B1 & B2 & B3 & B4 & B5 & B6).
    repeat split; congruence.
Qed.

Lemma print_only_prints (line : string) : keeps only_prints (print line).
Proof. intros w. repeat split. Qed.

Lemma read_only_prints {A : Type} (m : world -> gmap positive A) (l : positive) :
  keeps only_prints (read m l).
Proof. intros w. unfold read. destruct (m w !! l); simpl; reflexivity. Qed.

(** Steps through a computation that only prints. *)
Ltac prints :=
  repeat first
    [ apply print_only_prints | apply read_only_prints
    | apply keeps_ret; typeclasses eauto | apply keeps_raise; typeclasses eauto
    | apply keeps_lift; typeclasses eauto | apply keeps_gets; typeclasses eauto
    | assumption
    | apply keeps_for_each; [typeclasses eauto | intros]
    | apply keeps_fold_each; [typeclasses eauto | intros]
    | apply keeps_bind; [typeclasses eauto | | intros]
    | match goal with
      | |- keeps _ (if ?b then _ else _) => destruct b
      | |- keeps _ (match ?x with _ => _ end) => destruct x
      end ].

Section Printing.
Context `{Builtins}.

Lemma books_of_only_prints (self : positive) : keeps only_prints (books_of self).
Proof. unfold books_of. prints. Qed.

Lemma comments_of_only_prints (self : positive) : keeps only_prints (comments_of self).
Proof. unfold comments_of. prints. Qed.

Lemma book_row_only_prints a b c d e f g i : keeps only_prints (book_row a b c d e f g i).
Proof. unfold book_row. prints. Qed.

Lemma printAllBooks_only_prints (self : positive) (limit : option Z) :
  keeps only_prints (printAllBooks self limit).
Proof.
  unfold printAllBooks.
  apply keeps_bind; [typeclasses eauto | apply books_of_only_prints | intros books].
  destruct books as [|b books]; [prints|].
  pose proof book_row_only_prints. prints.
Qed.

Lemma comment_row_only_prints a b c d e f g i : keeps only_prints (comment_row a b c d e f g i).
Proof. unfold comment_row. prints. Qed.

Lemma first_keys_only_prints (comments : list positive) : keeps only_prints (first_keys comments).
Proof. unfold first_keys. prints. Qed.

Lemma printAllComments_only_prints (self : positive) (wrap_width : value) (preview_only : bool)
    (limit : option Z) :
  keeps only_prints (printAllComments self wrap_width preview_only limit).
Proof.
  unfold printAllComments.
  apply keeps_bind; [typeclasses eauto | apply comments_of_only_prints | intros comments].
  apply keeps_bind; [typeclasses eauto | apply first_keys_only_prints | intros comment_vars].
  pose proof comment_row_only_prints.
  destruct wrap_width; prints.
Qed.

Lemma filter_records_only_prints (items : list positive) (test : dict -> result bool) :
  keeps only_prints (filter_records items test).
Proof. unfold filter_records. prints. Qed.

Lemma keyed_by_only_prints (items : list positive) (field : string) :
  keeps only_prints (keyed_by items field).
Proof. unfold keyed_by. prints. Qed.

End Printing.

End Frames.

(** ** [bookData.validateISBNs] *)

Module Validate.
Import Py A3 Vocabulary Examples Run ValidFacts Frames.

Section Validate.
Context `{Builtins}.

Lemma books_of_ok (self : positive) (books : list positive) (w : world) :
  holds_books self books w -> books_of self w = (Ok books, w).
Proof.
  intros (held & E1 & E2). unfold books_of, bind, read. rewrite E1, E2. reflexivity.
Qed.

(** One round, on a record with both keys. *)
Lemma validate_round_cases (valid_books : list positive) (book : positive) (w : world)
    (record : dict) (isbn title : value) :
  dicts w !! book = Some record ->
  dict_get "ISBN" record = Some isbn -> dict_get "Title" record = Some title ->
  validate_round valid_books book w
  = match valid isbn with
    | Ok true => (Ok (valid_books ++ [book]), w)
    | Ok false =>
        (Ok valid_books,
         set_stdout (fun out => out ++ ["Removing book: '" +:+ str title
                                        +:+ "' from the database."]) w)
    | Raise e => (Raise e, w)
    | Diverge => (Diverge, w)
    end.
Proof.
  intros E1 E2 E3. unfold validate_round, bind, read, lift, getitem. rewrite E1, E2.
  destruct (valid isbn) as [[|]| |]; try reflexivity.
  rewrite E3. reflexivity.
Qed.

Lemma validate_loop_raises (books valid_books : list positive) (w : world) :
  Forall (has_isbn_and_title (dicts w)) books ->
  Exists (isbn_not_13_digits (dicts w)) books ->
  exists w', fold_each books validate_round valid_books w = (Raise ValueError, w')
             /\ only_prints w w'.
Proof.
  revert valid_books w. induction books as [|book books IH]; intros valid_books w Hkeys Hbad.
  - inversion Hbad.
  - inversion Hkeys as [|? ? (record & isbn & title & E1 & E2 & E3) Hkeys']; subst.
    cbn [fold_each]. unfold bind at 1.
    rewrite (validate_round_cases valid_books book w record isbn title E1 E2 E3).
    destruct (valid_outcome isbn) as [[b Hv]|Hv]; rewrite Hv.
    + assert (Hrest : Exists (isbn_not_13_digits (dicts w)) books).
      { inversion Hbad as [? ? (record' & isbn' & E1' & E2' & Hno)|]; subst; [|assumption].
        exfalso. assert (record' = record) by congruence. subst record'.
        assert (isbn' = isbn) by congruence. subst isbn'.
        rewrite (valid_not_isbn13 isbn Hno) in Hv. discriminate. }
      destruct b.
      * apply IH; assumption.
      * destruct (IH valid_books
                    (set_stdout (fun out => out ++ ["Removing book: '" +:+ str title
                                                    +:+ "' from the database."]) w))
          as (w' & E & Hp); [assumption..|].
        exists w'. split; [exact E|].
        etransitivity; [|exact Hp]. repeat split.
    + exists w. split; reflexivity.
Qed.

(** C10.  When a held record's ISBN is not 13 decimal digits in its
    string form, [validateISBNs] raises the [ValueError] of [valid]; the
    instance still holds the same list, and no list or record has changed
    (only notices about earlier books may have been printed). *)
Theorem validateISBNs_propagates (self : positive) (books : list positive) (w : world) :
  holds_books self books w ->
  Forall (has_isbn_and_title (dicts w)) books ->
  Exists (isbn_not_13_digits (dicts w)) books ->
  exists w', validateISBNs self w = (Raise ValueError, w')
             /\ holds_books self books w'
             /\ only_prints w w'.
Proof.
  intros Hself Hkeys Hbad. unfold validateISBNs.
  rewrite (bind_ok _ _ _ _ _ (books_of_ok self books w Hself)).
  destruct (validate_loop_raises books [] w Hkeys Hbad) as (w' & E & Hp).
  exists w'. rewrite (bind_raise _ _ _ _ _ E). repeat split; try apply Hp.
  destruct Hself as (held & E1 & E2), Hp as (_ & Hl & Hb & _).
  exists held. rewrite Hl, Hb. split; assumption.
Qed.

End Validate.

(** C10 on a catalogue of three records; the second has a 12-digit ISBN
    and the first fails the check, so its notice is printed first. *)
Lemma validateISBNs_propagates_witness :
  exists w', validateISBNs (H := plain) 1 (catalogue short_isbn_books)
             = (Raise ValueError, w')
             /\ holds_books 1 [1; 2; 3]%positive w'
             /\ only_prints (catalogue short_isbn_books) w'.
Proof.
  apply (validateISBNs_propagates (H := plain) 1 [1; 2; 3]%positive).
  - exists 1%positive. split; reflexivity.
  - repeat constructor; eexists _, _, _; repeat split; reflexivity.
  - apply Exists_cons_tl, Exists_cons_hd.
    eexists _, _. repeat split; try reflexivity.
    intros ds [E1 E2]. vm_compute in E1. injection E1 as <-. discriminate E2.
Defined.

End Validate.

(** ** [commentData.add_field] *)

Module AddField.
Import Py A3 Vocabulary Examples Run Frames CommentRepository.

Lemma adds_fields_refl (w : world) : adds_fields w w.
Proof. repeat split; auto. Qed.

Lemma adds_fields_trans (w1 w2 w3 : world) :
  adds_fields w1 w2 -> adds_fields w2 w3 -> adds_fields w1 w3.
Proof.
  intros (A1 & A2 & A3 & A4 & A5) (B1 & B2 & B3 & B4 & B5).
  repeat split; try congruence; auto.
Qed.

Lemma mem_dict_set (k : string) (v : value) (d : dict) : mem k (keys (dict_set k v d)) = true.
Proof.
  induction d as [|[k' v'] d IH]; simpl.
  - rewrite String.eqb_refl. reflexivity.
  - destruct (String.eqb k k') eqn:E; simpl; rewrite E; [reflexivity | exact IH].
Qed.

Lemma mem_dict_set_other (k k' : string) (v : value) (d : dict) :
  mem k' (keys d) = true -> mem k' (keys (dict_set k v d)) = true.
Proof.
  induction d as [|[k0 v0] d IH]; simpl; [discriminate|].
  destruct (String.eqb k k0); simpl; destruct (String.eqb k' k0); simpl; auto.
Qed.

Section AddField.
Context `{Builtins}.

Lemma first_keys_ok (first : positive) (rest : list positive) (record : dict) (w : world) :
  dicts w !! first = Some record -> first_keys (first :: rest) w = (Ok (keys record), w).
Proof. intros E. unfold first_keys, bind, lift, read. simpl. rewrite E. reflexivity. Qed.

(** One round when a date can be drawn: the record gets the field. *)
Lemma add_post_info_ok (item : positive) (record : dict) (w : world) :
  0 <= today w - 1 -> dicts w !! item = Some record ->
  exists text rnd,
    add_post_info item w
    = (Ok tt, World (<[item := dict_set "post_info" (VStr text) record]> (dicts w)) (lists w)
                    (book_objs w) (comment_objs w) (stdout w) rnd (today w)).
Proof.
  intros Ht E.
  unfold add_post_info, gen_rand_time, gen_rand_date, gen_rand_ip, set_post_info.
  unfold bind, randint, gets, ret, read, modify. simpl.
  destruct (Z.ltb_spec (today w - 1) 0) as [|_]; [lia|]. simpl. rewrite E.
  eexists _, _. reflexivity.
Qed.

(** One round when no date can be drawn ([date.today()] is 1 January 2010
    or earlier): [random.randint(0, day_difference)] raises before the
    record is touched. *)
Lemma add_post_info_no_date (item : positive) (w : world) :
  today w - 1 < 0 ->
  exists w', add_post_info item w = (Raise ValueError, w') /\ only_draws w w'.
Proof.
  intros Ht.
  unfold add_post_info, gen_rand_time, gen_rand_date, gen_rand_ip, set_post_info.
  unfold bind, randint, gets, ret, read, modify. simpl.
  destruct (Z.ltb_spec (today w - 1) 0) as [_|]; [|lia].
  eexists. split; [reflexivity|]. repeat split.
Qed.

Lemma add_post_info_adds (item : positive) (w : world) :
  0 <= today w - 1 -> is_Some (dicts w !! item) ->
  exists w', add_post_info item w = (Ok tt, w') /\ adds_fields w w'
             /\ has_post_info (dicts w') item.
Proof.
  intros Ht [record E].
  destruct (add_post_info_ok item record w Ht E) as (text & rnd & Erun).
  eexists. split; [exact Erun|]. simpl. split; [repeat split|].
  - intros other Hsome. simpl. destruct (decide (item = other)) as [->|Hne].
    + rewrite lookup_insert_eq. eauto.
    + rewrite lookup_insert_ne by exact Hne. exact Hsome.
  - intros other (d & Ed & Hd). unfold has_post_info. simpl.
    destruct (decide (item = other)) as [->|Hne].
    + rewrite lookup_insert_eq. eexists. split; [reflexivity | apply mem_dict_set].
    + rewrite lookup_insert_ne by exact Hne. eauto.
  - unfold has_post_info. simpl. rewrite lookup_insert_eq.
    eexists. split; [reflexivity | apply mem_dict_set].
Qed.

(** The loop of [add_field], when a date can be drawn: it ends normally and
    every record it went over has the field. *)
Lemma add_post_info_loop (items : list positive) (w : world) :
  0 <= today w - 1 -> Forall (fun item => is_Some (dicts w !! item)) items ->
  exists w', for_each items add_post_info w = (Ok tt, w') /\ adds_fields w w'
             /\ Forall (has_post_info (dicts w')) items.
Proof.
  revert w. induction items as [|item items IH]; intros w Ht Hall.
  - exists w. repeat split; auto using adds_fields_refl.
  - inversion Hall as [|? ? Hitem Hrest]; subst.
    destruct (add_post_info_adds item w Ht Hitem) as (w1 & E1 & Hadd1 & Hhas1).
    destruct (IH w1) as (w2 & E2 & Hadd2 & Hhas2).
    + destruct Hadd1 as (_ & _ & -> & _). exact Ht.
    + eapply Forall_impl; [exact Hrest|]. intros other. apply Hadd1.
    + exists w2. cbn [for_each]. rewrite (bind_ok _ _ _ _ _ E1).
      split; [exact E2|]. split; [eapply adds_fields_trans; eassumption|].
      constructor; [|exact Hhas2]. apply Hadd2, Hhas1.
Qed.

Lemma comments_of_holds (self : positive) (items : list positive) (w : world) :
  holds_comments self items w -> comments_of self w = (Ok items, w).
Proof. intros (held & E1 & E2). eapply comments_of_ok; eassumption. Qed.

(** The field is there: [add_field] does nothing and returns nothing. *)
Lemma add_field_present (self first : positive) (rest : list positive) (w : world)
    (show preview_only : bool) (limit_field : option Z) :
  holds_comments self (first :: rest) w -> has_post_info (dicts w) first ->
  add_field self show preview_only limit_field w = (Ok None, w).
Proof.
  intros Hself (record & E & Hmem). unfold add_field.
  rewrite (bind_ok _ _ _ _ _ (comments_of_holds _ _ _ Hself)).
  rewrite (bind_ok _ _ _ _ _ (first_keys_ok first rest record w E)).
  rewrite Hmem. reflexivity.
Qed.

(** The field is not there and no date can be drawn: the call raises in
    the first round, and no record has changed. *)
Lemma add_field_no_date (self first : positive) (rest : list positive) (w : world)
    (record : dict) (show preview_only : bool) (limit_field : option Z) :
  holds_comments self (first :: rest) w ->
  dicts w !! first = Some record -> mem "post_info" (keys record) = false ->
  today w - 1 < 0 ->
  exists w', add_field self show preview_only limit_field w = (Raise ValueError, w')
             /\ only_draws w w'.
Proof.
  intros Hself E Hmem Ht. unfold add_field.
  rewrite (bind_ok _ _ _ _ _ (comments_of_holds _ _ _ Hself)).
  rewrite (bind_ok _ _ _ _ _ (first_keys_ok first rest record w E)).
  rewrite Hmem.
  destruct (add_post_info_no_date first w Ht) as (w' & Erun & Hd).
  exists w'. split; [|exact Hd].
  apply bind_raise. cbn [for_each]. apply bind_raise. exact Erun.
Qed.

(** The field is not there and a date can be drawn: however the call ends
    (printing may raise), the first record has the field afterwards and the
    instance holds the same list. *)
Lemma add_field_adds (self first : positive) (rest : list positive) (w : world)
    (record : dict) (show preview_only : bool) (limit_field : option Z) :
  holds_comments self (first :: rest) w ->
  Forall (fun item => is_Some (dicts w !! item)) (first :: rest) ->
  dicts w !! first = Some record -> mem "post_info" (keys record) = false ->
  0 <= today w - 1 ->
  let w' := (add_field self show preview_only limit_field w).2 in
  holds_comments self (first :: rest) w' /\ has_post_info (dicts w') first.
Proof.
  intros Hself Hall E Hmem Ht. unfold add_field.
  rewrite (bind_ok _ _ _ _ _ (comments_of_holds _ _ _ Hself)).
  rewrite (bind_ok _ _ _ _ _ (first_keys_ok first rest record w E)).
  rewrite Hmem.
  destruct (add_post_info_loop (first :: rest) w Ht Hall) as (w1 & Eloop & Hadd & Hhas).
  rewrite (bind_ok _ _ _ _ _ Eloop).
  assert (Hshow : keeps only_prints
                    (if show
                     then if preview_only
                          then printAllComments self (VInt 11) true limit_field
                          else printAllComments self (VInt 24) false limit_field
                     else ret tt)).
  { destruct show; [destruct preview_only|];
      first [apply printAllComments_only_prints | apply keeps_ret; typeclasses eauto]. }
  specialize (Hshow w1). unfold bind.
  match type of Hshow with
  | only_prints _ (?shown).2 => destruct shown as [[[]| e |] w2]
  end; simpl in *;
    destruct Hshow as (Hd & Hl & _ & Hc & _);
    (split;
     [ destruct Hself as (held & E1 & E2), Hadd as (Hl1 & Hc1 & _);
       exists held; rewrite Hc, Hl, Hc1, Hl1; split; assumption
     | rewrite Hd; inversion Hhas; assumption ]).
Qed.

(** C8.  For an instance over a list that is not empty: after a first call
    of [add_field], however it ended, a second call changes no record; and
    when the first call returned, the second returns nothing and leaves
    everything as it was, the random generator included. *)
Theorem add_field_twice (self first : positive) (rest : list positive) (w : world)
    (show1 preview1 show2 preview2 : bool) (limit1 limit2 : option Z) :
  holds_comments self (first :: rest) w ->
  Forall (fun item => is_Some (dicts w !! item)) (first :: rest) ->
  let w1 := (add_field self show1 preview1 limit1 w).2 in
  dicts (add_field self show2 preview2 limit2 w1).2 = dicts w1
  /\ (forall r, (add_field self show1 preview1 limit1 w).1 = Ok r ->
                add_field self show2 preview2 limit2 w1 = (Ok None, w1)).
Proof.
  intros Hself Hall.
  assert (Hfirst : is_Some (dicts w !! first)) by (inversion Hall; assumption).
  destruct Hfirst as [record E].
  destruct (mem "post_info" (keys record)) eqn:Hmem.
  - (* the field is there before the first call *)
    assert (Hhas : has_post_info (dicts w) first) by (exists record; split; assumption).
    rewrite (add_field_present self first rest w show1 preview1 limit1 Hself Hhas). simpl.
    rewrite (add_field_present self first rest w show2 preview2 limit2 Hself Hhas).
    split; [reflexivity | intros; reflexivity].
  - destruct (Z.lt_ge_cases (today w - 1) 0) as [Ht|Ht].
    + (* no date can be drawn: both calls raise in their first round *)
      destruct (add_field_no_date self first rest w record show1 preview1 limit1
                  Hself E Hmem Ht) as (w1 & E1 & Hd1 & Hl1 & Hc1 & Ht1).
      rewrite E1. simpl.
      assert (Hself1 : holds_comments self (first :: rest) w1).
      { destruct Hself as (held & A & B). exists held. rewrite Hc1, Hl1. split; assumption. }
      destruct (add_field_no_date self first rest w1 record show2 preview2 limit2 Hself1)
        as (w2 & E2 & Hd2 & _); [rewrite Hd1; exact E | exact Hmem | rewrite Ht1; exact Ht |].
      rewrite E2. simpl. split; [exact Hd2 | discriminate].
    + (* the first call gives every record the field *)
      destruct (add_field_adds self first rest w record show1 preview1 limit1
                  Hself Hall E Hmem Ht) as (Hself1 & Hhas1).
      simpl.
      rewrite (add_field_present self first rest _ show2 preview2 limit2 Hself1 Hhas1).
      split; [reflexivity | intros; reflexivity].
Qed.

End AddField.

(** C8 on a repository of two comments: the first call returns the
    instance, the second returns nothing and changes nothing. *)
Lemma add_field_twice_witness :
  holds_comments 1 [1; 2]%positive two_comments
  /\ (add_field (H := plain) 1 false true None two_comments).1 = Ok (Some 1%positive)
  /\ dicts (add_field (H := plain) 1 true true None
              (add_field (H := plain) 1 false true None two_comments).2).2
     = dicts (add_field (H := plain) 1 false true None two_comments).2
  /\ add_field (H := plain) 1 true true None
       (add_field (H := plain) 1 false true None two_comments).2
     = (Ok None, (add_field (H := plain) 1 false true None two_comments).2).
Proof.
  assert (Hself : holds_comments 1 [1; 2]%positive two_comments)
    by (exists 1%positive; split; reflexivity).
  assert (Hall : Forall (fun item => is_Some (dicts two_comments !! item)) [1; 2]%positive)
    by (repeat constructor; eexists; reflexivity).
  assert (Hret : (add_field (H := plain) 1 false true None two_comments).1
                 = Ok (Some 1%positive)) by reflexivity.
  destruct (add_field_twice (H := plain) 1 1 [2]%positive two_comments
              false true true true None None Hself Hall) as [Hsame Hnone].
  split; [exact Hself|]. split; [exact Hret|]. split; [exact Hsame|].
  exact (Hnone _ Hret).
Defined.

End AddField.

(** ** The filters and the sort of [bookData] *)

Module Filters.
Import Py A3 Vocabulary Examples Run ValidFacts Frames Validate.

#[export] Instance only_allocates_preorder : PreOrder only_allocates.
Proof.
  split.
  - intros w. repeat split; reflexivity.
  - intros w1 w2 w3 (A1 & A2 & A3 & A4 & A5 & A6) (B1 & B2 & B3 & B4 & B5 & B6).
    repeat split; try congruence; etransitivity; eassumption.
Qed.

Lemma only_prints_allocates (w w' : world) : only_prints w w' -> only_allocates w w'.
Proof.
  intros (A1 & A2 & A3 & A4 & A5 & A6). repeat split; try assumption.
  - rewrite A2. reflexivity.
  - rewrite A3. reflexivity.
Qed.

Lemma fresh_free {A : Type} (m : gmap positive A) : m !! fresh (dom m) = None.
Proof. apply not_elem_of_dom, is_fresh. Qed.

Lemma new_list_allocates (items : list positive) : keeps only_allocates (new_list items).
Proof.
  intros w. unfold new_list. simpl. repeat split; try reflexivity.
  apply insert_subseteq, fresh_free.
Qed.

Lemma new_bookData_allocates (books : positive) : keeps only_allocates (new_bookData books).
Proof.
  intros w. unfold new_bookData. simpl. repeat split; try reflexivity.
  apply insert_subseteq, fresh_free.
Qed.

(** What a call that returned has run through. *)
Lemma bind_returned {S A B : Type} (m : M S A) (k : A -> M S B) (s s' : S) (b : B) :
  bind m k s = (Ok b, s') -> exists a s0, m s = (Ok a, s0) /\ k a s0 = (Ok b, s').
Proof.
  unfold bind. destruct (m s) as [[a| e |] s0]; intros E; try discriminate.
  exists a, s0. split; [reflexivity | exact E].
Qed.

Section Filters.
Context `{Builtins}.

Lemma wrap_books_allocates (items : list positive) (show : bool) :
  keeps only_allocates (wrap_books items show).
Proof.
  unfold wrap_books.
  apply keeps_bind; [typeclasses eauto | apply new_list_allocates | intros held].
  apply keeps_bind; [typeclasses eauto | apply new_bookData_allocates | intros new_obj].
  apply keeps_bind; [typeclasses eauto | | intros _; apply keeps_ret; typeclasses eauto].
  eapply keeps_weaken; [apply only_prints_allocates|].
  destruct show; [|apply keeps_ret; typeclasses eauto].
  apply keeps_bind; [typeclasses eauto | apply printAllBooks_only_prints |].
  intros _. apply keeps_ret. typeclasses eauto.
Qed.

Ltac allocates :=
  repeat first
    [ apply wrap_books_allocates
    | eapply keeps_weaken;
      [ apply only_prints_allocates
      | first [ apply books_of_only_prints | apply filter_records_only_prints
              | apply keyed_by_only_prints ] ]
    | apply keeps_raise; typeclasses eauto | apply keeps_lift; typeclasses eauto
    | apply keeps_bind; [typeclasses eauto | | intros] ].

(** Whatever the arguments and however the call ends, it only allocates. *)
Lemma call_allocates (c : filter_call) (self : positive) : keeps only_allocates (call c self).
Proof.
  destruct c as [title show | author show | price show | sortedBy reverse_param show limit];
    simpl.
  - unfold printByTitle. destruct title; allocates.
  - unfold printByAuthor. destruct author; allocates.
  - unfold printOverPrice. destruct (negb (is_number price)); allocates.
  - unfold printAllBooksSorted.
    apply keeps_bind; [typeclasses eauto | apply keeps_lift; typeclasses eauto |].
    intros sortedBy_lower. destruct (negb (mem sortedBy_lower _)); allocates.
Qed.

(** What [wrap_books] returns is an instance that was not there, over a
    list that was not there and that holds the given records. *)
Lemma wrap_books_fresh (items : list positive) (show : bool) (w w' : world)
    (new_obj : positive) :
  wrap_books items show w = (Ok new_obj, w') ->
  book_objs w !! new_obj = None
  /\ exists held, lists w !! held = None /\ holds_books new_obj items w'
                  /\ book_objs w' !! new_obj = Some held.
Proof.
  unfold wrap_books. intros E.
  apply bind_returned in E as (held & w1 & E1 & E).
  apply bind_returned in E as (obj & w2 & E2 & E).
  apply bind_returned in E as ([] & w3 & E3 & E).
  unfold ret in E. injection E as <- <-.
  unfold new_list in E1. injection E1 as <- <-.
  unfold new_bookData in E2. simpl in E2. injection E2 as <- <-.
  assert (Hp : only_prints
                 (set_book_objs <[fresh (dom (book_objs w)) := fresh (dom (lists w))]>
                    (set_lists <[fresh (dom (lists w)) := items]> w)) w3).
  { destruct show.
    - apply bind_returned in E3 as (r & w4 & E4 & E3). unfold ret in E3. injection E3 as <-.
      pose proof (printAllBooks_only_prints (fresh (dom (book_objs w))) None
                    (set_book_objs <[fresh (dom (book_objs w)) := fresh (dom (lists w))]>
                       (set_lists <[fresh (dom (lists w)) := items]> w))) as Hk.
      simpl in Hk. rewrite E4 in Hk. exact Hk.
    - unfold ret in E3. injection E3 as <-. reflexivity. }
  destruct Hp as (_ & Hl & Hb & _). simpl in Hl, Hb.
  split; [apply fresh_free|]. exists (fresh (dom (lists w))).
  split; [apply fresh_free|].
  assert (Hobj : book_objs w3 !! fresh (dom (book_objs w)) = Some (fresh (dom (lists w))))
    by (rewrite Hb; apply lookup_insert_eq).
  split; [|exact Hobj].
  exists (fresh (dom (lists w))). split; [exact Hobj|].
  rewrite Hl. apply lookup_insert_eq.
Qed.

Lemma returned_after_prints {A B : Type} (m : M world A) (k : A -> M world B)
    (w w' : world) (b : B) :
  keeps only_prints m -> bind m k w = (Ok b, w') ->
  exists a w0, only_prints w w0 /\ k a w0 = (Ok b, w').
Proof.
  intros Hm E. apply bind_returned in E as (a & w0 & E0 & E).
  exists a, w0. split; [|exact E]. specialize (Hm w). rewrite E0 in Hm. exact Hm.
Qed.

(** What a call returns is an instance that was not there, over a list
    that was not there. *)
Lemma call_fresh (c : filter_call) (self : positive) (w w' : world) (new_obj : positive) :
  call c self w = (Ok new_obj, w') ->
  book_objs w !! new_obj = None
  /\ exists held items, lists w !! held = None /\ holds_books new_obj items w'
                        /\ book_objs w' !! new_obj = Some held.
Proof.
  assert (Hend : forall items show w0,
             only_prints w w0 -> wrap_books items show w0 = (Ok new_obj, w') ->
             book_objs w !! new_obj = None
             /\ exists held items, lists w !! held = None /\ holds_books new_obj items w'
                                   /\ book_objs w' !! new_obj = Some held).
  { intros items show w0 (_ & Hl & Hb & _) E.
    apply wrap_books_fresh in E as (Hnew & held & Hheld & Hholds & Hobj).
    rewrite Hb in Hnew. rewrite Hl in Hheld. split; [exact Hnew|].
    exists held, items. repeat split; assumption. }
  destruct c as [title show | author show | price show | sortedBy reverse_param show limit];
    simpl; intros E.
  - unfold printByTitle in E. destruct title; try discriminate E.
    apply returned_after_prints in E as (books & w1 & H1 & E); [|apply books_of_only_prints].
    apply returned_after_prints in E as (kept & w2 & H2 & E);
      [|apply filter_records_only_prints].
    eapply Hend; [|exact E]. etransitivity; eassumption.
  - unfold printByAuthor in E. destruct author; try discriminate E.
    apply returned_after_prints in E as (books & w1 & H1 & E); [|apply books_of_only_prints].
    apply returned_after_prints in E as (kept & w2 & H2 & E);
      [|apply filter_records_only_prints].
    eapply Hend; [|exact E]. etransitivity; eassumption.
  - unfold printOverPrice in E. destruct (negb (is_number price)); try discriminate E.
    apply returned_after_prints in E as (books & w1 & H1 & E); [|apply books_of_only_prints].
    apply returned_after_prints in E as (kept & w2 & H2 & E);
      [|apply filter_records_only_prints].
    eapply Hend; [|exact E]. etransitivity; eassumption.
  - unfold printAllBooksSorted in E.
    apply returned_after_prints in E as (lowered & w0 & H0 & E);
      [|apply keeps_lift; typeclasses eauto].
    destruct (negb (mem lowered _)); try discriminate E.
    apply returned_after_prints in E as (books & w1 & H1 & E); [|apply books_of_only_prints].
    apply returned_after_prints in E as (keyed & w2 & H2 & E); [|apply keyed_by_only_prints].
    apply returned_after_prints in E as (sorted & w3 & H3 & E);
      [|apply keeps_lift; typeclasses eauto].
    eapply Hend; [|exact E]. repeat (etransitivity; [eassumption|]). reflexivity.
Qed.

End Filters.

Lemma ok_ret {A : Type} (w0 : world) (a : A) (Q : A -> Prop) : Q a -> ok_from w0 (ret a) Q.
Proof. intros Ha w _. exists a, w. repeat split; assumption. Qed.

Lemma ok_lift {A : Type} (w0 : world) (r : result A) (Q : A -> Prop) :
  (exists a, r = Ok a /\ Q a) -> ok_from w0 (lift r) Q.
Proof. intros (a & -> & Ha) w _. exists a, w. repeat split; assumption. Qed.

Lemma ok_print (w0 : world) (line : string) (Q : unit -> Prop) :
  Q tt -> ok_from w0 (print line) Q.
Proof. intros Hq w _. eexists tt, _. split; [reflexivity|]. split; [|exact Hq]. repeat split. Qed.

Lemma ok_read_dicts (w0 : world) (l : positive) (record : dict) (Q : dict -> Prop) :
  dicts w0 !! l = Some record -> Q record -> ok_from w0 (read dicts l) Q.
Proof.
  intros E Hq w (Hd & _). exists record, w. unfold read. rewrite Hd, E.
  repeat split; assumption.
Qed.

Lemma ok_bind {A B : Type} (w0 : world) (m : M world A) (k : A -> M world B)
    (Q : A -> Prop) (Q' : B -> Prop) :
  ok_from w0 m Q -> (forall a, Q a -> ok_from w0 (k a) Q') -> ok_from w0 (bind m k) Q'.
Proof.
  intros Hm Hk w Hw. destruct (Hm w Hw) as (a & w1 & E1 & H1 & Ha).
  destruct (Hk a Ha w1) as (b & w2 & E2 & H2 & Hb); [etransitivity; eassumption|].
  exists b, w2. rewrite (bind_ok _ _ _ _ _ E1). split; [exact E2|].
  split; [etransitivity; eassumption | exact Hb].
Qed.

Lemma ok_for_each {A : Type} (w0 : world) (xs : list A) (body : A -> M world unit) :
  Forall (fun x => ok_from w0 (body x) (fun _ => True)) xs ->
  ok_from w0 (for_each xs body) (fun _ => True).
Proof.
  induction 1 as [|x xs Hx Hxs IH]; cbn [for_each].
  - apply ok_ret. exact I.
  - eapply ok_bind; [exact Hx | intros _ _; exact IH].
Qed.

(** A loop with an accumulator, with what holds of it at every round. *)
Lemma ok_fold_each {A B : Type} (w0 : world) (xs : list A) (body : B -> A -> M world B)
    (Inv : list A -> B -> Prop) (seen : list A) (acc : B) :
  Inv seen acc ->
  (forall seen x acc, x ∈ xs -> Inv seen acc ->
     ok_from w0 (body acc x) (fun acc' => Inv (seen ++ [x]) acc')) ->
  ok_from w0 (fold_each xs body acc) (fun acc' => Inv (seen ++ xs) acc').
Proof.
  revert seen acc. induction xs as [|x xs IH]; intros seen acc Hacc Hbody; cbn [fold_each].
  - apply ok_ret. rewrite app_nil_r. exact Hacc.
  - eapply ok_bind; [apply (Hbody seen x acc); [left | exact Hacc]|].
    intros acc' Hacc'. cbv beta in Hacc'.
    replace (seen ++ x :: xs) with ((seen ++ [x]) ++ xs) by (rewrite <- app_assoc; reflexivity).
    apply IH; [exact Hacc'|]. intros seen' y acc0 Hy. apply Hbody. right. exact Hy.
Qed.

Lemma ok_weaken {A : Type} (w0 : world) (m : M world A) (Q Q' : A -> Prop) :
  ok_from w0 m Q -> (forall a, Q a -> Q' a) -> ok_from w0 m Q'.
Proof.
  intros Hm HQ w Hw. destruct (Hm w Hw) as (a & w' & E & Hp & Ha).
  exists a, w'. split; [exact E|]. split; [exact Hp | apply HQ, Ha].
Qed.

End Filters.

(** ** When the filters and the sort return *)

Module Returns.
Import Py A3 Vocabulary Examples Run ValidFacts Frames Validate Filters WrapText.

Lemma ljust_ok (s : string) (w : Z) : 0 <= w -> exists t, ljust s w = Ok t.
Proof. intros Hw. unfold ljust. destruct (Z.ltb_spec w 0); [lia | eauto]. Qed.

Lemma rjust_ok (s : string) (w : Z) : 0 <= w -> exists t, rjust s w = Ok t.
Proof. intros Hw. unfold rjust. destruct (Z.ltb_spec w 0); [lia | eauto]. Qed.

Lemma index_ok {A : Type} (xs : list A) (i : nat) :
  (i < length xs)%nat -> exists x, index xs i = Ok x /\ x ∈ xs.
Proof.
  intros Hi. destruct (lookup_lt_is_Some_2 xs i Hi) as [x E].
  exists x. unfold index. rewrite E. split; [reflexivity|].
  eapply list_elem_of_lookup_2. exact E.
Qed.

Lemma length_blanks {A : Type} (blank : A) (n : Z) : length (blanks blank n) = Z.to_nat n.
Proof. unfold blanks. apply length_replicate. Qed.

Lemma isbn13_len (s : string) (ds : list Z) : isbn13 s ds -> len s = 13.
Proof.
  intros [E Hl]. apply digits_of_length in E. rewrite chars_length in E.
  unfold len. lia.
Qed.

Section Returns.
Context `{Builtins}.

Lemma add_hyphen_ok (s : string) (k : Z) :
  0 <= k < len s -> exists t, add_hyphen (VStr s) k = Ok t /\ len t = len s + 1.
Proof.
  intros Hk. unfold add_hyphen. cbn [str].
  destruct (Z.ltb_spec k 0); [lia|]. destruct (Z.leb_spec (len s) k); [lia|].
  eexists. split; [reflexivity|].
  rewrite !len_append, len_str_to, len_str_from by lia. change (len "-") with 1. lia.
Qed.

Lemma toISBN_ok (isbn : string) : len isbn = 13 -> exists t, toISBN (VStr isbn) = Ok t.
Proof.
  intros Hl. unfold toISBN. cbn [str rfold].
  destruct (add_hyphen_ok isbn 3) as (t1 & -> & L1); [lia|]. cbn [rbind].
  destruct (add_hyphen_ok t1 5) as (t2 & -> & L2); [lia|]. cbn [rbind].
  destruct (add_hyphen_ok t2 9) as (t3 & -> & L3); [lia|]. cbn [rbind].
  destruct (add_hyphen_ok t3 15) as (t4 & -> & L4); [lia|]. cbn [rbind].
  eauto.
Qed.

Lemma longest_keeps (key : string) (data : list dict) (m : Z) :
  0 <= m -> Forall (fun item => is_Some (dict_get key item)) data ->
  exists m', foldl (longest key) (m, true) data = (m', true) /\ 0 <= m'.
Proof.
  revert m. induction data as [|item data IH]; intros m Hm Hall; simpl.
  - eauto.
  - inversion Hall as [|? ? [v Hv] Hrest]; subst. rewrite Hv. apply IH; [lia | exact Hrest].
Qed.

Lemma maxLength_ok (key : string) (item : dict) (data : list dict) :
  Forall (fun item => is_Some (dict_get key item)) (item :: data) ->
  exists n, maxLength (item :: data) key = Ok n /\ 0 <= n.
Proof.
  intros Hall. inversion Hall as [|? ? [v Hv] Hrest]; subst.
  unfold maxLength. cbn [foldl]. unfold longest at 2. rewrite Hv.
  destruct (longest_keeps key data (Z.max 0 (len (str v)))) as (m' & E & Hm');
    [lia | exact Hrest |].
  rewrite E. simpl. eauto.
Qed.


Ltac lifted Q :=
  eapply (ok_bind _ _ _ Q); [apply ok_lift | intros ? ?].

Ltac printed :=
  eapply (ok_bind _ _ _ (fun _ : unit => True)); [apply ok_print; exact I | intros _ _].

Lemma book_row_ok (w0 : world) (len_title len_author len_price : Z)
    (isbn_lines title_lines : list string) (author_lines : list value)
    (price_lines : list string) (i : nat) :
  0 <= len_title -> 0 <= len_author -> 0 <= len_price ->
  (i < length isbn_lines)%nat -> (i < length title_lines)%nat ->
  (i < length author_lines)%nat -> (i < length price_lines)%nat ->
  Forall (fun v => exists s, v = VStr s) author_lines ->
  ok_from w0 (book_row len_title len_author len_price isbn_lines title_lines author_lines
                price_lines i) (fun _ => True).
Proof.
  intros Ht Ha Hp Hi1 Hi2 Hi3 Hi4 Hstr. unfold book_row.
  lifted (fun _ : string => True).
  { destruct (index_ok isbn_lines i Hi1) as (x & E & _). eauto. }
  lifted (fun _ : string => True).
  { destruct (ljust_ok a 19) as (x & E); [lia | eauto]. }
  lifted (fun _ : string => True).
  { destruct (index_ok title_lines i Hi2) as (x & E & _). eauto. }
  lifted (fun _ : string => True).
  { destruct (ljust_ok a1 len_title Ht) as (x & E). eauto. }
  lifted (fun v : value => exists s, v = VStr s).
  { destruct (index_ok author_lines i Hi3) as (x & E & Hin). exists x. split; [exact E|].
    rewrite Forall_forall in Hstr. apply Hstr, Hin. }
  lifted (fun _ : string => True).
  { match goal with Hs : exists s, _ = VStr s |- _ => destruct Hs as [s ->] end.
    cbn [format_left str]. destruct (ljust_ok s len_author Ha) as (x & E). eauto. }
  lifted (fun _ : string => True).
  { destruct (index_ok price_lines i Hi4) as (x & E & _). eauto. }
  lifted (fun _ : string => True).
  { match goal with |- context [rjust ?p _] => destruct (rjust_ok p len_price Hp) as (x & E) end.
    eauto. }
  apply ok_print. exact I.
Qed.


(** Reading the records of a list of Book Records. *)
Lemma read_records_ok (w0 : world) (books : list positive) :
  Forall (book_record (dicts w0)) books ->
  ok_from w0 (fold_each books (fun rs b => let* r := read dicts b in ret (rs ++ [r])) [])
    (fun records =>
       length records = length books
       /\ Forall (fun r => is_Some (dict_get "Author" r) /\ is_Some (dict_get "Price" r))
            records).
Proof.
  intros Hall.
  eapply ok_weaken.
  - apply (ok_fold_each w0 books _
             (fun seen records =>
                length records = length seen
                /\ Forall (fun r => is_Some (dict_get "Author" r)
                                    /\ is_Some (dict_get "Price" r)) records) [] []).
    + split; [reflexivity | constructor].
    + intros seen b records Hb [Hlen Hrec].
      rewrite Forall_forall in Hall.
      destruct (Hall b Hb) as (r & isbn & ds & title & author & price
                               & E & _ & _ & _ & Ea & Ep & _).
      eapply ok_bind; [eapply ok_read_dicts; [exact E | exact (eq_refl r)]|].
      intros r' Hr'. subst r'. apply ok_ret. split.
      * rewrite !length_app. simpl. lia.
      * apply Forall_app. split; [exact Hrec|]. constructor; [|constructor].
        rewrite Ea, Ep. split; eauto.
  - intros records Hr. exact Hr.
Qed.

(** The rows of one Book Record are printed. *)
Lemma book_lines_ok (w0 : world) (len_author len_price : Z) (b : positive) :
  0 <= len_author -> 0 <= len_price -> book_record (dicts w0) b ->
  ok_from w0
    (let* book := read dicts b in
     let* title := lift (getitem book "Title") in
     let* title_lines := lift (wrap_text title 18) in
     let* author := lift (getitem book "Author") in
     let* price := lift (getitem book "Price") in
     let* price := lift (format_2f price) in
     let* isbn := lift (getitem book "ISBN") in
     let* isbn := lift (toISBN isbn) in
     let max_lines := Z.of_nat (length title_lines) in
     let author_lines := [author] ++ blanks (VStr "") (max_lines - 1) in
     let price_lines := [price] ++ blanks "" (max_lines - 1) in
     let isbn_lines := [isbn] ++ blanks "" (max_lines - 1) in
     for_each (seq 0 (length title_lines))
       (book_row 18 len_author len_price isbn_lines title_lines author_lines price_lines))
    (fun _ => True).
Proof.
  intros Ha Hp (r & isbn & ds & title & author & price & E & Ei & Hisbn & Et & Eau & Epr & Hnum).
  eapply ok_bind; [eapply ok_read_dicts; [exact E | exact (eq_refl r)]|].
    intros r' Hr'. subst r'.
  unfold getitem. rewrite Et, Eau, Epr, Ei.
  lifted (fun v => v = VStr title); [eauto|]. subst.
  lifted (fun _ : list string => True).
  { destruct (wrap_text_returns title 18) as (lines & El); [lia | eauto]. }
  lifted (fun v => v = VStr author); [eauto|]. subst.
  lifted (fun v => v = price); [eauto|]. subst.
  lifted (fun _ : string => True).
  { destruct price; try discriminate Hnum; cbn [format_2f]; eauto. }
  lifted (fun v => v = VStr isbn); [eauto|]. subst.
  lifted (fun _ : string => True).
  { destruct (toISBN_ok isbn (isbn13_len _ _ Hisbn)) as (t & Etext). eauto. }
  cbv zeta. apply ok_for_each. apply Forall_forall. intros i Hi.
  apply elem_of_seq in Hi as [_ Hi]. simpl in Hi.
  apply book_row_ok; try lia; try assumption;
    try (cbn [app length]; rewrite length_blanks; lia).
  constructor; [eauto|]. unfold blanks. apply Forall_replicate. eauto.
Qed.


Lemma books_of_returns (w0 : world) (self : positive) (books : list positive) :
  holds_books self books w0 -> ok_from w0 (books_of self) (fun held => held = books).
Proof.
  intros (held & E1 & E2) w (_ & Hl & Hb & _). exists books, w.
  split; [|split; reflexivity].
  apply books_of_ok. exists held. rewrite Hb, Hl. split; assumption.
Qed.

(** [printAllBooks] prints a catalogue of Book Records and returns. *)
Lemma printAllBooks_ok (w0 : world) (self : positive) (books : list positive)
    (limit : option Z) :
  holds_books self books w0 -> Forall (book_record (dicts w0)) books ->
  ok_from w0 (printAllBooks self limit) (fun r => r = self).
Proof.
  intros Hself Hall. unfold printAllBooks.
  eapply ok_bind; [apply books_of_returns, Hself|]. intros ? ->.
  destruct books as [|b books]; [printed; apply ok_ret; reflexivity|].
  eapply ok_bind; [apply read_records_ok, Hall|]. intros records [Hlen Hkeys].
  destruct records as [|r records]; [discriminate Hlen|].
  destruct (maxLength_ok "Author" r records) as (la & Ela & Hla).
  { eapply Forall_impl; [exact Hkeys|]. intros ? [? _]. assumption. }
  destruct (maxLength_ok "Price" r records) as (lp & Elp & Hlp).
  { eapply Forall_impl; [exact Hkeys|]. intros ? [_ ?]. assumption. }
  rewrite Ela, Elp.
  lifted (fun n => n = la); [eauto|]. subst.
  lifted (fun n => n = lp); [eauto|]. subst.
  cbv zeta.
  printed.
  lifted (fun _ : string => True); [destruct (ljust_ok "ISBN" 19) as (x & E); [lia | eauto]|].
  lifted (fun _ : string => True); [destruct (ljust_ok "Title" 18) as (x & E); [lia | eauto]|].
  lifted (fun _ : string => True).
  { destruct (ljust_ok "Author" (Z.max la (len "Author"))) as (x & E); [lia | eauto]. }
  lifted (fun _ : string => True).
  { destruct (rjust_ok ("Price (" +:+ pound +:+ ")")
                (Z.max lp (len ("Price (" +:+ pound +:+ ")")))) as (x & E); [lia | eauto]. }
  printed.
  printed.
  eapply (ok_bind _ _ _ (fun _ => True)).
  - apply ok_for_each.
    assert (Hshown : Forall (book_record (dicts w0))
                       match limit with Some n => slice_to (b :: books) n | None => b :: books end).
    { destruct limit; [|exact Hall]. unfold slice_to. apply Forall_take, Hall. }
    eapply Forall_impl; [exact Hshown|]. intros item Hitem.
    apply book_lines_ok; [lia | lia | exact Hitem].
  - intros _ _. printed. apply ok_ret. reflexivity.
Qed.


Lemma returns_bind {A B : Type} (w0 : world) (m : M world A) (k : A -> M world B)
    (Q : A -> Prop) :
  ok_from w0 m Q -> (forall a, Q a -> returns_from w0 (k a)) -> returns_from w0 (bind m k).
Proof.
  intros Hm Hk w Hw. destruct (Hm w Hw) as (a & w1 & E1 & H1 & Ha).
  destruct (Hk a Ha w1) as (b & w2 & E2); [etransitivity; eassumption|].
  exists b, w2. rewrite (bind_ok _ _ _ _ _ E1). exact E2.
Qed.

Lemma wrap_books_returns (w0 : world) (items : list positive) (show : bool) :
  Forall (book_record (dicts w0)) items -> returns_from w0 (wrap_books items show).
Proof.
  intros Hall w (Hd & _). unfold wrap_books.
  set (held := fresh (dom (lists w))). set (new_obj := fresh (dom (book_objs w))).
  set (w2 := set_book_objs <[new_obj := held]> (set_lists <[held := items]> w)).
  assert (E1 : new_list items w = (Ok held, set_lists <[held := items]> w)) by reflexivity.
  assert (E2 : new_bookData held (set_lists <[held := items]> w) = (Ok new_obj, w2))
    by reflexivity.
  rewrite (bind_ok _ _ _ _ _ E1), (bind_ok _ _ _ _ _ E2).
  destruct show.
  - assert (Hheld : holds_books new_obj items w2)
      by (exists held; split; apply lookup_insert_eq).
    assert (Hrec : Forall (book_record (dicts w2)) items)
      by (change (dicts w2) with (dicts w); rewrite Hd; exact Hall).
    destruct (printAllBooks_ok w2 new_obj items None Hheld Hrec w2) as (r & w3 & E3 & _ & _);
      [reflexivity|].
    unfold bind at 1. unfold bind at 1. rewrite E3. cbn. eauto.
  - cbn. eauto.
Qed.

(** A filter whose test returns on every Book Record keeps Book Records. *)
Lemma filter_records_ok (w0 : world) (books : list positive) (test : dict -> result bool) :
  Forall (book_record (dicts w0)) books ->
  (forall b record, book_record (dicts w0) b -> dicts w0 !! b = Some record ->
                    exists keep, test record = Ok keep) ->
  ok_from w0 (filter_records books test) (Forall (book_record (dicts w0))).
Proof.
  intros Hall Htest. unfold filter_records.
  eapply ok_weaken.
  - apply (ok_fold_each w0 books _ (fun _ kept => Forall (book_record (dicts w0)) kept) [] []);
      [constructor|].
    intros seen b kept Hb Hkept. rewrite Forall_forall in Hall. pose proof (Hall b Hb) as Hrec.
    destruct Hrec as (r & Hr). destruct Hr as (isbn & ds & t & a & p & E & Hrest).
    eapply ok_bind; [eapply ok_read_dicts; [exact E | exact (eq_refl r)]|].
    intros r' Hr'. subst r'.
    destruct (Htest b r (Hall b Hb) E) as (keep & Ek).
    lifted (fun _ : bool => True); [eauto|].
    apply ok_ret. match goal with |- Forall _ (if ?k then _ else _) => destruct k end;
      [|exact Hkept].
    apply Forall_app. split; [exact Hkept|]. constructor; [apply Hall, Hb | constructor].
  - intros kept Hk. exact Hk.
Qed.

Lemma lt_numbers (a b : value) :
  is_number a = true -> is_number b = true -> exists r, lt a b = Ok r.
Proof. destruct a, b; try discriminate; intros _ _; cbn; eauto. Qed.

Lemma keyed_by_ok (w0 : world) (books : list positive) (field : string)
    (kind : value -> Prop) :
  Forall (book_record (dicts w0)) books ->
  (forall b record, book_record (dicts w0) b -> dicts w0 !! b = Some record ->
                    exists k, dict_get field record = Some k /\ kind k) ->
  ok_from w0 (keyed_by books field) (keys_of_kind kind w0).
Proof.
  intros Hall Hfield. unfold keyed_by.
  eapply ok_weaken.
  - apply (ok_fold_each w0 books _ (fun _ keyed => keys_of_kind kind w0 keyed) [] []);
      [constructor|].
    intros seen b keyed Hb Hkeyed. rewrite Forall_forall in Hall. pose proof (Hall b Hb) as Hrec.
    destruct Hrec as (r & Hr). destruct Hr as (isbn & ds & t & a & p & E & Hrest).
    eapply ok_bind; [eapply ok_read_dicts; [exact E | exact (eq_refl r)]|].
    intros r' Hr'. subst r'.
    destruct (Hfield b r (Hall b Hb) E) as (k & Ek & Hk).
    lifted (fun v => v = k); [unfold getitem; rewrite Ek; eauto|]. subst.
    apply ok_ret. apply Forall_app. split; [exact Hkeyed|].
    constructor; [split; [exact Hk | apply Hall, Hb] | constructor].
  - intros keyed Hk. exact Hk.
Qed.

Lemma insert_sorted_Forall {A : Type} (Q : value * A -> Prop) (reverse : bool)
    (x : value * A) (ys : list (value * A)) :
  Q x -> Forall Q ys -> Forall Q (insert_sorted reverse x ys).
Proof.
  intros Hx. induction 1 as [|y ys Hy Hys IH]; simpl.
  - repeat constructor. exact Hx.
  - destruct (if reverse then _ else _).
    + constructor; [exact Hy | exact IH].
    + constructor; [exact Hx|]. constructor; assumption.
Qed.

Lemma sort_Forall {A : Type} (Q : value * A -> Prop) (reverse : bool)
    (keyed : list (value * A)) :
  Forall Q keyed -> Forall Q (foldr (insert_sorted reverse) [] keyed).
Proof.
  induction 1 as [|k ks Hk Hks IH]; [constructor|].
  cbn [foldr]. apply insert_sorted_Forall; assumption.
Qed.

Lemma sorted_by_ok (w0 : world) (kind : value -> Prop) (keyed : list (value * positive))
    (reverse : bool) :
  (forall a b, kind a -> kind b -> comparable a b = true) ->
  keys_of_kind kind w0 keyed ->
  exists sorted, sorted_by keyed reverse = Ok sorted /\ Forall (book_record (dicts w0)) sorted.
Proof.
  intros Hcmp Hkeyed.
  assert (Hmap : forall l : list (value * positive),
             Forall (fun k => kind k.1 /\ book_record (dicts w0) k.2) l ->
             Forall (book_record (dicts w0)) (map snd l)).
  { intros l Hl. apply Forall_map. eapply Forall_impl; [exact Hl|]. intros ? [_ ?]. assumption. }
  unfold sorted_by. destruct keyed as [|k0 [|k1 rest]]; [eauto..|].
  assert (Hall : forallb (fun k => comparable k0.1 k.1) (k0 :: k1 :: rest) = true).
  { apply forallb_forall. intros k Hk. apply list_elem_of_In in Hk.
    unfold keys_of_kind in Hkeyed. rewrite Forall_forall in Hkeyed.
    apply Hcmp; [apply (Hkeyed k0); left | apply (Hkeyed k), Hk]. }
  rewrite Hall. eexists. split; [reflexivity|]. apply Hmap, sort_Forall, Hkeyed.
Qed.


Lemma record_of (w0 : world) (b : positive) (record : dict) :
  book_record (dicts w0) b -> dicts w0 !! b = Some record ->
  exists isbn title author price,
    dict_get "ISBN" record = Some (VStr isbn)
    /\ dict_get "Title" record = Some (VStr title)
    /\ dict_get "Author" record = Some (VStr author)
    /\ dict_get "Price" record = Some price /\ is_number price = true.
Proof.
  intros (r & isbn & ds & title & author & price & E & Ei & _ & Et & Ea & Ep & Hp) E'.
  assert (r = record) by congruence. subst r. eauto 10.
Qed.

Lemma sorted_returns (w0 : world) (self : positive) (books : list positive)
    (field : string) (kind : value -> Prop) (reverse_param show : bool) (limit : option Z) :
  holds_books self books w0 -> Forall (book_record (dicts w0)) books ->
  (forall a b, kind a -> kind b -> comparable a b = true) ->
  (forall b record, book_record (dicts w0) b -> dicts w0 !! b = Some record ->
                    exists k, dict_get field record = Some k /\ kind k) ->
  returns_from w0
    (let* books := books_of self in
     let* keyed := keyed_by books field in
     let* sorted_books := lift (sorted_by keyed reverse_param) in
     let sorted_books :=
       match limit with Some n => slice_to sorted_books n | None => sorted_books end in
     wrap_books sorted_books show).
Proof.
  intros Hself Hall Hcmp Hfield.
  eapply returns_bind; [apply books_of_returns, Hself|]. intros ? ->.
  eapply returns_bind; [apply (keyed_by_ok w0 books field kind Hall Hfield)|].
  intros keyed Hkeyed.
  destruct (sorted_by_ok w0 kind keyed reverse_param Hcmp Hkeyed) as (sorted & Es & Hs).
  eapply (returns_bind _ _ _ (fun l => l = sorted)); [apply ok_lift; eauto|]. intros ? ->.
  cbv zeta. apply wrap_books_returns.
  destruct limit; [unfold slice_to; apply Forall_take|]; exact Hs.
Qed.

(** On a catalogue of Book Records, a call with accepted arguments returns. *)
Lemma call_returns (c : filter_call) (self : positive) (books : list positive) (w0 : world) :
  holds_books self books w0 -> Forall (book_record (dicts w0)) books -> accepted c ->
  returns_from w0 (call c self).
Proof.
  intros Hself Hall Hc.
  destruct c as [title show | author show | price show | sortedBy reverse_param show limit];
    simpl in Hc; cbn [call].
  - destruct Hc as [s ->]. unfold printByTitle.
    eapply returns_bind; [apply books_of_returns, Hself|]. intros ? ->.
    eapply returns_bind; [apply filter_records_ok; [exact Hall|]|].
    + intros b record Hb E.
      destruct (record_of w0 b record Hb E) as (i & t & a & p & _ & Et & _).
      unfold getitem. rewrite Et. cbn. eauto.
    + intros kept Hkept. apply wrap_books_returns, Hkept.
  - destruct Hc as [s ->]. unfold printByAuthor.
    eapply returns_bind; [apply books_of_returns, Hself|]. intros ? ->.
    eapply returns_bind; [apply filter_records_ok; [exact Hall|]|].
    + intros b record Hb E.
      destruct (record_of w0 b record Hb E) as (i & t & a & p & _ & _ & Ea & _).
      unfold getitem. rewrite Ea. cbn. eauto.
    + intros kept Hkept. apply wrap_books_returns, Hkept.
  - unfold printOverPrice. rewrite Hc. cbn [negb].
    eapply returns_bind; [apply books_of_returns, Hself|]. intros ? ->.
    eapply returns_bind; [apply filter_records_ok; [exact Hall|]|].
    + intros b record Hb E.
      destruct (record_of w0 b record Hb E) as (i & t & a & p & _ & _ & _ & Ep & Hp).
      unfold getitem. rewrite Ep. cbn [rbind]. unfold gt. apply lt_numbers; assumption.
    + intros kept Hkept. apply wrap_books_returns, Hkept.
  - assert (Hstr : forall a b : value,
               (exists s, a = VStr s) -> (exists s, b = VStr s) -> comparable a b = true)
      by (intros a b [s ->] [t ->]; reflexivity).
    assert (Hnum : forall a b : value,
               is_number a = true -> is_number b = true -> comparable a b = true)
      by (intros a b Ha Hb; destruct a, b; try discriminate; reflexivity).
    unfold printAllBooksSorted. destruct Hc as [-> | [-> | ->]].
    + eapply (returns_bind _ _ _ (fun l => l = "price")); [apply ok_lift; eauto|]. intros ? ->.
      apply (sorted_returns w0 self books "Price" (fun v => is_number v = true));
        try assumption.
      intros b record Hb E.
      destruct (record_of w0 b record Hb E) as (i & t & a & p & _ & _ & _ & Ep & Hp). eauto.
    + eapply (returns_bind _ _ _ (fun l => l = "title")); [apply ok_lift; eauto|]. intros ? ->.
      apply (sorted_returns w0 self books "Title" (fun v => exists s, v = VStr s));
        try assumption.
      intros b record Hb E.
      destruct (record_of w0 b record Hb E) as (i & t & a & p & _ & Et & _). eauto.
    + eapply (returns_bind _ _ _ (fun l => l = "author")); [apply ok_lift; eauto|]. intros ? ->.
      apply (sorted_returns w0 self books "Author" (fun v => exists s, v = VStr s));
        try assumption.
      intros b record Hb E.
      destruct (record_of w0 b record Hb E) as (i & t & a & p & _ & _ & Ea & _). eauto.
Qed.

(** C4, as the code has it.  Whatever the arguments and however the call
    ends, each of [printByTitle], [printByAuthor], [printOverPrice] and
    [printAllBooksSorted] leaves the receiver holding the same list of the
    same records in the same order, and changes no record, list or instance
    that was there.  When the call returns, what it returns is a new
    instance over a new list.  On a catalogue of Book Records it returns for
    a string to search for, a number as price, and ['Price'], ['Title'] or
    ['Author'] to sort by; [printAllBooksSorted] raises [ValueError] for a
    string that, in lower case, is none of ['price'], ['title'],
    ['author']. *)
Theorem filters_keep_receiver (c : filter_call) (self : positive) (books : list positive)
    (w : world) :
  holds_books self books w ->
  holds_books self books (call c self w).2
  /\ only_allocates w (call c self w).2
  /\ (forall new_obj, (call c self w).1 = Ok new_obj ->
        new_obj <> self /\ book_objs w !! new_obj = None
        /\ exists held items,
             lists w !! held = None /\ holds_books new_obj items (call c self w).2
             /\ book_objs (call c self w).2 !! new_obj = Some held)
  /\ (Forall (book_record (dicts w)) books -> accepted c ->
      exists new_obj, (call c self w).1 = Ok new_obj)
  /\ (forall s reverse_param show limit,
        c = Sorted (VStr s) reverse_param show limit ->
        mem (lower s) ["price"; "title"; "author"] = false ->
        call c self w = (Raise ValueError, w)).
Proof.
  intros Hself.
  pose proof (call_allocates c self w) as Halloc.
  split; [|split; [exact Halloc|split; [|split]]].
  - destruct Hself as (held & E1 & E2), Halloc as (_ & Hl & Hb & _).
    exists held. split; [eapply lookup_weaken; eassumption|].
    eapply lookup_weaken; eassumption.
  - intros new_obj E. destruct (call c self w) as [r w'] eqn:Ecall. simpl in E. subst r.
    destruct (call_fresh c self w w' new_obj Ecall) as (Hnew & Hrest).
    split; [|split; [exact Hnew | exact Hrest]].
    intros ->. destruct Hself as (held & E1 & _). congruence.
  - intros Hall Hc.
    destruct (call_returns c self books w Hself Hall Hc w) as (r & w' & E); [reflexivity|].
    exists r. rewrite E. reflexivity.
  - intros s reverse_param show limit -> Hmem. cbn [call]. unfold printAllBooksSorted.
    cbn [lower_of]. unfold bind at 1. unfold lift at 1. rewrite Hmem. reflexivity.
Qed.

End Returns.

(** C4 as stated fails: sorting by ['isbn'], a string, returns no
    catalogue; the call raises [ValueError]. *)
Lemma sorted_by_isbn_raises :
  printAllBooksSorted (H := plain) 1 (VStr "isbn") false true None sample
  = (Raise ValueError, sample).
Proof. reflexivity. Qed.

(** The validation of [sortedBy] is in lower case, the lookup is not:
    ['price'] passes the validation and then misses the key ['Price']. *)
Example sorted_by_lower_case_price :
  (printAllBooksSorted (H := plain) 1 (VStr "price") false true None sample).1
  = Raise KeyError.
Proof. vm_compute. reflexivity. Qed.

Lemma sample_records : Forall (book_record (dicts sample)) (locs_of books).
Proof.
  repeat constructor;
    (eexists _, _, _, _, _, _;
     split; [reflexivity|]; split; [reflexivity|]; split; [split; reflexivity|];
     split; [reflexivity|]; split; [reflexivity|]; split; reflexivity).
Qed.

(** C4 on the sample catalogue, searched for an author: the call returns
    an instance other than the receiver, and the receiver holds its nine
    records as before. *)
Lemma filters_keep_receiver_witness :
  holds_books 1 (locs_of books) sample
  /\ holds_books 1 (locs_of books)
       (call (H := plain) (ByAuthor (VStr "harper lee") true) 1 sample).2
  /\ only_allocates sample
       (call (H := plain) (ByAuthor (VStr "harper lee") true) 1 sample).2
  /\ exists new_obj,
       (call (H := plain) (ByAuthor (VStr "harper lee") true) 1 sample).1
       = Ok new_obj
       /\ new_obj <> 1%positive.
Proof.
  assert (Hself : holds_books 1 (locs_of books) sample)
    by (exists 1%positive; split; reflexivity).
  destruct (filters_keep_receiver (H := plain) (ByAuthor (VStr "harper lee") true)
              1 (locs_of books) sample Hself)
    as (Hkept & Halloc & Hnew & Hret & _).
  destruct (Hret sample_records (ex_intro _ "harper lee" eq_refl)) as (new_obj & E).
  split; [exact Hself|]. split; [exact Hkept|]. split; [exact Halloc|].
  exists new_obj. split; [exact E|]. apply (Hnew new_obj E).
Defined.

End Returns.

(** * Further properties of the helpers *)

Module HelperFacts.
Import Py A3 Vocabulary Examples Run ValidFacts WrapText.

Lemma chars_append (s t : string) : chars (s +:+ t) = chars s ++ chars t.
Proof. induction s as [|c s IH]; simpl; [reflexivity | f_equal; exact IH]. Qed.

Lemma of_chars_chars (s : string) : of_chars (chars s) = s.
Proof. apply string_of_list_ascii_of_string. Qed.

Lemma of_chars_app (a b : list ascii) : of_chars (a ++ b) = of_chars a +:+ of_chars b.
Proof. induction a as [|c a IH]; simpl; [reflexivity | rewrite IH; reflexivity]. Qed.

(** A slice bound that is not negative cuts where it says, or at the end. *)
Lemma slice_to_take {A : Type} (xs : list A) (k : Z) :
  0 <= k -> slice_to xs k = take (Z.to_nat k) xs.
Proof.
  intros Hk. unfold slice_to, clamp. destruct (Z.ltb_spec k 0); [lia|].
  destruct (Z.le_gt_cases k (Z.of_nat (length xs))).
  - rewrite Z.min_l by lia. reflexivity.
  - rewrite Z.min_r by lia. rewrite Nat2Z.id, !take_ge by lia. reflexivity.
Qed.

Lemma slice_from_drop {A : Type} (xs : list A) (k : Z) :
  0 <= k -> slice_from xs k = drop (Z.to_nat k) xs.
Proof.
  intros Hk. unfold slice_from, clamp. destruct (Z.ltb_spec k 0); [lia|].
  destruct (Z.le_gt_cases k (Z.of_nat (length xs))).
  - rewrite Z.min_l by lia. reflexivity.
  - rewrite Z.min_r by lia. rewrite Nat2Z.id, !drop_ge by lia. reflexivity.
Qed.

Section Hyphens.
Context `{Builtins}.

(** The two ways [add_hyphen] ends. *)
Lemma add_hyphen_cases (s : string) (k : Z) :
  add_hyphen (VStr s) k
  = if (k <? 0) || (len s <=? k) then Raise ValueError
    else Ok (of_chars (take (Z.to_nat k) (chars s) ++ "-"%char :: drop (Z.to_nat k) (chars s))).
Proof.
  unfold add_hyphen. cbn [str]. destruct (Z.ltb_spec k 0) as [|Hk]; [reflexivity|].
  cbn [orb]. destruct (len s <=? k); [reflexivity|]. f_equal.
  unfold str_to, str_from. rewrite slice_to_take, slice_from_drop by exact Hk.
  rewrite of_chars_app. reflexivity.
Qed.

Lemma add_hyphen_chars (cs : list ascii) (k : Z) :
  0 <= k < Z.of_nat (length cs) ->
  add_hyphen (VStr (of_chars cs)) k
  = Ok (of_chars (take (Z.to_nat k) cs ++ "-"%char :: drop (Z.to_nat k) cs)).
Proof.
  intros Hk. rewrite add_hyphen_cases, len_of_chars, chars_of_chars.
  destruct (Z.ltb_spec k 0); [lia|].
  destruct (Z.leb_spec (Z.of_nat (length cs)) k); [lia|]. reflexivity.
Qed.

Lemma add_hyphen_short (cs : list ascii) (k : Z) :
  Z.of_nat (length cs) <= k -> add_hyphen (VStr (of_chars cs)) k = Raise ValueError.
Proof.
  intros Hk. rewrite add_hyphen_cases, len_of_chars.
  destruct (Z.leb_spec (Z.of_nat (length cs)) k); [|lia].
  rewrite orb_true_r. reflexivity.
Qed.

(** X1.  [toISBN] groups a string of thirteen characters or more as
    3-1-3-5-rest, with a hyphen between the groups; removing the four
    hyphens gives the string back.  A string form of fewer than thirteen
    characters makes it raise [ValueError]. *)
Theorem toISBN_groups (isbn : value) :
  (forall a b c d e : string,
     str isbn = a +:+ b +:+ c +:+ d +:+ e ->
     len a = 3 -> len b = 1 -> len c = 3 -> len d = 5 -> 1 <= len e ->
     toISBN isbn = Ok (a +:+ "-" +:+ b +:+ "-" +:+ c +:+ "-" +:+ d +:+ "-" +:+ e))
  /\ (len (str isbn) < 13 -> toISBN isbn = Raise ValueError).
Proof.
  assert (Hto : toISBN isbn
                = rfold [3; 5; 9; 15] (fun new_isbn index => add_hyphen (VStr new_isbn) index)
                    (of_chars (chars (str isbn))))
    by (unfold toISBN; rewrite of_chars_chars; reflexivity).
  split.
  - intros a b c d e Hs Ha Hb Hc Hd He. rewrite Hto, Hs. clear Hto Hs.
    unfold len in *.
    destruct a as [|a0 [|a1 [|a2 [|]]]]; try (simpl in Ha; lia).
    destruct b as [|b0 [|]]; try (simpl in Hb; lia).
    destruct c as [|c0 [|c1 [|c2 [|]]]]; try (simpl in Hc; lia).
    destruct d as [|d0 [|d1 [|d2 [|d3 [|d4 [|]]]]]]; try (simpl in Hd; lia).
    destruct e as [|e0 e]; [simpl in He; lia|].
    assert (Hcs : chars (String a0 (String a1 (String a2 "")) +:+ String b0 ""
                         +:+ String c0 (String c1 (String c2 ""))
                         +:+ String d0 (String d1 (String d2 (String d3 (String d4 ""))))
                         +:+ String e0 e)
                  = a0 :: a1 :: a2 :: b0 :: c0 :: c1 :: c2 :: d0 :: d1 :: d2 :: d3 :: d4
                       :: e0 :: chars e) by reflexivity.
    rewrite Hcs. clear Hcs. cbn [rfold].
    rewrite (add_hyphen_chars _ 3) by (simpl length; lia).
    change (Z.to_nat 3) with 3%nat. cbn [rbind take drop app].
    rewrite (add_hyphen_chars _ 5) by (simpl length; lia).
    change (Z.to_nat 5) with 5%nat. cbn [rbind take drop app].
    rewrite (add_hyphen_chars _ 9) by (simpl length; lia).
    change (Z.to_nat 9) with 9%nat. cbn [rbind take drop app].
    rewrite (add_hyphen_chars _ 15) by (simpl length; lia).
    change (Z.to_nat 15) with 15%nat. cbn [rbind take drop app].
    f_equal. cbn [of_chars string_of_list_ascii].
    change (string_of_list_ascii (chars e)) with (of_chars (chars e)).
    rewrite of_chars_chars. reflexivity.
  - intros Hlen. rewrite Hto. clear Hto. rewrite <- len_chars in Hlen.
    generalize dependent (chars (str isbn)). intros cs Hlen.
    cbn [rfold].
    destruct (Z.le_gt_cases (Z.of_nat (length cs)) 3) as [H3|H3];
      [rewrite (add_hyphen_short cs 3 H3); reflexivity|].
    rewrite (add_hyphen_chars cs 3) by lia. cbn [rbind].
    set (c1 := take (Z.to_nat 3) cs ++ "-"%char :: drop (Z.to_nat 3) cs).
    assert (L1 : length c1 = S (length cs))
      by (subst c1; rewrite length_app, length_take, length_cons, length_drop; lia).
    destruct (Z.le_gt_cases (Z.of_nat (length c1)) 5) as [H5|H5];
      [rewrite (add_hyphen_short c1 5 H5); reflexivity|].
    rewrite (add_hyphen_chars c1 5) by lia. cbn [rbind].
    set (c2 := take (Z.to_nat 5) c1 ++ "-"%char :: drop (Z.to_nat 5) c1).
    assert (L2 : length c2 = S (length c1))
      by (subst c2; rewrite length_app, length_take, length_cons, length_drop; lia).
    destruct (Z.le_gt_cases (Z.of_nat (length c2)) 9) as [H9|H9];
      [rewrite (add_hyphen_short c2 9 H9); reflexivity|].
    rewrite (add_hyphen_chars c2 9) by lia. cbn [rbind].
    set (c3 := take (Z.to_nat 9) c2 ++ "-"%char :: drop (Z.to_nat 9) c2).
    assert (L3 : length c3 = S (length c2))
      by (subst c3; rewrite length_app, length_take, length_cons, length_drop; lia).
    rewrite (add_hyphen_short c3 15) by lia. reflexivity.
Qed.

End Hyphens.

(** X1 on the ISBN of the docstring, and on one of twelve digits. *)
Lemma toISBN_groups_witness :
  toISBN (H := plain) (VStr "9780099529126") = Ok "978-0-099-52912-6"
  /\ toISBN (H := plain) (VInt 978009952912) = Raise ValueError.
Proof.
  destruct (toISBN_groups (H := plain) (VStr "9780099529126")) as [Hok _].
  destruct (toISBN_groups (H := plain) (VInt 978009952912)) as [_ Hshort].
  split.
  - apply (Hok "978" "0" "099" "52912" "6"); reflexivity.
  - apply Hshort. reflexivity.
Defined.

Section MaxLength.
Context `{Builtins}.

(** What the loop of [maxLength] has found after a part of the data. *)
Lemma longest_fold (key : string) (data : list dict) (m : Z) (found : bool) :
  exists m',
    foldl (longest key) (m, found) data
    = (m', found || existsb (fun item => bool_decide (is_Some (dict_get key item))) data)
    /\ m <= m'
    /\ (forall item v, item ∈ data -> dict_get key item = Some v -> len (str v) <= m')
    /\ (m' = m \/ exists item v, item ∈ data /\ dict_get key item = Some v /\ len (str v) = m').
Proof.
  revert m found. induction data as [|item data IH]; intros m found.
  - exists m. simpl. rewrite orb_false_r. repeat split; [lia | | left; reflexivity].
    intros item v Hin. inversion Hin.
  - cbn [foldl existsb]. unfold longest at 2.
    destruct (dict_get key item) as [v|] eqn:Ev.
    + destruct (IH (Z.max m (len (str v))) true) as (m' & E & Hle & Hall & Hatt).
      exists m'. rewrite E.
      rewrite bool_decide_true by eauto. rewrite orb_true_r. cbn [orb].
      split; [reflexivity|]. split; [lia|]. split.
      * intros item' v' Hin Ev'. apply elem_of_cons in Hin as [->|Hin].
        -- assert (v' = v) by congruence. subst v'. lia.
        -- eapply Hall; eassumption.
      * destruct Hatt as [->|(item' & v' & Hin & Ev' & Hl)].
        -- destruct (Z.max_spec m (len (str v))) as [[_ ->]|[_ ->]].
           ++ right. exists item, v. repeat split; [left | exact Ev].
           ++ left. reflexivity.
        -- right. exists item', v'. repeat split; [right; exact Hin | exact Ev' | exact Hl].
    + destruct (IH m found) as (m' & E & Hle & Hall & Hatt).
      exists m'. rewrite E.
      rewrite bool_decide_false by (intros [? ?]; discriminate). cbn [orb].
      split; [reflexivity|]. split; [exact Hle|]. split.
      * intros item' v' Hin Ev'. apply elem_of_cons in Hin as [->|Hin]; [congruence|].
        eapply Hall; eassumption.
      * destruct Hatt as [->|(item' & v' & Hin & Ev' & Hl)]; [left; reflexivity|].
        right. exists item', v'. repeat split; [right; exact Hin | exact Ev' | exact Hl].
Qed.

(** X2.  [maxLength] raises [ValueError] exactly when no record has the
    key; otherwise it returns the greatest length of [str(value)] over the
    records that have it: a bound for all of them, reached by one. *)
Theorem maxLength_greatest (data : list dict) (key : string) :
  (Forall (fun item => dict_get key item = None) data ->
   maxLength data key = Raise ValueError)
  /\ (Exists (fun item => is_Some (dict_get key item)) data ->
      exists n, maxLength data key = Ok n
                /\ (forall item v, item ∈ data -> dict_get key item = Some v ->
                                   len (str v) <= n)
                /\ exists item v, item ∈ data /\ dict_get key item = Some v
                                  /\ len (str v) = n).
Proof.
  destruct (longest_fold key data 0 false) as (m & E & Hle & Hall & Hatt).
  unfold maxLength. rewrite E. cbn [orb]. split.
  - intros Hnone.
    assert (Hex : existsb (fun item => bool_decide (is_Some (dict_get key item))) data = false).
    { apply not_true_is_false. intros Hex. apply existsb_exists in Hex as (item & Hin & Hb).
      apply bool_decide_eq_true in Hb as [v Ev]. rewrite Forall_forall in Hnone.
      apply list_elem_of_In in Hin. rewrite (Hnone item Hin) in Ev. discriminate. }
    rewrite Hex. reflexivity.
  - intros Hsome.
    assert (Hex : existsb (fun item => bool_decide (is_Some (dict_get key item))) data = true).
    { apply Exists_exists in Hsome as (item & Hin & Hv). apply existsb_exists.
      exists item. split; [apply list_elem_of_In, Hin | apply bool_decide_eq_true, Hv]. }
    rewrite Hex. cbn [negb]. exists m. split; [reflexivity|]. split; [exact Hall|].
    destruct Hatt as [->|Hatt]; [|exact Hatt].
    apply Exists_exists in Hsome as (item & Hin & [v Ev]).
    exists item, v. repeat split; [exact Hin | exact Ev|].
    pose proof (Hall item v Hin Ev). pose proof (len_nonneg (str v)). lia.
Qed.

End MaxLength.

(** X2 on the sample data: the longest title has 37 characters, and no
    record has a ['Publisher']. *)
Lemma maxLength_greatest_witness :
  maxLength (H := plain) books "Title" = Ok 37
  /\ maxLength (H := plain) books "Publisher" = Raise ValueError.
Proof.
  destruct (maxLength_greatest (H := plain) books "Publisher") as [Hnone _].
  destruct (maxLength_greatest (H := plain) books "Title") as [_ Hsome].
  split.
  - destruct Hsome as (n & E & _); [repeat constructor; eexists; reflexivity|].
    rewrite E. f_equal. vm_compute in E. congruence.
  - apply Hnone. repeat constructor.
Defined.

(** *** Words *)

Lemma split_chars_words (cur s : list ascii) :
  no_space cur -> Forall (fun w => w <> [] /\ no_space w) (split_chars cur s).
Proof.
  revert cur. induction s as [|c s IH]; intros cur Hcur; simpl.
  - destruct cur as [|c0 cur]; [constructor|]. constructor; [|constructor]. split.
    + intros E. apply (f_equal (@length ascii)) in E. rewrite length_rev in E. discriminate.
    + apply Forall_rev. exact Hcur.
  - destruct (char_isspace c) eqn:Ec.
    + destruct cur as [|c0 cur]; [apply IH; constructor|].
      constructor; [|apply IH; constructor]. split.
      * intros E. apply (f_equal (@length ascii)) in E. rewrite length_rev in E. discriminate.
      * apply Forall_rev. exact Hcur.
    + apply IH. constructor; assumption.
Qed.

(** What [split] returns are words. *)
Lemma split_words (s : string) : Forall word (split s).
Proof.
  unfold split. apply Forall_map.
  eapply Forall_impl; [apply (split_chars_words [] (chars s)); constructor|].
  intros w [Hne Hns]. unfold word. rewrite chars_of_chars. split; assumption.
Qed.

Lemma word_len (w : string) : word w -> 1 <= len w.
Proof.
  intros [Hne _]. rewrite <- len_chars. destruct (chars w); [congruence | simpl; lia].
Qed.

Lemma split_chars_no_space (w cur s : list ascii) :
  no_space w -> split_chars cur (w ++ s) = split_chars (rev w ++ cur) s.
Proof.
  revert cur. induction w as [|c w IH]; intros cur Hw; [reflexivity|].
  inversion Hw as [|? ? Hc Hw']; subst. simpl. rewrite Hc, IH by exact Hw'.
  rewrite <- app_assoc. reflexivity.
Qed.

Lemma split_chars_word (w : list ascii) : w <> [] -> no_space w -> split_chars [] w = [w].
Proof.
  intros Hne Hw. rewrite <- (app_nil_r w) at 1. rewrite split_chars_no_space by exact Hw.
  rewrite app_nil_r. simpl. destruct (rev w) eqn:E.
  - apply (f_equal (@length ascii)) in E. rewrite length_rev in E.
    destruct w; [congruence | discriminate].
  - rewrite <- E, rev_involutive. reflexivity.
Qed.

Lemma split_chars_join (a w acc : list ascii) :
  w <> [] -> no_space w ->
  split_chars acc (a ++ " "%char :: w) = split_chars acc a ++ [w].
Proof.
  intros Hne Hw. revert acc. induction a as [|c a IH]; intros acc.
  - simpl. rewrite (split_chars_word w Hne Hw). destruct acc; reflexivity.
  - simpl. destruct (char_isspace c).
    + destruct acc; rewrite IH; reflexivity.
    + apply IH.
Qed.

Lemma split_word (w : string) : word w -> split w = [w].
Proof.
  intros [Hne Hw]. unfold split. rewrite (split_chars_word _ Hne Hw). simpl.
  rewrite of_chars_chars. reflexivity.
Qed.

Lemma split_join (cur w : string) : word w -> split (cur +:+ " " +:+ w) = split cur ++ [w].
Proof.
  intros [Hne Hw]. unfold split. rewrite chars_append. simpl chars.
  rewrite (split_chars_join _ _ [] Hne Hw), map_app. simpl. rewrite of_chars_chars.
  reflexivity.
Qed.

(** Writing one white-space character for another changes no word. *)
Lemma split_replace (a b : ascii) (s : string) :
  char_isspace a = true -> char_isspace b = true -> split (replace_char a b s) = split s.
Proof.
  intros Ha Hb. unfold split, replace_char. rewrite chars_of_chars. f_equal.
  generalize (@nil ascii) as cur. induction (chars s) as [|c cs IH]; intros cur; [reflexivity|].
  simpl. destruct (Ascii.eqb_spec c a) as [->|Hne].
  - rewrite Ha, Hb. destruct cur; rewrite IH; reflexivity.
  - destruct (char_isspace c); [destruct cur; rewrite IH; reflexivity | apply IH].
Qed.

Lemma split_long_fits (fuel : nat) (width : Z) (w : string) (lines : list string) :
  len w <= width -> split_long fuel width w lines = Some (w, lines).
Proof.
  intros Hw. destruct fuel; simpl; destruct (Z.ltb_spec width (len w)); (lia || reflexivity).
Qed.

(** X3.  With a width of 0 or less [wrap_text] returns the empty list for
    a text without words and never returns for a text with a word: the loop
    [while len(word) > width] does not end on the first word. *)
Theorem wrap_text_never_ends (text : string) (width : Z) :
  width <= 0 ->
  match split text with
  | [] => wrap_text (VStr text) width = Ok []
  | first :: _ =>
      wrap_text (VStr text) width = Diverge
      /\ forall fuel lines, split_long fuel width first lines = None
  end.
Proof.
  intros Hw. unfold wrap_text.
  rewrite (split_replace (ascii_of_N 10) " " text) by reflexivity.
  pose proof (split_words text) as Hwords.
  destruct (split text) as [|first rest]; [reflexivity|].
  inversion Hwords as [|? ? Hfirst _]; subst. apply word_len in Hfirst.
  split.
  - cbn [rfold]. unfold wrap_word at 1.
    rewrite (split_long_never_ends width _ first [] Hw Hfirst). reflexivity.
  - intros fuel lines. apply split_long_never_ends; assumption.
Qed.

(** X3 with width 0, on a text with a word and on one without. *)
Lemma wrap_text_never_ends_witness :
  (wrap_text (VStr "wrap me") 0 = Diverge
   /\ forall fuel lines, split_long fuel 0 "wrap" lines = None)
  /\ wrap_text (VStr "   ") 0 = Ok [].
Proof.
  split.
  - apply (wrap_text_never_ends "wrap me" 0). lia.
  - apply (wrap_text_never_ends "   " 0). lia.
Defined.

Lemma wrap_word_keeps_words (width : Z) (lines : list string) (current_line w : string) :
  word w -> len w <= width ->
  exists lines' current_line',
    wrap_word width (lines, current_line) w = Ok (lines', current_line')
    /\ words_of lines' ++ split current_line' = (words_of lines ++ split current_line) ++ [w].
Proof.
  intros Hword Hfit. unfold wrap_word. rewrite (split_long_fits _ _ _ _ Hfit).
  destruct (len current_line + len w + 1 <=? width).
  - eexists _, _. split; [reflexivity|]. rewrite <- app_assoc. f_equal.
    destruct current_line as [|c cur]; [apply split_word, Hword|].
    cbn [String.eqb]. apply split_join, Hword.
  - eexists _, _. split; [reflexivity|].
    unfold words_of. rewrite map_app, concat_app. simpl. rewrite app_nil_r.
    rewrite (split_word w Hword). reflexivity.
Qed.

Lemma wrap_words_keep_words (width : Z) (words lines : list string) (current_line : string) :
  Forall word words -> Forall (fits width) words ->
  exists lines' current_line',
    rfold words (wrap_word width) (lines, current_line) = Ok (lines', current_line')
    /\ words_of lines' ++ split current_line'
       = (words_of lines ++ split current_line) ++ words.
Proof.
  revert lines current_line.
  induction words as [|w words IH]; intros lines current_line Hwords Hfit.
  - exists lines, current_line. rewrite app_nil_r. split; reflexivity.
  - inversion Hwords as [|? ? Hw1 Hws]; inversion Hfit as [|? ? Hf1 Hfs]; subst.
    destruct (wrap_word_keeps_words width lines current_line w Hw1 Hf1)
      as (l1 & c1 & Ea & Ha).
    destruct (IH l1 c1 Hws Hfs) as (l2 & c2 & Eb & Hb).
    exists l2, c2. cbn [rfold]. rewrite Ea. cbn [rbind]. split; [exact Eb|].
    rewrite Hb, Ha, <- app_assoc. reflexivity.
Qed.

(** X4.  When no word of the text is longer than the width, the words of
    the lines [wrap_text] returns, read line by line, are the words of the
    text in their order. *)
Theorem wrap_text_keeps_words (text : string) (width : Z) :
  Forall (fun w => len w <= width) (split text) ->
  exists lines, wrap_text (VStr text) width = Ok lines
                /\ concat (map split lines) = split text.
Proof.
  intros Hfit. unfold wrap_text.
  rewrite (split_replace (ascii_of_N 10) " " text) by reflexivity.
  destruct (wrap_words_keep_words width (split text) [] "" (split_words text) Hfit)
    as (lines & cur & E & Hw).
  rewrite E. cbn [rbind]. change (words_of [] ++ split "") with (@nil string) in Hw.
  rewrite app_nil_l in Hw. unfold words_of in Hw.
  destruct cur as [|c cur].
  - exists lines. split; [reflexivity|]. rewrite <- Hw.
    change (split "") with (@nil string). rewrite app_nil_r. reflexivity.
  - exists (lines ++ [String c cur]). split; [reflexivity|].
    rewrite map_app, concat_app. cbn [map concat]. rewrite app_nil_r. exact Hw.
Qed.

(** X4 on the example of the docstring. *)
Lemma wrap_text_keeps_words_witness :
  exists lines,
    wrap_text (VStr "This is a demo of how to wrap text.") 10 = Ok lines
    /\ concat (map split lines)
       = ["This"; "is"; "a"; "demo"; "of"; "how"; "to"; "wrap"; "text."].
Proof.
  apply (wrap_text_keeps_words "This is a demo of how to wrap text." 10).
  assert (E : split "This is a demo of how to wrap text."
              = ["This"; "is"; "a"; "demo"; "of"; "how"; "to"; "wrap"; "text."])
    by reflexivity.
  rewrite E. repeat (apply List.Forall_cons; [unfold len; simpl; lia|]). apply List.Forall_nil.
Defined.

End HelperFacts.

(** * Further properties of [bookData] *)

Module BookFacts.
Import Py A3 Vocabulary Examples Run ValidFacts Frames Validate Filters WrapText Returns.

Section BookFacts.
Context `{Builtins}.

(** The loop of [validateISBNs] over records with 13-digit ISBNs keeps the
    ones that pass [valid], in order. *)
Lemma validate_loop_keeps (books valid_books : list positive) (w : world) :
  Forall (has_isbn13_and_title (dicts w)) books ->
  exists w', fold_each books validate_round valid_books w
             = (Ok (valid_books ++ List.filter (passes_valid (dicts w)) books), w')
             /\ only_prints w w'.
Proof.
  revert valid_books w. induction books as [|book books IH]; intros valid_books w Hall.
  - exists w. simpl. rewrite app_nil_r. split; reflexivity.
  - inversion Hall as [|? ? (record & isbn & ds & title & E1 & E2 & Hds & E3) Hrest]; subst.
    cbn [fold_each List.filter]. unfold bind at 1.
    rewrite (validate_round_cases valid_books book w record isbn title E1 E2 E3).
    assert (Hpass : passes_valid (dicts w) book
                    = (nth 12 ds 0 =? 10 - weighted_sum ds mod 10)).
    { unfold passes_valid, field_of, get_or. rewrite E1, E2, (valid_isbn13 isbn ds Hds).
      destruct (_ =? _); reflexivity. }
    rewrite (valid_isbn13 isbn ds Hds), Hpass.
    destruct (nth 12 ds 0 =? 10 - weighted_sum ds mod 10).
    + destruct (IH (valid_books ++ [book]) w Hrest) as (w' & E & Hp).
      exists w'. rewrite E, <- app_assoc. split; [reflexivity | exact Hp].
    + set (w1 := set_stdout _ w).
      destruct (IH valid_books w1 Hrest) as (w' & E & Hp).
      exists w'. split; [exact E|]. etransitivity; [|exact Hp]. repeat split.
Qed.

(** A run of [validateISBNs] over records with 13-digit ISBNs. *)
Lemma validateISBNs_run (self : positive) (books : list positive) (w : world) :
  holds_books self books w ->
  Forall (has_isbn13_and_title (dicts w)) books ->
  exists w', validateISBNs self w = (Ok self, w')
             /\ holds_books self (List.filter (passes_valid (dicts w)) books) w'
             /\ dicts w' = dicts w
             /\ lists w ⊆ lists w'
             /\ (forall other, other <> self -> book_objs w' !! other = book_objs w !! other).
Proof.
  intros Hself Hall. unfold validateISBNs.
  rewrite (bind_ok _ _ _ _ _ (books_of_ok self books w Hself)).
  destruct (validate_loop_keeps books [] w Hall) as (w1 & E & Hd & Hl & Hb & _).
  rewrite (bind_ok _ _ _ _ _ E). cbn [app].
  set (kept := List.filter (passes_valid (dicts w)) books).
  assert (Hnotice : exists w2,
             (if (length kept =? length books)%nat
              then print "All books in database have valid ISBN numbers."
              else ret tt) w1 = (Ok tt, w2) /\ only_prints w1 w2).
  { destruct (length kept =? length books)%nat; eexists; (split; [reflexivity|]);
      repeat split. }
  destruct Hnotice as (w2 & E2 & Hd2 & Hl2 & Hb2 & _).
  rewrite (bind_ok _ _ _ _ _ E2).
  unfold bind, new_list, modify, ret. cbn.
  eexists. split; [reflexivity|]. cbn.
  split; [|split; [congruence|split]].
  - exists (fresh (dom (lists w2))). split; apply lookup_insert_eq.
  - rewrite <- Hl, <- Hl2. apply insert_subseteq, fresh_free.
  - intros other Hne. rewrite lookup_insert_ne by congruence. congruence.
Qed.

(** X5.  On a catalogue whose records have 13-digit ISBNs and titles,
    [validateISBNs] returns the receiver, which then holds exactly the
    records that pass [valid], in their order, in a new list: no record has
    changed, the list held before is as it was, and so is every other
    instance. *)
Theorem validateISBNs_keeps_valid (self : positive) (books : list positive) (w : world) :
  holds_books self books w ->
  Forall (has_isbn13_and_title (dicts w)) books ->
  exists w', validateISBNs self w = (Ok self, w')
             /\ holds_books self (List.filter (passes_valid (dicts w)) books) w'
             /\ dicts w' = dicts w
             /\ lists w ⊆ lists w'
             /\ (forall other, other <> self -> book_objs w' !! other = book_objs w !! other).
Proof. apply validateISBNs_run. Qed.

Lemma filter_twice {A : Type} (f : A -> bool) (xs : list A) :
  List.filter f (List.filter f xs) = List.filter f xs.
Proof.
  induction xs as [|x xs IH]; [reflexivity|]. simpl. destruct (f x) eqn:E; [|exact IH].
  simpl. rewrite E, IH. reflexivity.
Qed.

(** X6.  A second [validateISBNs] removes nothing: after the first call
    and after the second the receiver holds the same records. *)
Theorem validateISBNs_twice (self : positive) (books : list positive) (w : world) :
  holds_books self books w ->
  Forall (has_isbn13_and_title (dicts w)) books ->
  exists w1 w2 kept,
    validateISBNs self w = (Ok self, w1)
    /\ validateISBNs self w1 = (Ok self, w2)
    /\ holds_books self kept w1 /\ holds_books self kept w2
    /\ Forall (fun book => passes_valid (dicts w2) book = true) kept.
Proof.
  intros Hself Hall.
  destruct (validateISBNs_run self books w Hself Hall) as (w1 & E1 & Hself1 & Hd1 & _).
  assert (Hall1 : Forall (has_isbn13_and_title (dicts w1))
                    (List.filter (passes_valid (dicts w)) books)).
  { rewrite Hd1. apply List.Forall_forall. intros b Hb. apply List.filter_In in Hb as [Hb _].
    rewrite List.Forall_forall in Hall. apply Hall, Hb. }
  destruct (validateISBNs_run self _ w1 Hself1 Hall1) as (w2 & E2 & Hself2 & Hd2 & _).
  rewrite Hd1, filter_twice in Hself2.
  exists w1, w2, (List.filter (passes_valid (dicts w)) books).
  split; [exact E1|]. split; [exact E2|]. split; [exact Hself1|]. split; [exact Hself2|].
  rewrite Hd2, Hd1. apply List.Forall_forall. intros b Hb.
  apply List.filter_In in Hb as [_ Hb]. exact Hb.
Qed.

End BookFacts.

(** X5 and X6 on the sample data: of its nine records, the third and the
    eighth fail the check. *)
Lemma sample_isbns : Forall (has_isbn13_and_title (H := plain) (dicts sample)) (locs_of books).
Proof.
  repeat (apply List.Forall_cons;
          [eexists _, _, _, _;
           split; [reflexivity|]; split; [reflexivity|]; split; [split; reflexivity|];
           reflexivity|]).
  apply List.Forall_nil.
Qed.

Lemma sample_holds : holds_books 1 (locs_of books) sample.
Proof. exists 1%positive. split; reflexivity. Qed.

Lemma validateISBNs_keeps_valid_witness :
  exists w', validateISBNs (H := plain) 1 sample = (Ok 1%positive, w')
             /\ holds_books 1 [1; 2; 4; 5; 6; 7; 9]%positive w'
             /\ dicts w' = dicts sample
             /\ lists sample ⊆ lists w'
             /\ (forall other, other <> 1%positive ->
                               book_objs w' !! other = book_objs sample !! other).
Proof.
  exact (validateISBNs_keeps_valid (H := plain) 1 (locs_of books) sample
           sample_holds sample_isbns).
Defined.

Lemma validateISBNs_twice_witness :
  exists w1 w2 kept,
    validateISBNs (H := plain) 1 sample = (Ok 1%positive, w1)
    /\ validateISBNs (H := plain) 1 w1 = (Ok 1%positive, w2)
    /\ holds_books 1 kept w1 /\ holds_books 1 kept w2
    /\ Forall (fun book => passes_valid (H := plain) (dicts w2) book = true) kept.
Proof.
  exact (validateISBNs_twice (H := plain) 1 (locs_of books) sample sample_holds sample_isbns).
Defined.

End BookFacts.

(** * What the filters and the sort of [bookData] return *)

Module SelectFacts.
Import Py A3 Vocabulary Examples Run ValidFacts Frames Validate Filters WrapText Returns.

Lemma chars_lt_asym (a b : list ascii) : chars_lt a b = true -> chars_lt b a = false.
Proof.
  revert b. induction a as [|x a IH]; intros [|y b]; simpl; try congruence.
  destruct (N.ltb_spec (code x) (code y)), (N.ltb_spec (code y) (code x));
    try congruence; try lia. apply IH.
Qed.

Lemma lt_bool_asym (a b : value) : lt_bool a b = true -> lt_bool b a = false.
Proof.
  assert (Hq : forall p q : Q, negb (Qle_bool q p) = true -> negb (Qle_bool p q) = false).
  { intros p q Hlt. destruct (Qle_bool q p) eqn:E1; [discriminate|].
    destruct (Qle_bool p q) eqn:E2; [reflexivity|]. exfalso.
    assert (H1 : ~ (q <= p)%Q) by (rewrite <- Qle_bool_iff; congruence).
    assert (H2 : ~ (p <= q)%Q) by (rewrite <- Qle_bool_iff; congruence).
    apply Qnot_le_lt in H1. apply H2, Qlt_le_weak, H1. }
  unfold lt_bool.
  destruct a, b; cbn; try discriminate; try reflexivity;
    try (intros Hlt;
         match goal with
         | |- context [negb (Qle_bool ?p ?q)] =>
             rewrite (Hq p q) by (destruct (negb (Qle_bool q p)); congruence); reflexivity
         end).
  intros Hlt. destruct (chars_lt (chars s) (chars s0)) eqn:E; [|discriminate].
  rewrite (chars_lt_asym _ _ E). reflexivity.
Qed.

(** Insertion keeps the elements and keeps a sorted list sorted. *)
Lemma insert_sorted_perm {A : Type} (reverse : bool) (x : value * A) (ys : list (value * A)) :
  Permutation (insert_sorted reverse x ys) (x :: ys).
Proof.
  induction ys as [|y ys IH]; simpl; [reflexivity|].
  destruct (if reverse then _ else _); [|reflexivity].
  rewrite IH. apply perm_swap.
Qed.

Lemma sort_perm {A : Type} (reverse : bool) (keyed : list (value * A)) :
  Permutation (foldr (insert_sorted reverse) [] keyed) keyed.
Proof.
  induction keyed as [|k keyed IH]; [reflexivity|].
  cbn [foldr]. rewrite insert_sorted_perm, IH. reflexivity.
Qed.

Lemma insert_sorted_HdRel {A : Type} (reverse : bool) (x y : value * A)
    (ys : list (value * A)) :
  keys_in_order reverse y x -> Sorted.HdRel (keys_in_order reverse) y ys ->
  Sorted.HdRel (keys_in_order reverse) y (insert_sorted reverse x ys).
Proof.
  intros Hyx Hys. destruct ys as [|z ys]; simpl; [constructor; exact Hyx|].
  destruct (if reverse then _ else _); constructor; [|exact Hyx].
  inversion Hys; assumption.
Qed.

Lemma insert_sorted_sorted {A : Type} (reverse : bool) (x : value * A)
    (ys : list (value * A)) :
  Sorted.Sorted (keys_in_order reverse) ys ->
  Sorted.Sorted (keys_in_order reverse) (insert_sorted reverse x ys).
Proof.
  induction 1 as [|y ys Hys IH Hy]; simpl; [repeat constructor|].
  destruct (if reverse then lt_bool x.1 y.1 else lt_bool y.1 x.1) eqn:E.
  - constructor; [exact IH|]. apply insert_sorted_HdRel; [|exact Hy].
    unfold keys_in_order, in_order. destruct reverse; apply lt_bool_asym, E.
  - constructor; [constructor; assumption|]. constructor.
    unfold keys_in_order, in_order. destruct reverse; exact E.
Qed.

Lemma sort_sorted {A : Type} (reverse : bool) (keyed : list (value * A)) :
  Sorted.Sorted (keys_in_order reverse) (foldr (insert_sorted reverse) [] keyed).
Proof.
  induction keyed as [|k keyed IH]; [constructor|].
  cbn [foldr]. apply insert_sorted_sorted, IH.
Qed.

(** The sorted list of records by the keys they were given. *)
Lemma sorted_map {A : Type} (R : value -> value -> Prop) (key : A -> value)
    (keyed : list (value * A)) :
  Forall (fun k => k.1 = key k.2) keyed ->
  Sorted.Sorted (fun x y : value * A => R x.1 y.1) keyed ->
  Sorted.Sorted (fun a b => R (key a) (key b)) (map snd keyed).
Proof.
  intros Hkey. induction 1 as [|k ks Hks IH Hk]; [constructor|].
  inversion Hkey as [|? ? Hk1 Hks1]; subst. cbn [map]. constructor; [apply IH, Hks1|].
  destruct Hk as [|k' ks' Hkk']; [constructor|]. cbn [map]. constructor.
  inversion Hks1 as [|? ? Hk2 _]; subst. rewrite <- Hk1, <- Hk2. exact Hkk'.
Qed.

Section SelectFacts.
Context `{Builtins}.

(** The comprehension keeps the records on which the test is true. *)
Lemma filter_records_selects (w0 : world) (books : list positive)
    (test : dict -> result bool) (sel : positive -> bool) :
  (forall b, b ∈ books ->
     exists record, dicts w0 !! b = Some record /\ test record = Ok (sel b)) ->
  ok_from w0 (filter_records books test) (fun kept => kept = List.filter sel books).
Proof.
  intros Htest. unfold filter_records.
  apply (ok_fold_each w0 books _ (fun seen kept => kept = List.filter sel seen) [] []);
    [reflexivity|].
  intros seen b kept Hb ->. destruct (Htest b Hb) as (record & E & Et).
  eapply ok_bind; [eapply ok_read_dicts; [exact E | exact (eq_refl record)]|].
  intros r' Hr'. subst r'.
  eapply (ok_bind _ _ _ (fun keep => keep = sel b)); [apply ok_lift; eauto|].
  intros keep Hkeep. subst keep. apply ok_ret.
  rewrite List.filter_app. cbn [List.filter]. destruct (sel b); [reflexivity|].
  rewrite app_nil_r. reflexivity.
Qed.

Lemma filter_Forall {A : Type} (P : A -> Prop) (f : A -> bool) (xs : list A) :
  Forall P xs -> Forall P (List.filter f xs).
Proof.
  intros Hall. apply List.Forall_forall. intros x Hx. apply List.filter_In in Hx as [Hx _].
  rewrite List.Forall_forall in Hall. apply Hall, Hx.
Qed.

Lemma filter_run (self : positive) (books : list positive) (w : world)
    (test : dict -> result bool) (sel : positive -> bool) (show : bool) :
  holds_books self books w -> Forall (book_record (dicts w)) books ->
  (forall b, b ∈ books ->
     exists record, dicts w !! b = Some record /\ test record = Ok (sel b)) ->
  exists new_obj w',
    (let* books := books_of self in
     let* filtered_books := filter_records books test in
     wrap_books filtered_books show) w = (Ok new_obj, w')
    /\ holds_books new_obj (List.filter sel books) w'.
Proof.
  intros Hself Hall Htest.
  rewrite (bind_ok _ _ _ _ _ (books_of_ok self books w Hself)).
  destruct (filter_records_selects w books test sel Htest w) as (kept & w1 & E1 & Hp & ->);
    [reflexivity|].
  rewrite (bind_ok _ _ _ _ _ E1).
  destruct (wrap_books_returns w (List.filter sel books) show (filter_Forall _ _ _ Hall) w1 Hp)
    as (r & w' & E).
  exists r, w'. split; [exact E|].
  apply wrap_books_fresh in E as (_ & held & _ & Hh & _). exact Hh.
Qed.

Lemma record_at (w : world) (books : list positive) (b : positive) :
  Forall (book_record (dicts w)) books -> b ∈ books ->
  exists record isbn title author price,
    dicts w !! b = Some record
    /\ dict_get "ISBN" record = Some (VStr isbn)
    /\ dict_get "Title" record = Some (VStr title)
    /\ dict_get "Author" record = Some (VStr author)
    /\ dict_get "Price" record = Some price /\ is_number price = true.
Proof.
  intros Hall Hb. rewrite Forall_forall in Hall.
  destruct (Hall b Hb) as (r & isbn & ds & title & author & price & E & Ei & _ & Et & Ea & Ep & Hp).
  eauto 12.
Qed.

(** X7.  On a catalogue of Book Records, [printByTitle], [printByAuthor]
    and [printOverPrice] return an instance that holds exactly the records
    that match, in the order the receiver holds them: those whose title, or
    author, contains the term when both are put in lower case, and those
    whose price is greater than the given one. *)
Theorem filters_select (c : filter_call) (self : positive) (books : list positive)
    (w : world) :
  holds_books self books w -> Forall (book_record (dicts w)) books ->
  accepted c -> is_filter c ->
  exists new_obj w',
    call c self w = (Ok new_obj, w')
    /\ holds_books new_obj (List.filter (selects (dicts w) c) books) w'.
Proof.
  intros Hself Hall Hc Hf.
  destruct c as [title show | author show | price show | sortedBy reverse_param show limit];
    simpl in Hc; cbn [call]; [| | |destruct Hf].
  - destruct Hc as [s ->]. unfold printByTitle.
    apply filter_run; [assumption..|]. intros b Hb.
    destruct (record_at w books b Hall Hb) as (r & i & t & a & p & E & _ & Et & _).
    exists r. split; [exact E|].
    unfold selects, field_of, get_or, getitem. rewrite E, Et. reflexivity.
  - destruct Hc as [s ->]. unfold printByAuthor.
    apply filter_run; [assumption..|]. intros b Hb.
    destruct (record_at w books b Hall Hb) as (r & i & t & a & p & E & _ & _ & Ea & _).
    exists r. split; [exact E|].
    unfold selects, field_of, get_or, getitem. rewrite E, Ea. reflexivity.
  - unfold printOverPrice. rewrite Hc. cbn [negb].
    apply filter_run; [assumption..|]. intros b Hb.
    destruct (record_at w books b Hall Hb) as (r & i & t & a & p & E & _ & _ & _ & Ep & Hp).
    exists r. split; [exact E|].
    unfold selects, field_of, get_or, getitem. rewrite E, Ep. cbn [rbind].
    unfold gt. destruct (lt_numbers price p Hc Hp) as (g & ->). reflexivity.
Qed.

(** The keys of the records, each with its record. *)
Lemma keyed_by_fields (w0 : world) (books : list positive) (field : string) :
  (forall b, b ∈ books ->
     exists record k, dicts w0 !! b = Some record /\ dict_get field record = Some k) ->
  ok_from w0 (keyed_by books field)
    (fun keyed => keyed = map (fun b => (field_of (dicts w0) b field, b)) books).
Proof.
  intros Hfield. unfold keyed_by.
  apply (ok_fold_each w0 books _
           (fun seen keyed => keyed = map (fun b => (field_of (dicts w0) b field, b)) seen)
           [] []); [reflexivity|].
  intros seen b keyed Hb ->. destruct (Hfield b Hb) as (record & k & E & Ek).
  eapply ok_bind; [eapply ok_read_dicts; [exact E | exact (eq_refl record)]|].
  intros r' Hr'. subst r'.
  eapply (ok_bind _ _ _ (fun v => v = k)); [apply ok_lift; unfold getitem; rewrite Ek; eauto|].
  intros v Hv. subst v. apply ok_ret.
  rewrite map_app. cbn [map]. unfold field_of, get_or. rewrite E, Ek. reflexivity.
Qed.

Lemma sorted_by_sorts {A : Type} (keyed : list (value * A)) (reverse : bool) :
  (forall a b, a ∈ keyed -> b ∈ keyed -> comparable a.1 b.1 = true) ->
  sorted_by keyed reverse = Ok (map snd (foldr (insert_sorted reverse) [] keyed)).
Proof.
  intros Hcmp. unfold sorted_by. destruct keyed as [|k0 [|k1 rest]]; [reflexivity..|].
  assert (Hall : forallb (fun k => comparable k0.1 k.1) (k0 :: k1 :: rest) = true).
  { apply forallb_forall. intros k Hk. apply list_elem_of_In in Hk.
    apply Hcmp; [left | exact Hk]. }
  rewrite Hall. reflexivity.
Qed.

(** X8.  On a catalogue of Book Records, [printAllBooksSorted] by
    ['Price'], ['Title'] or ['Author'] returns an instance that holds the
    first [limit] records, all without a limit, of a list that has the
    receiver's records, each as often as the receiver, and in which no record
    has a key less than the one before it; greater, when reversed. *)
Theorem sorted_is_sorted (field : string) (reverse_param show : bool) (limit : option Z)
    (self : positive) (books : list positive) (w : world) :
  holds_books self books w -> Forall (book_record (dicts w)) books ->
  field = "Price" \/ field = "Title" \/ field = "Author" ->
  exists new_obj w' sorted,
    call (Sorted (VStr field) reverse_param show limit) self w = (Ok new_obj, w')
    /\ holds_books new_obj
         (match limit with Some n => slice_to sorted n | None => sorted end) w'
    /\ Permutation sorted books
    /\ Sorted.Sorted
         (fun a b => in_order reverse_param (field_of (dicts w) a field)
                       (field_of (dicts w) b field)) sorted.
Proof.
  intros Hself Hall Hfield.
  set (key := fun b => field_of (dicts w) b field).
  set (keyed := map (fun b => (key b, b)) books).
  assert (Hlower : mem (lower field) ["price"; "title"; "author"] = true)
    by (destruct Hfield as [-> | [-> | ->]]; reflexivity).
  assert (Hkeys : forall b, b ∈ books ->
                    exists record k, dicts w !! b = Some record
                                     /\ dict_get field record = Some k).
  { intros b Hb.
    destruct (record_at w books b Hall Hb) as (r & i & t & a & p & E & _ & Et & Ea & Ep & _).
    destruct Hfield as [-> | [-> | ->]]; eauto. }
  assert (Hcmp : forall a b, a ∈ keyed -> b ∈ keyed -> comparable a.1 b.1 = true).
  { assert (Hkind : forall a, a ∈ keyed ->
                      (field = "Price" -> is_number a.1 = true)
                      /\ (field <> "Price" -> exists s, a.1 = VStr s)).
    { intros a Ha. apply list_elem_of_fmap in Ha as (b & -> & Hb). cbn [fst].
      destruct (record_at w books b Hall Hb) as (r & i & t & au & p & E & _ & Et & Ea & Ep & Hp).
      unfold key, field_of, get_or. rewrite E.
      destruct Hfield as [-> | [-> | ->]];
        (split; [intros Hf | intros Hf]); try discriminate Hf; try (exfalso; apply Hf; reflexivity).
      - rewrite Ep. exact Hp.
      - rewrite Et. eauto.
      - rewrite Ea. eauto. }
    intros a b Ha Hb. destruct (Hkind a Ha) as [Hna Hsa], (Hkind b Hb) as [Hnb Hsb].
    destruct (String.eqb_spec field "Price") as [Ef | Ef].
    - specialize (Hna Ef). specialize (Hnb Ef).
      destruct a.1, b.1; try discriminate; reflexivity.
    - destruct (Hsa Ef) as [s ->], (Hsb Ef) as [t ->]. reflexivity. }
  set (sorted := map snd (foldr (insert_sorted reverse_param) [] keyed)).
  assert (Hperm : Permutation sorted books).
  { unfold sorted. rewrite sort_perm. unfold keyed. rewrite map_map. cbn [snd].
    rewrite map_id. reflexivity. }
  assert (Hrec : Forall (book_record (dicts w)) sorted).
  { apply List.Forall_forall. intros b Hb. rewrite List.Forall_forall in Hall. apply Hall.
    eapply Permutation_in; [exact Hperm | exact Hb]. }
  cbn [call]. unfold printAllBooksSorted. cbn [lower_of str].
  unfold bind at 1. unfold lift at 1. rewrite Hlower. cbn [negb].
  rewrite (bind_ok _ _ _ _ _ (books_of_ok self books w Hself)).
  destruct (keyed_by_fields w books field Hkeys w) as (? & w1 & E1 & Hp & ->); [reflexivity|].
  rewrite (bind_ok _ _ _ _ _ E1).
  change (map (fun b => (field_of (dicts w) b field, b)) books) with keyed.
  unfold bind at 1. unfold lift at 1. rewrite (sorted_by_sorts keyed reverse_param Hcmp).
  fold sorted. cbv zeta.
  set (shown := match limit with Some n => slice_to sorted n | None => sorted end).
  assert (Hshown : Forall (book_record (dicts w)) shown)
    by (unfold shown; destruct limit; [unfold slice_to; apply Forall_take|]; exact Hrec).
  destruct (wrap_books_returns w shown show Hshown w1 Hp) as (r & w' & E).
  exists r, w', sorted. split; [exact E|].
  split; [apply wrap_books_fresh in E as (_ & held & _ & Hh & _); exact Hh|].
  split; [exact Hperm|].
  unfold sorted. apply (sorted_map (in_order reverse_param) key).
  - apply sort_Forall. unfold keyed. apply Forall_map. apply Forall_forall. reflexivity.
  - apply (sort_sorted reverse_param keyed).
Qed.

End SelectFacts.

(** X7 on the sample data: the two books by Harper Lee, and the three
    that cost more than 10. *)
Lemma filters_select_witness :
  (exists new_obj w',
      call (H := plain) (ByAuthor (VStr "harper LEE") false) 1 sample = (Ok new_obj, w')
      /\ holds_books new_obj [1; 7]%positive w')
  /\ (exists new_obj w',
         call (H := plain) (OverPrice (VInt 10) false) 1 sample = (Ok new_obj, w')
         /\ holds_books new_obj [2; 8; 9]%positive w').
Proof.
  split.
  - exact (filters_select (H := plain) (ByAuthor (VStr "harper LEE") false) 1 (locs_of books)
             sample BookFacts.sample_holds sample_records (ex_intro _ "harper LEE" eq_refl) I).
  - exact (filters_select (H := plain) (OverPrice (VInt 10) false) 1 (locs_of books)
             sample BookFacts.sample_holds sample_records eq_refl I).
Defined.

(** X8 on the sample data, by price, the dearest first, the first three. *)
Lemma sorted_is_sorted_witness :
  exists new_obj w' sorted,
    call (H := plain) (Sorted (VStr "Price") true false (Some 3)) 1 sample = (Ok new_obj, w')
    /\ holds_books new_obj (slice_to sorted 3) w'
    /\ Permutation sorted (locs_of books)
    /\ Sorted.Sorted
         (fun a b => in_order true (field_of (dicts sample) a "Price")
                       (field_of (dicts sample) b "Price")) sorted.
Proof.
  exact (sorted_is_sorted (H := plain) "Price" true false (Some 3) 1 (locs_of books) sample
           BookFacts.sample_holds sample_records (or_introl eq_refl)).
Defined.

End SelectFacts.

(** * Printing returns, and changes nothing *)

Module PrintFacts.
Import Py A3 Vocabulary Examples Run ValidFacts Frames Validate Filters WrapText Returns.
Import CommentRepository AddField.

Section PrintFacts.
Context `{Builtins}.

Ltac lifted Q :=
  eapply (ok_bind _ _ _ Q); [apply ok_lift | intros ? ?].

Ltac printed :=
  eapply (ok_bind _ _ _ (fun _ : unit => True)); [apply ok_print; exact I | intros _ _].

(** X9.  Whatever they are called with and however they end,
    [printAllBooks] and [printAllComments] change nothing but what is
    printed: no record, list or instance, and not the random generator. *)
Theorem printing_changes_nothing (self : positive) (limit : option Z) (wrap_width : value)
    (preview_only : bool) (w : world) :
  only_prints w (printAllBooks self limit w).2
  /\ only_prints w (printAllComments self wrap_width preview_only limit w).2.
Proof.
  split; [apply printAllBooks_only_prints | apply printAllComments_only_prints].
Qed.

(** X10.  On a catalogue of Book Records [printAllBooks] returns the
    receiver, whatever the limit; on an empty catalogue it prints one line,
    ['No books found.']. *)
Theorem printAllBooks_returns_self (self : positive) (books : list positive)
    (limit : option Z) (w : world) :
  holds_books self books w -> Forall (book_record (dicts w)) books ->
  exists w', printAllBooks self limit w = (Ok self, w')
             /\ only_prints w w'
             /\ (books = [] -> stdout w' = stdout w ++ ["No books found."]).
Proof.
  intros Hself Hall.
  destruct (printAllBooks_ok w self books limit Hself Hall w) as (r & w' & E & Hp & ->);
    [reflexivity|].
  exists w'. split; [exact E|]. split; [exact Hp|].
  intros ->. unfold printAllBooks in E.
  rewrite (bind_ok _ _ _ _ _ (books_of_ok self [] w Hself)) in E.
  injection E as <-. reflexivity.
Qed.

Lemma comments_of_returns (w0 : world) (self : positive) (items : list positive) :
  holds_comments self items w0 -> ok_from w0 (comments_of self) (fun held => held = items).
Proof.
  intros (held & E1 & E2) w (_ & Hl & _ & Hc & _). exists items, w.
  split; [|split; reflexivity].
  eapply comments_of_ok; [rewrite Hc; exact E1 | rewrite Hl; exact E2].
Qed.

Lemma first_keys_returns (w0 : world) (first : positive) (rest : list positive)
    (record : dict) :
  dicts w0 !! first = Some record ->
  ok_from w0 (first_keys (first :: rest)) (fun ks => ks = keys record).
Proof.
  intros E w (Hd & _). exists (keys record), w. split; [|split; reflexivity].
  apply first_keys_ok. rewrite Hd. exact E.
Qed.

Lemma length_pad_lines (lines : list string) (max_lines : Z) :
  Z.of_nat (length lines) <= max_lines ->
  length (pad_lines lines max_lines) = Z.to_nat max_lines.
Proof. intros Hl. unfold pad_lines. rewrite length_app, length_blanks. lia. Qed.

Lemma comment_row_ok (w0 : world) (comment : dict) (body_width : Z) (post_info_flag : bool)
    (name_lines email_lines body_lines post_info_lines : list string) (i : nat)
    (id post_id : value) :
  0 <= body_width ->
  dict_get "id" comment = Some id -> is_number id = true ->
  dict_get "postId" comment = Some post_id -> is_number post_id = true ->
  (i < length name_lines)%nat -> (i < length email_lines)%nat ->
  (i < length body_lines)%nat -> (i < length post_info_lines)%nat ->
  ok_from w0 (comment_row comment body_width post_info_flag name_lines email_lines
                body_lines post_info_lines i) (fun _ => True).
Proof.
  intros Hw Eid Hid Epid Hpid Hi1 Hi2 Hi3 Hi4. unfold comment_row.
  assert (Hfmt : forall v width, is_number v = true -> 0 <= width ->
                                 exists t, format_left v width = Ok t).
  { intros v width Hv Hwidth. destruct v; try discriminate Hv; cbn [format_left];
      apply ljust_ok, Hwidth. }
  eapply (ok_bind _ _ _ (fun _ : string => True)).
  { destruct (i =? 0)%nat; [|apply ok_ret; exact I].
    unfold getitem. rewrite Eid. lifted (fun v => v = id); [eauto|]. subst.
    apply ok_lift. destruct (Hfmt id 3 Hid) as (t & E); [lia | eauto]. }
  intros id_col _.
  eapply (ok_bind _ _ _ (fun _ : string => True)).
  { destruct (i =? 0)%nat; [|apply ok_ret; exact I].
    unfold getitem. rewrite Epid. lifted (fun v => v = post_id); [eauto|]. subst.
    apply ok_lift. destruct (Hfmt post_id 7 Hpid) as (t & E); [lia | eauto]. }
  intros post_id_col _.
  lifted (fun _ : string => True).
  { destruct (index_ok name_lines i Hi1) as (x & E & _). eauto. }
  lifted (fun _ : string => True).
  { destruct (index_ok email_lines i Hi2) as (x & E & _). eauto. }
  lifted (fun _ : string => True).
  { destruct (index_ok body_lines i Hi3) as (x & E & _). eauto. }
  eapply (ok_bind _ _ _ (fun _ : string => True)).
  { destruct post_info_flag; [|apply ok_ret; exact I].
    apply ok_lift. destruct (index_ok post_info_lines i Hi4) as (x & E & _). eauto. }
  intros post_info_col _.
  lifted (fun _ : string => True).
  { match goal with |- context [ljust ?s 10] => destruct (ljust_ok s 10) as (x & E) end;
      [lia | eauto]. }
  lifted (fun _ : string => True).
  { match goal with |- context [ljust ?s 12] => destruct (ljust_ok s 12) as (x & E) end;
      [lia | eauto]. }
  lifted (fun _ : string => True).
  { match goal with
    | |- context [ljust ?s body_width] => destruct (ljust_ok s body_width Hw) as (x & E)
    end. eauto. }
  cbv zeta.
  eapply (ok_bind _ _ _ (fun _ : string => True)).
  { destruct post_info_flag; [|apply ok_ret; exact I].
    lifted (fun _ : string => True).
    { destruct (ljust_ok post_info_col 16) as (x & E); [lia | eauto]. }
    apply ok_ret. exact I. }
  intros row _. apply ok_print. exact I.
Qed.

(** The rows of one Comment Record are printed. *)
Lemma comment_lines_ok (w0 : world) (body_width : Z) (post_info_flag preview_only : bool)
    (separator : string) (c : positive) :
  1 <= body_width -> comment_record (dicts w0) c ->
  ok_from w0
    (let* comment := read dicts c in
     let* email_lines := lift (wrap_text (get_or comment "email" (VStr "")) 12) in
     let* name_text :=
       (if preview_only then lift (preview_limit (get_or comment "name" (VStr "")) 16)
        else ret (get_or comment "name" (VStr ""))) in
     let* body_text :=
       (if preview_only then lift (preview_limit (get_or comment "body" (VStr "")) 26)
        else ret (get_or comment "body" (VStr ""))) in
     let* name_lines := lift (wrap_text name_text 10) in
     let* body_lines := lift (wrap_text body_text body_width) in
     let* post_info_lines :=
       (if post_info_flag
        then lift (wrap_text (get_or comment "post_info" (VStr "")) 16)
        else ret []) in
     let max_lines :=
       Z.of_nat (Nat.max (Nat.max (Nat.max (length name_lines) (length email_lines))
                                  (length body_lines)) (length post_info_lines)) in
     let name_lines := pad_lines name_lines max_lines in
     let email_lines := pad_lines email_lines max_lines in
     let body_lines := pad_lines body_lines max_lines in
     let post_info_lines := pad_lines post_info_lines max_lines in
     for_each (seq 0 (Z.to_nat max_lines))
       (comment_row comment body_width post_info_flag
                    name_lines email_lines body_lines post_info_lines);;
     print separator)
    (fun _ => True).
Proof.
  intros Hw (r & id & post_id & name & email & body
             & E & Eid & Hid & Epid & Hpid & En & Ee & Eb & Hinfo).
  eapply ok_bind; [eapply ok_read_dicts; [exact E | exact (eq_refl r)]|].
  intros r' Hr'. subst r'.
  assert (Hpreview : forall s n, exists t, preview_limit (VStr s) n = Ok (VStr t))
    by (intros s n; cbn [preview_limit]; destruct (n <? len s); eauto).
  assert (Hinfo' : exists s, get_or r "post_info" (VStr "") = VStr s).
  { unfold get_or. destruct (dict_get "post_info" r) as [v|]; [apply Hinfo; reflexivity | eauto]. }
  unfold get_or at 1 2 3 4 5. rewrite Ee, En, Eb.
  lifted (fun _ : list string => True).
  { destruct (wrap_text_returns email 12) as (lines & El); [lia | eauto]. }
  eapply (ok_bind _ _ _ (fun v => exists s, v = VStr s)).
  { destruct preview_only; [|apply ok_ret; eauto].
    apply ok_lift. destruct (Hpreview name 16) as (t & Et). eauto. }
  intros name_text [name' ->].
  eapply (ok_bind _ _ _ (fun v => exists s, v = VStr s)).
  { destruct preview_only; [|apply ok_ret; eauto].
    apply ok_lift. destruct (Hpreview body 26) as (t & Et). eauto. }
  intros body_text [body' ->].
  lifted (fun _ : list string => True).
  { destruct (wrap_text_returns name' 10) as (lines & El); [lia | eauto]. }
  lifted (fun _ : list string => True).
  { destruct (wrap_text_returns body' body_width Hw) as (lines & El). eauto. }
  eapply (ok_bind _ _ _ (fun _ : list string => True)).
  { destruct post_info_flag; [|apply ok_ret; exact I].
    apply ok_lift. destruct Hinfo' as [s ->].
    destruct (wrap_text_returns s 16) as (lines & El); [lia | eauto]. }
  intros post_info_lines _. cbv zeta.
  eapply (ok_bind _ _ _ (fun _ => True)); [|intros _ _; apply ok_print; exact I].
  apply ok_for_each. apply Forall_forall. intros i Hi.
  apply elem_of_seq in Hi as [_ Hi]. simpl in Hi.
  apply (comment_row_ok w0 r body_width post_info_flag _ _ _ _ i id post_id);
    try assumption; try lia;
    rewrite length_pad_lines; lia.
Qed.

(** [printAllComments] prints a repository of Comment Records that is not
    empty, and returns. *)
Lemma printAllComments_ok (w0 : world) (self : positive) (items : list positive)
    (body_width : Z) (preview_only : bool) (limit : option Z) :
  holds_comments self items w0 -> items <> [] ->
  Forall (comment_record (dicts w0)) items -> 1 <= body_width ->
  ok_from w0 (printAllComments self (VInt body_width) preview_only limit) (fun _ => True).
Proof.
  intros Hself Hne Hall Hw. unfold printAllComments.
  eapply ok_bind; [apply comments_of_returns, Hself|]. intros ? ->.
  destruct items as [|first rest]; [congruence|].
  pose proof Hall as Hfirst. apply Forall_cons in Hfirst as [Hfirst _].
  destruct Hfirst as (record & Hrecord). destruct Hrecord as (? & ? & ? & ? & ? & E & _).
  eapply ok_bind; [apply (first_keys_returns w0 first rest record E)|]. intros ? ->.
  cbv zeta.
  lifted (fun _ : string => True); [destruct (ljust_ok "ID" 3) as (t & Et); [lia | eauto]|].
  lifted (fun _ : string => True); [destruct (ljust_ok "Post ID" 7) as (t & Et); [lia | eauto]|].
  lifted (fun _ : string => True); [destruct (ljust_ok "Name" 10) as (t & Et); [lia | eauto]|].
  lifted (fun _ : string => True); [destruct (ljust_ok "Email" 12) as (t & Et); [lia | eauto]|].
  lifted (fun _ : string => True);
    [destruct (ljust_ok "Body" body_width) as (t & Et); [lia | eauto]|].
  eapply (ok_bind _ _ _ (fun _ : string => True)).
  { destruct (5 <? length (keys record))%nat; [|apply ok_ret; exact I].
    lifted (fun _ : string => True);
      [destruct (ljust_ok "Post Info" 16) as (t & Et); [lia | eauto]|].
    apply ok_ret. exact I. }
  intros header _.
  printed. printed. printed.
  apply ok_for_each.
  assert (Hshown : Forall (comment_record (dicts w0))
                     match limit with
                     | Some n => if n =? 0 then first :: rest else slice_to (first :: rest) n
                     | None => first :: rest
                     end).
  { destruct limit as [n|]; [|exact Hall]. destruct (n =? 0); [exact Hall|].
    unfold slice_to. apply Forall_take, Hall. }
  eapply Forall_impl; [exact Hshown|]. intros item Hitem.
  apply comment_lines_ok; [exact Hw | exact Hitem].
Qed.

(** X11.  On a repository of Comment Records that is not empty,
    [printAllComments] with a body width of at least 1 returns, with or
    without preview and whatever the limit, and has changed nothing but what
    is printed. *)
Theorem printAllComments_returns (self : positive) (items : list positive)
    (body_width : Z) (preview_only : bool) (limit : option Z) (w : world) :
  holds_comments self items w -> items <> [] ->
  Forall (comment_record (dicts w)) items -> 1 <= body_width ->
  exists w', printAllComments self (VInt body_width) preview_only limit w = (Ok tt, w')
             /\ only_prints w w'.
Proof.
  intros Hself Hne Hall Hw.
  destruct (printAllComments_ok w self items body_width preview_only limit Hself Hne Hall Hw w)
    as ([] & w' & E & Hp & _); [reflexivity|].
  exists w'. split; [exact E | exact Hp].
Qed.

End PrintFacts.

(** X10 on the sample data, and on a catalogue without books. *)
Lemma printAllBooks_returns_self_witness :
  (exists w', printAllBooks (H := plain) 1 (Some 2) sample = (Ok 1%positive, w')
              /\ only_prints sample w'
              /\ (locs_of books = [] -> stdout w' = stdout sample ++ ["No books found."]))
  /\ (exists w', printAllBooks (H := plain) 1 None (catalogue []) = (Ok 1%positive, w')
                 /\ only_prints (catalogue []) w'
                 /\ (@nil positive = [] ->
                     stdout w' = stdout (catalogue []) ++ ["No books found."])).
Proof.
  split.
  - exact (printAllBooks_returns_self (H := plain) 1 (locs_of books) (Some 2) sample
             BookFacts.sample_holds sample_records).
  - apply (printAllBooks_returns_self (H := plain) 1 [] None (catalogue [])).
    + exists 1%positive. split; reflexivity.
    + apply List.Forall_nil.
Defined.

Lemma two_comments_hold : holds_comments 1 [1; 2]%positive two_comments.
Proof. exists 1%positive. split; reflexivity. Qed.

Lemma two_comments_records : Forall (comment_record (dicts two_comments)) [1; 2]%positive.
Proof.
  repeat (apply List.Forall_cons;
          [eexists _, _, _, _, _, _;
           split; [reflexivity|]; split; [reflexivity|]; split; [reflexivity|];
           split; [reflexivity|]; split; [reflexivity|]; split; [reflexivity|];
           split; [reflexivity|]; split; [reflexivity|]; intros v Hv; discriminate Hv|]).
  apply List.Forall_nil.
Qed.

(** X11 on a repository of two comments, as a preview 11 wide. *)
Lemma printAllComments_returns_witness :
  exists w', printAllComments (H := plain) 1 (VInt 11) true (Some 1) two_comments = (Ok tt, w')
             /\ only_prints two_comments w'.
Proof.
  apply (printAllComments_returns (H := plain) 1 [1; 2]%positive 11 true (Some 1) two_comments
           two_comments_hold).
  - discriminate.
  - exact two_comments_records.
  - lia.
Defined.

End PrintFacts.

(** * What the operations of [commentData] return *)

Module CommentFacts.
Import Py A3 Vocabulary Examples Run ValidFacts Frames Validate Filters WrapText Returns.
Import CommentRepository AddField SelectFacts PrintFacts.

Lemma mem_elem_of (k : string) (xs : list string) : mem k xs = true <-> k ∈ xs.
Proof.
  unfold mem. rewrite existsb_exists. split.
  - intros (x & Hx & E). apply String.eqb_eq in E. subst x. apply list_elem_of_In, Hx.
  - intros Hk. exists k. split; [apply list_elem_of_In, Hk | apply String.eqb_refl].
Qed.

Lemma dict_get_keys (k : string) (d : dict) (v : value) : dict_get k d = Some v -> k ∈ keys d.
Proof.
  induction d as [|[k' v'] d IH]; simpl; [discriminate|].
  destruct (String.eqb_spec k k') as [->|Hne]; intros E; [left | right; apply IH, E].
Qed.


Section CommentFacts.
Context `{Builtins}.

(** The comprehension prints nothing. *)
Lemma filter_records_silent (items : list positive) (test : dict -> result bool) :
  keeps (@Logic.eq world) (filter_records items test).
Proof.
  unfold filter_records. apply keeps_fold_each; [typeclasses eauto|]. intros kept item.
  apply keeps_bind; [typeclasses eauto | |intros record].
  - intros w. unfold read. destruct (dicts w !! item); reflexivity.
  - apply keeps_bind; [typeclasses eauto | apply keeps_lift; typeclasses eauto|].
    intros keep. apply keeps_ret. typeclasses eauto.
Qed.

Lemma filter_records_same (items kept : list positive) (test : dict -> result bool)
    (w w' : world) :
  filter_records items test w = (Ok kept, w') -> w' = w.
Proof.
  intros E. pose proof (filter_records_silent items test w) as Hs. rewrite E in Hs.
  symmetry. exact Hs.
Qed.

(** The common end of the operations: the new instance holds the given
    list, and nothing that was there has changed. *)
Lemma wrap_comments_run (w0 w : world) (items : list positive) (show preview_only : bool) :
  only_prints w0 w -> Forall (comment_record (dicts w0)) items ->
  (show = true -> items <> []) ->
  exists new_obj w',
    wrap_comments items show preview_only w = (Ok new_obj, w')
    /\ comment_objs w0 !! new_obj = None
    /\ holds_comments new_obj items w'
    /\ dicts w' = dicts w0 /\ lists w0 ⊆ lists w' /\ comment_objs w0 ⊆ comment_objs w'
    /\ today w' = today w0.
Proof.
  intros (Hd & Hl & _ & Hc & _ & Htoday) Hall Hshow. unfold wrap_comments.
  set (held := fresh (dom (lists w))). set (new_obj := fresh (dom (comment_objs w))).
  set (w2 := set_comment_objs <[new_obj := held]> (set_lists <[held := items]> w)).
  assert (E1 : new_list items w = (Ok held, set_lists <[held := items]> w)) by reflexivity.
  assert (E2 : new_commentData held (set_lists <[held := items]> w) = (Ok new_obj, w2))
    by reflexivity.
  rewrite (bind_ok _ _ _ _ _ E1), (bind_ok _ _ _ _ _ E2).
  assert (Hheld : holds_comments new_obj items w2)
    by (exists held; split; apply lookup_insert_eq).
  assert (Hrun : exists w3,
             (if show then printAllComments new_obj (VInt 24) preview_only None else ret tt) w2
             = (Ok tt, w3) /\ only_prints w2 w3).
  { destruct show.
    - assert (Hrec : Forall (comment_record (dicts w2)) items)
        by (change (dicts w2) with (dicts w); rewrite Hd; exact Hall).
      destruct (printAllComments_ok w2 new_obj items 24 preview_only None Hheld
                  (Hshow eq_refl) Hrec) with (w := w2) as ([] & w3 & E3 & Hp & _);
        [lia | reflexivity | eauto].
    - exists w2. split; reflexivity. }
  destruct Hrun as (w3 & E3 & Hd3 & Hl3 & _ & Hc3 & _ & Htoday3).
  rewrite (bind_ok _ _ _ _ _ E3).
  exists new_obj, w3. split; [reflexivity|].
  split; [rewrite <- Hc; apply fresh_free|].
  split; [exists held; rewrite Hc3, Hl3; split; apply lookup_insert_eq|].
  split; [rewrite Hd3; exact Hd|].
  split; [rewrite Hl3, <- Hl; apply insert_subseteq, fresh_free|].
  split; [rewrite Hc3, <- Hc; apply insert_subseteq, fresh_free|].
  rewrite Htoday3. exact Htoday.
Qed.

Lemma holds_comments_weaken (self : positive) (items : list positive) (w w' : world) :
  holds_comments self items w -> lists w ⊆ lists w' -> comment_objs w ⊆ comment_objs w' ->
  holds_comments self items w'.
Proof.
  intros (held & E1 & E2) Hl Hc. exists held.
  split; eapply lookup_weaken; eassumption.
Qed.

Lemma comment_at (w : world) (items : list positive) (item : positive) :
  Forall (comment_record (dicts w)) items -> item ∈ items ->
  exists record, dicts w !! item = Some record.
Proof.
  intros Hall Hin. rewrite Forall_forall in Hall.
  destruct (Hall item Hin) as (record & Hr). destruct Hr as (? & ? & ? & ? & ? & E & _). eauto.
Qed.



Lemma limited_Forall {A : Type} (P : A -> Prop) (limit : option Z) (xs : list A) :
  Forall P xs -> Forall P match limit with Some n => slice_to xs n | None => xs end.
Proof. intros Hxs. destruct limit; [unfold slice_to; apply Forall_take|]; exact Hxs. Qed.

(** X13.  On a repository of Comment Records in which every record has a
    number under the key, and for a number as bound, [printOverVar] returns
    a new instance that holds the records whose value is greater than the
    bound, in order, cut to the limit.  When that leaves no record (none is
    greater, or the limit is 0) it prints one line and returns nothing. *)
Theorem printOverVar_selects (self : positive) (items : list positive) (var : string)
    (bound : value) (show preview_only : bool) (limit : option Z) (w : world) :
  holds_comments self items w -> items <> [] ->
  Forall (comment_record (dicts w)) items ->
  Forall (fun item => is_number (field_of (dicts w) item var) = true) items ->
  is_number bound = true ->
  exists r w',
    printOverVar self var bound show preview_only limit w = (Ok r, w')
    /\ dicts w' = dicts w /\ holds_comments self items w'
    /\ match (match limit with
              | Some n => slice_to (List.filter (exceeds (dicts w) var bound) items) n
              | None => List.filter (exceeds (dicts w) var bound) items
              end) with
       | [] =>
           r = None
           /\ stdout w' = stdout w ++ ["No comments found with " +:+ var +:+ " greater than "
                                       +:+ str bound +:+ "."]
       | found =>
           exists new_obj, r = Some new_obj /\ comment_objs w !! new_obj = None
                           /\ holds_comments new_obj found w'
       end.
Proof.
  intros Hself Hne Hall Hnum Hbound. unfold printOverVar.
  rewrite (bind_ok _ _ _ _ _ (comments_of_holds _ _ _ Hself)).
  destruct items as [|first rest]; [congruence|].
  destruct (comment_at w _ first Hall) as (record & E); [left|].
  unfold lift at 1, index at 1. cbn [lookup list_lookup]. unfold bind at 1.
  rewrite (bind_ok _ _ _ _ _ (read_ok dicts first w record E)).
  assert (Hvar : mem var (filter (fun num => is_number (get_or record num VNone)) (keys record))
                 = true).
  { apply mem_elem_of, list_elem_of_filter.
    pose proof Hnum as Hfirst. apply Forall_cons in Hfirst as [Hfirst _].
    unfold field_of in Hfirst. rewrite E in Hfirst. split.
    - rewrite Hfirst. exact I.
    - unfold get_or in Hfirst. destruct (dict_get var record) as [v|] eqn:Ev;
        [eapply dict_get_keys, Ev | discriminate Hfirst]. }
  rewrite Hvar. cbn [negb].
  match goal with
  | |- context [filter_records _ ?t] =>
      destruct (filter_records_selects w (first :: rest) t
                  (exceeds (dicts w) var bound)) with (w := w)
      as (kept & w1 & E1 & Hp & ->); [|reflexivity|]
  end.
  { intros item Hin. destruct (comment_at w _ item Hall Hin) as (r & Er).
    exists r. split; [exact Er|]. rewrite Forall_forall in Hnum.
    pose proof (Hnum item Hin) as Hn. unfold exceeds. unfold field_of in *. rewrite Er in *.
    unfold gt. destruct (lt_numbers bound (get_or r var VNone) Hbound Hn) as (g & ->).
    reflexivity. }
  rewrite (bind_ok _ _ _ _ _ E1). apply filter_records_same in E1. subst w1. cbv zeta.
  set (found := match limit with
                | Some n => slice_to (List.filter (exceeds (dicts w) var bound) (first :: rest)) n
                | None => List.filter (exceeds (dicts w) var bound) (first :: rest)
                end).
  assert (Hfound : Forall (comment_record (dicts w)) found)
    by (apply limited_Forall, filter_Forall, Hall).
  destruct found as [|item found].
  - eexists None, _. split; [reflexivity|]. cbn.
    split; [reflexivity|]. split; [exact Hself | split; reflexivity].
  - destruct (wrap_comments_run w w (item :: found) show preview_only Hp Hfound)
      as (new_obj & w' & E2 & Hnew & Hheld & Hd & Hl & Hc & _); [discriminate|].
    rewrite (bind_ok _ _ _ _ _ E2).
    exists (Some new_obj), w'. split; [reflexivity|]. split; [exact Hd|].
    split; [eapply holds_comments_weaken; eassumption|]. eauto.
Qed.

(** The keys of Comment Records under one of the four names: all numbers,
    or all strings. *)
Lemma comment_keys (w : world) (items : list positive) (sortVar : string) :
  Forall (comment_record (dicts w)) items ->
  sortVar = "id" \/ sortVar = "postId" \/ sortVar = "name" \/ sortVar = "email" ->
  (forall item, item ∈ items ->
     exists record k, dicts w !! item = Some record /\ dict_get sortVar record = Some k)
  /\ (forall a b, a ∈ items -> b ∈ items ->
        comparable (field_of (dicts w) a sortVar) (field_of (dicts w) b sortVar) = true).
Proof.
  intros Hall Hvar. rewrite Forall_forall in Hall.
  assert (Hkind : forall item, item ∈ items ->
            exists record k, dicts w !! item = Some record /\ dict_get sortVar record = Some k
              /\ ((sortVar = "id" \/ sortVar = "postId") -> is_number k = true)
              /\ ((sortVar = "name" \/ sortVar = "email") -> exists s, k = VStr s)).
  { intros item Hin.
    destruct (Hall item Hin) as (r & id & pid & n & e & b & E & Ei & Hi & Ep & Hp & En & Ee & _).
    exists r. destruct Hvar as [-> | [-> | [-> | ->]]]; eexists; (split; [exact E|]);
      (split; [eassumption|]);
      (split; [intros [Hv | Hv]; first [discriminate Hv | assumption]
              | intros [Hv | Hv]; first [discriminate Hv | eauto]]). }
  split.
  - intros item Hin. destruct (Hkind item Hin) as (r & k & E & Ek & _). eauto.
  - intros a b Ha Hb.
    destruct (Hkind a Ha) as (ra & ka & Ea & Eka & Hna & Hsa).
    destruct (Hkind b Hb) as (rb & kb & Eb & Ekb & Hnb & Hsb).
    unfold field_of, get_or. rewrite Ea, Eb, Eka, Ekb.
    destruct Hvar as [Hv | [Hv | [Hv | Hv]]].
    + specialize (Hna (or_introl Hv)). specialize (Hnb (or_introl Hv)).
      destruct ka, kb; try discriminate; reflexivity.
    + specialize (Hna (or_intror Hv)). specialize (Hnb (or_intror Hv)).
      destruct ka, kb; try discriminate; reflexivity.
    + destruct (Hsa (or_introl Hv)) as [s ->], (Hsb (or_introl Hv)) as [t ->]. reflexivity.
    + destruct (Hsa (or_intror Hv)) as [s ->], (Hsb (or_intror Hv)) as [t ->]. reflexivity.
Qed.

(** The run of [printCommentsSorted] up to the sorted list. *)
Lemma sorted_comments_run (self : positive) (first : positive) (rest : list positive)
    (sortVar : string) (reverse_param show preview_only : bool) (limit : option Z)
    (w : world) :
  holds_comments self (first :: rest) w ->
  Forall (comment_record (dicts w)) (first :: rest) ->
  sortVar = "id" \/ sortVar = "postId" \/ sortVar = "name" \/ sortVar = "email" ->
  exists sorted w1,
    only_prints w w1
    /\ printCommentsSorted self sortVar reverse_param show preview_only limit w
       = wrap_comments match limit with Some n => slice_to sorted n | None => sorted end
           show preview_only w1
    /\ Forall (comment_record (dicts w)) sorted
    /\ Permutation sorted (first :: rest)
    /\ Sorted.Sorted
         (fun a b => in_order reverse_param (field_of (dicts w) a sortVar)
                       (field_of (dicts w) b sortVar)) sorted.
Proof.
  intros Hself Hall Hvar.
  destruct (comment_keys w (first :: rest) sortVar Hall Hvar) as [Hkeys Hcmp].
  set (key := fun item => field_of (dicts w) item sortVar).
  set (keyed := map (fun item => (key item, item)) (first :: rest)).
  set (sorted := map snd (foldr (insert_sorted reverse_param) [] keyed)).
  assert (Hperm : Permutation sorted (first :: rest)).
  { unfold sorted. rewrite sort_perm. unfold keyed. rewrite map_map. cbn [snd].
    rewrite map_id. reflexivity. }
  destruct (Hkeys first) as (record & k & E & Ek); [left|].
  assert (Hmem : mem sortVar (filter (fun var => negb (String.eqb var "body")) (keys record))
                 = true).
  { apply mem_elem_of, list_elem_of_filter. split; [|eapply dict_get_keys, Ek].
    destruct Hvar as [-> | [-> | [-> | ->]]]; exact I. }
  unfold printCommentsSorted.
  rewrite (bind_ok _ _ _ _ _ (comments_of_holds _ _ _ Hself)).
  rewrite (bind_ok _ _ _ _ _ (first_keys_ok first rest record w E)).
  cbv zeta. rewrite Hmem. cbn [negb].
  destruct (keyed_by_fields w (first :: rest) sortVar Hkeys w) as (? & w1 & E1 & Hp & ->);
    [reflexivity|].
  rewrite (bind_ok _ _ _ _ _ E1).
  change (map (fun b => (field_of (dicts w) b sortVar, b)) (first :: rest)) with keyed.
  assert (Hsort : sorted_by keyed reverse_param = Ok sorted).
  { apply sorted_by_sorts. intros a b Ha Hb.
    apply list_elem_of_fmap in Ha as (a' & -> & Ha'). apply list_elem_of_fmap in Hb as (b' & -> & Hb').
    apply Hcmp; assumption. }
  unfold bind at 1. unfold lift at 1. rewrite Hsort.
  exists sorted, w1. split; [exact Hp|]. split; [reflexivity|].
  split; [|split; [exact Hperm|]].
  - apply List.Forall_forall. intros b Hb. rewrite List.Forall_forall in Hall. apply Hall.
    eapply Permutation_in; [exact Hperm | exact Hb].
  - unfold sorted. apply (sorted_map (in_order reverse_param) key).
    + apply sort_Forall. unfold keyed. apply Forall_map. apply Forall_forall. reflexivity.
    + apply (sort_sorted reverse_param keyed).
Qed.


(** X15.  With a limit of 0 and the result shown, [printCommentsSorted]
    raises [IndexError]: the new instance holds no record, and
    [printAllComments] reads the first one.  The receiver holds what it
    held, and no record has changed. *)
Theorem printCommentsSorted_limit_zero (self : positive) (items : list positive)
    (sortVar : string) (reverse_param preview_only : bool) (w : world) :
  holds_comments self items w -> items <> [] ->
  Forall (comment_record (dicts w)) items ->
  sortVar = "id" \/ sortVar = "postId" \/ sortVar = "name" \/ sortVar = "email" ->
  exists w',
    printCommentsSorted self sortVar reverse_param true preview_only (Some 0) w
    = (Raise IndexError, w')
    /\ dicts w' = dicts w /\ holds_comments self items w'.
Proof.
  intros Hself Hne Hall Hvar. destruct items as [|first rest]; [congruence|].
  destruct (sorted_comments_run self first rest sortVar reverse_param true preview_only
              (Some 0) w Hself Hall Hvar) as (sorted & w1 & Hp & Erun & _).
  rewrite Erun. destruct Hp as (Hd & Hl & _ & Hc & _).
  assert (Hnone : slice_to sorted 0 = []).
  { unfold slice_to, clamp. cbn [Z.ltb Z.compare]. rewrite Z.min_l by lia. reflexivity. }
  rewrite Hnone. unfold wrap_comments.
  set (held := fresh (dom (lists w1))). set (new_obj := fresh (dom (comment_objs w1))).
  set (w2 := set_comment_objs <[new_obj := held]> (set_lists <[held := []]> w1)).
  assert (E1 : new_list [] w1 = (Ok held, set_lists <[held := []]> w1)) by reflexivity.
  assert (E2 : new_commentData held (set_lists <[held := []]> w1) = (Ok new_obj, w2))
    by reflexivity.
  rewrite (bind_ok _ _ _ _ _ E1), (bind_ok _ _ _ _ _ E2).
  assert (E3 : printAllComments new_obj (VInt 24) preview_only None w2 = (Raise IndexError, w2)).
  { unfold printAllComments.
    rewrite (bind_ok _ _ _ _ _ (comments_of_ok new_obj held [] w2
                                  (lookup_insert_eq _ _ _) (lookup_insert_eq _ _ _))).
    reflexivity. }
  rewrite (bind_raise _ _ _ _ _ E3).
  exists w2. split; [reflexivity|]. split; [exact Hd|].
  eapply holds_comments_weaken; [exact Hself | |].
  - cbn. rewrite <- Hl. apply insert_subseteq, fresh_free.
  - cbn. rewrite <- Hc. apply insert_subseteq, fresh_free.
Qed.

(** X16.  The three operations take their keys from the first record
    alone.  [printByVar] raises [ValueError] for a name that is not a key of
    the first record, [printOverVar] for a name under which the first record
    has no number, and [printCommentsSorted] for ['body'] and for a name that
    is not a key of the first record; nothing is printed or changed. *)
Theorem operations_check_first_record (self first : positive) (rest : list positive)
    (record : dict) (var : string) (v : value) (reverse_param show preview_only : bool)
    (limit : option Z) (w : world) :
  holds_comments self (first :: rest) w -> dicts w !! first = Some record ->
  (mem var (keys record) = false ->
   printByVar self var v show preview_only w = (Raise ValueError, w))
  /\ (is_number (get_or record var VNone) = false ->
      printOverVar self var v show preview_only limit w = (Raise ValueError, w))
  /\ (var = "body" \/ mem var (keys record) = false ->
      printCommentsSorted self var reverse_param show preview_only limit w
      = (Raise ValueError, w)).
Proof.
  intros Hself E. split; [|split].
  - intros Hvar. unfold printByVar.
    rewrite (bind_ok _ _ _ _ _ (comments_of_holds _ _ _ Hself)).
    rewrite (bind_ok _ _ _ _ _ (first_keys_ok first rest record w E)).
    rewrite Hvar. reflexivity.
  - intros Hvar. unfold printOverVar.
    rewrite (bind_ok _ _ _ _ _ (comments_of_holds _ _ _ Hself)).
    unfold lift at 1, index at 1. cbn [lookup list_lookup]. unfold bind at 1.
    rewrite (bind_ok _ _ _ _ _ (read_ok dicts first w record E)).
    assert (Hmem : mem var (filter (fun num => is_number (get_or record num VNone))
                              (keys record)) = false).
    { apply not_true_is_false. intros Hm. apply mem_elem_of, list_elem_of_filter in Hm as [Hm _].
      rewrite Hvar in Hm. exact Hm. }
    rewrite Hmem. reflexivity.
  - intros Hvar. unfold printCommentsSorted.
    rewrite (bind_ok _ _ _ _ _ (comments_of_holds _ _ _ Hself)).
    rewrite (bind_ok _ _ _ _ _ (first_keys_ok first rest record w E)).
    assert (Hmem : mem var (filter (fun var => negb (String.eqb var "body")) (keys record))
                   = false).
    { apply not_true_is_false. intros Hm.
      apply mem_elem_of, list_elem_of_filter in Hm as [Hb Hk].
      destruct Hvar as [-> | Hvar]; [exact Hb|].
      apply mem_elem_of in Hk. congruence. }
    cbv zeta. rewrite Hmem. reflexivity.
Qed.

End CommentFacts.


(** X13 on a repository of two comments: the id of the second is greater
    than 1. *)
Lemma printOverVar_selects_witness :
  exists r w',
    printOverVar (H := plain) 1 "id" (VInt 1) false false None two_comments = (Ok r, w')
    /\ dicts w' = dicts two_comments /\ holds_comments 1 [1; 2]%positive w'
    /\ exists new_obj, r = Some new_obj /\ comment_objs two_comments !! new_obj = None
                       /\ holds_comments new_obj [2%positive] w'.
Proof.
  refine (printOverVar_selects (H := plain) 1 [1; 2]%positive "id" (VInt 1) false false None
            two_comments two_comments_hold _ two_comments_records _ eq_refl).
  - discriminate.
  - repeat (apply List.Forall_cons; [reflexivity|]). apply List.Forall_nil.
Defined.


(** X15 on a repository of two comments. *)
Lemma printCommentsSorted_limit_zero_witness :
  exists w',
    printCommentsSorted (H := plain) 1 "id" false true false (Some 0) two_comments
    = (Raise IndexError, w')
    /\ dicts w' = dicts two_comments /\ holds_comments 1 [1; 2]%positive w'.
Proof.
  refine (printCommentsSorted_limit_zero (H := plain) 1 [1; 2]%positive "id" false false
            two_comments two_comments_hold _ two_comments_records _).
  - discriminate.
  - left. reflexivity.
Defined.

(** X16 on a repository of two comments: no record has ['likes'], the
    names are no numbers, and ['body'] is not sorted by. *)
Lemma operations_check_first_record_witness :
  printByVar (H := plain) 1 "likes" (VInt 3) true false two_comments
  = (Raise ValueError, two_comments)
  /\ printOverVar (H := plain) 1 "name" (VInt 3) true false None two_comments
     = (Raise ValueError, two_comments)
  /\ printCommentsSorted (H := plain) 1 "body" false true false None two_comments
     = (Raise ValueError, two_comments).
Proof.
  split; [|split].
  - exact (proj1 (operations_check_first_record (H := plain) 1 1 [2%positive] _ "likes"
                    (VInt 3) false true false None two_comments two_comments_hold eq_refl)
             eq_refl).
  - exact (proj1 (proj2 (operations_check_first_record (H := plain) 1 1 [2%positive] _ "name"
                           (VInt 3) false true false None two_comments two_comments_hold
                           eq_refl)) eq_refl).
  - exact (proj2 (proj2 (operations_check_first_record (H := plain) 1 1 [2%positive] _ "body"
                           (VInt 3) false true false None two_comments two_comments_hold
                           eq_refl)) (or_introl eq_refl)).
Defined.

End CommentFacts.

(** * What [add_field] adds *)

Module FieldFacts.
Import Py A3 Vocabulary Examples Run ValidFacts Frames Validate Filters WrapText Returns.
Import CommentRepository AddField SelectFacts PrintFacts CommentFacts.

Lemma dict_get_dict_set_other (k k' : string) (v : value) (d : dict) :
  k <> k' -> dict_get k (dict_set k' v d) = dict_get k d.
Proof.
  intros Hne. induction d as [|[k0 v0] d IH]; simpl.
  - destruct (String.eqb_spec k k'); [congruence | reflexivity].
  - destruct (String.eqb_spec k' k0) as [->|Hne0]; simpl.
    + destruct (String.eqb_spec k k0); [congruence | reflexivity].
    + destruct (String.eqb_spec k k0); [reflexivity | exact IH].
Qed.

Lemma dict_get_dict_set (k : string) (v : value) (d : dict) :
  dict_get k (dict_set k v d) = Some v.
Proof.
  induction d as [|[k0 v0] d IH]; simpl.
  - rewrite String.eqb_refl. reflexivity.
  - destruct (String.eqb_spec k k0) as [->|Hne]; simpl.
    + rewrite String.eqb_refl. reflexivity.
    + destruct (String.eqb_spec k k0); [congruence | exact IH].
Qed.

Section FieldFacts.
Context `{Builtins}.

Lemma add_post_info_loop_adds (items : list positive) (w : world) :
  0 <= today w - 1 -> Forall (fun item => is_Some (dicts w !! item)) items ->
  exists w', for_each items add_post_info w = (Ok tt, w') /\ post_info_added items w w'.
Proof.
  revert w. induction items as [|item items IH]; intros w Ht Hall.
  - exists w. split; [reflexivity|]. repeat (split; [reflexivity|]).
    intros item record E. exists record. split; [exact E|]. split; [intros k _; reflexivity|].
    split; [intros Hin; inversion Hin | reflexivity].
  - inversion Hall as [|? ? [record E] Hrest]; subst.
    destruct (add_post_info_ok item record w Ht E) as (text & rnd & E1).
    set (w1 := World (<[item := dict_set "post_info" (VStr text) record]> (dicts w)) (lists w)
                     (book_objs w) (comment_objs w) (stdout w) rnd (today w)) in *.
    destruct (IH w1) as (w' & E2 & Hl & Hb & Hc & Ho & Htoday & Hrec).
    + exact Ht.
    + eapply Forall_impl; [exact Hrest|]. intros other [r Er]. cbn.
      destruct (decide (item = other)) as [->|Hne];
        [rewrite lookup_insert_eq | rewrite lookup_insert_ne by exact Hne]; eauto.
    + exists w'. cbn [for_each]. rewrite (bind_ok _ _ _ _ _ E1).
      split; [exact E2|]. repeat (split; [assumption|]).
      intros other r Er. destruct (decide (item = other)) as [->|Hne].
      * destruct (Hrec other (dict_set "post_info" (VStr text) record))
          as (r' & Er' & Hsame & Hin & Hout); [apply lookup_insert_eq|].
        assert (r = record) by congruence. subst r.
        exists r'. split; [exact Er'|]. split; [|split].
        -- intros k Hk. rewrite (Hsame k Hk). apply dict_get_dict_set_other, Hk.
        -- intros _. destruct (decide (other ∈ items)) as [Hi|Hi]; [apply Hin, Hi|].
           rewrite (Hout Hi). exists text. apply dict_get_dict_set.
        -- intros Hnot. exfalso. apply Hnot. left.
      * destruct (Hrec other r) as (r' & Er' & Hsame & Hin & Hout);
          [cbn; rewrite lookup_insert_ne by exact Hne; exact Er|].
        exists r'. split; [exact Er'|]. split; [exact Hsame|]. split.
        -- intros Hi. apply Hin. inversion Hi; subst; [congruence | assumption].
        -- intros Hnot. apply Hout. intros Hi. apply Hnot. right. exact Hi.
Qed.

(** A Comment Record that is given a string as post info is one. *)
Lemma comment_record_kept (records records' : gmap positive dict) (item : positive) :
  comment_record records item ->
  (forall record, records !! item = Some record ->
     exists record', records' !! item = Some record' /\ same_but_post_info record record'
       /\ (forall v, dict_get "post_info" record' = Some v ->
                     dict_get "post_info" record = Some v \/ exists s, v = VStr s)) ->
  comment_record records' item.
Proof.
  intros (r & id & pid & n & e & b & E & Ei & Hi & Ep & Hp & En & Ee & Eb & Hinfo) Hkept.
  destruct (Hkept r E) as (r' & E' & Hsame & Hinfo').
  exists r', id, pid, n, e, b. split; [exact E'|].
  rewrite !Hsame by discriminate. repeat (split; [assumption|]).
  intros v Hv. destruct (Hinfo' v Hv) as [Hold | Hnew]; [apply Hinfo, Hold | exact Hnew].
Qed.

(** The run of [add_field] on Comment Records. *)
Lemma add_field_run (self first : positive) (rest : list positive) (record : dict)
    (show preview_only : bool) (limit_field : option Z) (w : world) :
  holds_comments self (first :: rest) w ->
  Forall (comment_record (dicts w)) (first :: rest) ->
  dicts w !! first = Some record -> mem "post_info" (keys record) = false ->
  0 <= today w - 1 ->
  exists w',
    add_field self show preview_only limit_field w = (Ok (Some self), w')
    /\ lists w' = lists w /\ comment_objs w' = comment_objs w
    /\ (show = false -> stdout w' = stdout w)
    /\ forall item held,
         dicts w !! item = Some held ->
         exists held',
           dicts w' !! item = Some held' /\ same_but_post_info held held'
           /\ (item ∈ first :: rest ->
               exists text, dict_get "post_info" held' = Some (VStr text))
           /\ (item ∉ first :: rest -> held' = held).
Proof.
  intros Hself Hall E Hmem Ht. unfold add_field.
  rewrite (bind_ok _ _ _ _ _ (comments_of_holds _ _ _ Hself)).
  rewrite (bind_ok _ _ _ _ _ (first_keys_ok first rest record w E)).
  cbv zeta. rewrite Hmem.
  destruct (add_post_info_loop_adds (first :: rest) w Ht) as (w1 & E1 & Hadded).
  { eapply Forall_impl; [exact Hall|]. intros item (r & Hr).
    destruct Hr as (? & ? & ? & ? & ? & Er & _). eauto. }
  rewrite (bind_ok _ _ _ _ _ E1).
  destruct Hadded as (Hl & Hb & Hc & Ho & Htoday & Hrec).
  assert (Hself1 : holds_comments self (first :: rest) w1).
  { destruct Hself as (held & A & B). exists held. rewrite Hc, Hl. split; assumption. }
  assert (Hall1 : Forall (comment_record (dicts w1)) (first :: rest)).
  { eapply Forall_impl; [exact Hall|]. intros item Hitem.
    apply (comment_record_kept (dicts w) (dicts w1) item Hitem).
    intros r Er. destruct (Hrec item r Er) as (r' & Er' & Hsame & Hin & Hout).
    exists r'. split; [exact Er'|]. split; [exact Hsame|].
    intros v Hv. destruct (decide (item ∈ first :: rest)) as [Hi|Hi].
    - destruct (Hin Hi) as [text Etext]. right. exists text. congruence.
    - left. rewrite (Hout Hi) in Hv. exact Hv. }
  assert (Hshow : exists w2,
             (if show
              then if preview_only
                   then printAllComments self (VInt 11) true limit_field
                   else printAllComments self (VInt 24) false limit_field
              else ret tt) w1 = (Ok tt, w2)
             /\ only_prints w1 w2 /\ (show = false -> w2 = w1)).
  { destruct show.
    - destruct preview_only.
      + destruct (printAllComments_ok w1 self (first :: rest) 11 true limit_field Hself1)
          with (w := w1) as ([] & w2 & E2 & Hp & _);
          [discriminate | exact Hall1 | lia | reflexivity |].
        exists w2. split; [exact E2|]. split; [exact Hp | discriminate].
      + destruct (printAllComments_ok w1 self (first :: rest) 24 false limit_field Hself1)
          with (w := w1) as ([] & w2 & E2 & Hp & _);
          [discriminate | exact Hall1 | lia | reflexivity |].
        exists w2. split; [exact E2|]. split; [exact Hp | discriminate].
    - exists w1. split; [reflexivity|]. split; reflexivity. }
  destruct Hshow as (w2 & E2 & (Hd2 & Hl2 & _ & Hc2 & _) & Hsilent).
  rewrite (bind_ok _ _ _ _ _ E2).
  exists w2. split; [reflexivity|]. split; [congruence|]. split; [congruence|]. split.
  - intros Hs. rewrite (Hsilent Hs). exact Ho.
  - intros item held Eh. rewrite Hd2. apply Hrec, Eh.
Qed.

(** X17.  On a repository of Comment Records whose first record has no
    ['post_info'], and on a day after 1 January 2010, [add_field] returns
    the receiver.  Afterwards every record the receiver holds has a string
    under ['post_info'], every other value of every record is what it was,
    and the receiver holds the list it held; unless the result is shown,
    nothing is printed. *)
Theorem add_field_adds_to_all (self first : positive) (rest : list positive) (record : dict)
    (show preview_only : bool) (limit_field : option Z) (w : world) :
  holds_comments self (first :: rest) w ->
  Forall (comment_record (dicts w)) (first :: rest) ->
  dicts w !! first = Some record -> mem "post_info" (keys record) = false ->
  0 <= today w - 1 ->
  exists w',
    add_field self show preview_only limit_field w = (Ok (Some self), w')
    /\ holds_comments self (first :: rest) w'
    /\ (show = false -> stdout w' = stdout w)
    /\ forall item held,
         dicts w !! item = Some held ->
         exists held',
           dicts w' !! item = Some held' /\ same_but_post_info held held'
           /\ (item ∈ first :: rest ->
               exists text, dict_get "post_info" held' = Some (VStr text))
           /\ (item ∉ first :: rest -> held' = held).
Proof.
  intros Hself Hall E Hmem Ht.
  destruct (add_field_run self first rest record show preview_only limit_field w
              Hself Hall E Hmem Ht) as (w' & Erun & Hl & Hc & Hsilent & Hrec).
  exists w'. split; [exact Erun|]. split; [|split; assumption].
  destruct Hself as (held & A & B). exists held. rewrite Hc, Hl. split; assumption.
Qed.


End FieldFacts.

(** X17 on a repository of two comments. *)
Lemma add_field_adds_to_all_witness :
  exists w',
    add_field (H := plain) 1 false true None two_comments = (Ok (Some 1%positive), w')
    /\ holds_comments 1 [1; 2]%positive w'
    /\ (false = false -> stdout w' = stdout two_comments)
    /\ forall item held,
         dicts two_comments !! item = Some held ->
         exists held',
           dicts w' !! item = Some held' /\ same_but_post_info held held'
           /\ (item ∈ [1; 2]%positive ->
               exists text, dict_get "post_info" held' = Some (VStr text))
           /\ (item ∉ [1; 2]%positive -> held' = held).
Proof.
  refine (add_field_adds_to_all (H := plain) 1 1 [2%positive] _ false true None two_comments
            two_comments_hold two_comments_records eq_refl eq_refl _).
  vm_compute. discriminate.
Defined.


End FieldFacts.

(** * The random helpers *)

Module RandomFacts.
Import Py A3 Vocabulary Examples Run.

Lemma two_digits_len (n : Z) : 0 <= n < 100 -> len (two_digits n) = 2.
Proof.
  intros Hn.
  assert (Hall : forallb (fun k => len (two_digits (Z.of_nat k)) =? 2) (seq 0 100) = true)
    by (vm_compute; reflexivity).
  rewrite forallb_forall in Hall. specialize (Hall (Z.to_nat n)).
  rewrite Z2Nat.id in Hall by lia. apply Z.eqb_eq, Hall, in_seq. lia.
Qed.

Lemma randint_draws (a b : Z) (w : world) :
  a <= b ->
  exists n, a <= n <= b /\ n = a + random w 0%nat mod (b - a + 1)
            /\ randint a b w = (Ok n, set_random (fun r k => r (S k)) w).
Proof.
  intros Hab. exists (a + random w 0%nat mod (b - a + 1)).
  pose proof (Z.mod_pos_bound (random w 0%nat) (b - a + 1)) as Hm.
  split; [lia|]. split; [reflexivity|].
  unfold randint. destruct (Z.ltb_spec b a); [lia | reflexivity].
Qed.

Section RandomFacts.
Context `{Builtins}.

(** X19.  Whatever the generator draws, [gen_rand_time] returns the eight
    characters of an hour below 24, a minute and a second below 60, each
    with two digits, and [gen_rand_ip] four numbers from 0 to 255 with dots
    between them; they draw three and four numbers and change nothing
    else. *)
Theorem random_time_and_ip (w : world) :
  (exists hour minute second,
      0 <= hour <= 23 /\ 0 <= minute <= 59 /\ 0 <= second <= 59
      /\ gen_rand_time w
         = (Ok (two_digits hour +:+ ":" +:+ two_digits minute +:+ ":" +:+ two_digits second),
            set_random (fun r n => r (3 + n)%nat) w)
      /\ len (two_digits hour +:+ ":" +:+ two_digits minute +:+ ":" +:+ two_digits second)
         = 8)
  /\ (exists num_1 num_2 num_3 num_4,
         0 <= num_1 <= 255 /\ 0 <= num_2 <= 255 /\ 0 <= num_3 <= 255 /\ 0 <= num_4 <= 255
         /\ gen_rand_ip w
            = (Ok (str_of_int num_1 +:+ "." +:+ str_of_int num_2 +:+ "." +:+ str_of_int num_3
                   +:+ "." +:+ str_of_int num_4),
               set_random (fun r n => r (4 + n)%nat) w)).
Proof.
  split.
  - unfold gen_rand_time.
    destruct (randint_draws 0 23 w) as (hour & Hh & _ & E1); [lia|].
    destruct (randint_draws 0 59 (set_random (fun r k => r (S k)) w))
      as (minute & Hm & _ & E2); [lia|].
    destruct (randint_draws 0 59
                (set_random (fun r k => r (S k)) (set_random (fun r k => r (S k)) w)))
      as (second & Hs & _ & E3); [lia|].
    exists hour, minute, second. repeat (split; [assumption|]).
    rewrite (bind_ok _ _ _ _ _ E1), (bind_ok _ _ _ _ _ E2), (bind_ok _ _ _ _ _ E3).
    split; [reflexivity|].
    rewrite !len_append, !two_digits_len by lia. reflexivity.
  - unfold gen_rand_ip.
    destruct (randint_draws 0 255 w) as (n1 & H1 & _ & E1); [lia|].
    destruct (randint_draws 0 255 (set_random (fun r k => r (S k)) w))
      as (n2 & H2 & _ & E2); [lia|].
    destruct (randint_draws 0 255
                (set_random (fun r k => r (S k)) (set_random (fun r k => r (S k)) w)))
      as (n3 & H3 & _ & E3); [lia|].
    destruct (randint_draws 0 255
                (set_random (fun r k => r (S k))
                   (set_random (fun r k => r (S k)) (set_random (fun r k => r (S k)) w))))
      as (n4 & H4 & _ & E4); [lia|].
    exists n1, n2, n3, n4. repeat (split; [assumption|]).
    rewrite (bind_ok _ _ _ _ _ E1), (bind_ok _ _ _ _ _ E2), (bind_ok _ _ _ _ _ E3),
      (bind_ok _ _ _ _ _ E4).
    reflexivity.
Qed.

(** X20.  [gen_rand_date] never returns today or a later day: on a day
    after 1 January 2010 it returns a day between that date and yesterday,
    both included, and draws one number.  On 1 January 2010 or before, it
    raises [ValueError], and nothing is drawn. *)
Theorem gen_rand_date_before_today (w : world) :
  (0 < today w ->
   exists random_days,
     0 <= random_days < today w
     /\ gen_rand_date w = (Ok (date_str random_days), set_random (fun r n => r (S n)) w))
  /\ (today w <= 0 -> gen_rand_date w = (Raise ValueError, w)).
Proof.
  unfold gen_rand_date, bind, gets. cbn. split.
  - intros Ht. destruct (randint_draws 0 (today w - 1) w) as (d & Hd & _ & E); [lia|].
    exists d. split; [lia|]. rewrite E. reflexivity.
  - intros Ht. unfold randint. destruct (Z.ltb_spec (today w - 1) 0); [reflexivity | lia].
Qed.

End RandomFacts.

(** X20 on two days: 6000 days after 1 January 2010, and that day
    itself. *)
Lemma gen_rand_date_before_today_witness :
  (exists random_days,
      0 <= random_days < 6000
      /\ gen_rand_date (H := plain) sample
         = (Ok (@date_str plain random_days), set_random (fun r n => r (S n)) sample))
  /\ gen_rand_date (H := plain) new_year_2010 = (Raise ValueError, new_year_2010).
Proof.
  split.
  - apply (proj1 (gen_rand_date_before_today (H := plain) sample)). reflexivity.
  - apply (proj2 (gen_rand_date_before_today (H := plain) new_year_2010)).
    discriminate.
Defined.

End RandomFacts.

(** * Live measurements *)

Module ProfilerFacts.
Import Py A2 Vocabulary Examples Run Profiler.

(** One round of the measurement of a function that returns. *)
Lemma measure_returns (function : Z -> M world unit) (step_size baseRam : Z)
    (var_size resTime resSpace : list value) (i : nat) (w : world) :
  (forall w0, function (Z.of_nat i * step_size) w0 = (Ok tt, w0)) ->
  measure function step_size baseRam (var_size, resTime, resSpace) i w
  = (Ok (<[(i - 1)%nat := VFloat (inject_Z (Z.of_nat i * step_size))]> var_size,
         <[(i - 1)%nat := VFloat (clock w 1%nat - clock w 0%nat)]> resTime,
         <[(i - 1)%nat := VFloat (inject_Z (rss w 0%nat - baseRam))]> resSpace),
     World (results w) (residuals w) (trace w ++ round_events step_size i)
           (fun n => clock w (S (S n))) (fun n => rss w (S n))).
Proof.
  intros Hf. unfold measure, bind, time_time, emit, memory_rss, ret. cbn.
  rewrite Hf. cbn. rewrite <- !app_assoc. reflexivity.
Qed.

(** One round of the measurement of a function that raises. *)
Lemma measure_raises (function : Z -> M world unit) (step_size baseRam : Z)
    (arrays : list value * list value * list value) (i : nat) (e : exn) (w : world) :
  (forall w0, function (Z.of_nat i * step_size) w0 = (Raise e, w0)) ->
  measure function step_size baseRam arrays i w
  = (Raise e,
     World (results w) (residuals w)
           (trace w ++ [ReadClock; Call (Z.of_nat i * step_size)])
           (fun n => clock w (S n)) (rss w)).
Proof.
  intros Hf. destruct arrays as [[var_size resTime] resSpace].
  unfold measure, bind, time_time, emit, memory_rss, ret. cbn.
  rewrite Hf. cbn. rewrite <- !app_assoc. reflexivity.
Qed.

(** The run of a live measurement of a quiet function. *)
Lemma investigate_quiet (function : Z -> M world unit) (name : string) (step_size : Z)
    (w : world) :
  quiet function ->
  investigate function name step_size false w
  = (Ok [("Size", sizes_measured step_size); ("Time (s)", times_measured w);
         ("Memory (bytes)", memory_measured w)],
     World (if mem name recognised
            then <[name := [("Size", sizes_measured step_size); ("Time (s)", times_measured w);
                            ("Memory (bytes)", memory_measured w)]]> (results w)
            else results w)
           (residuals w)
           (trace w ++ [Seed 1303; GcCollect; ReadRss; GcDisable]
              ++ concat (map (round_events step_size) (seq 1 10)) ++ [GcEnable; GcCollect])
           (fun n => clock w (20 + n)%nat) (fun n => rss w (11 + n)%nat)).
Proof.
  intros Hq. unfold investigate.
  unfold bind at 1. unfold emit at 1. cbv beta iota.
  unfold bind at 1. unfold emit at 1. cbv beta iota.
  unfold bind at 1. unfold memory_rss at 1. cbv beta iota.
  unfold bind at 1. unfold emit at 1. cbv beta iota.
  cbn [results residuals trace clock rss].
  unfold bind at 1. cbn [seq fold_each].
  do 10 (rewrite (bind_ok _ _ _ _ _ (measure_returns function step_size _ _ _ _ _ _
                                        (fun w0 => Hq _ w0)));
         cbn [results residuals trace clock rss]).
  unfold ret at 1. cbv beta iota.
  unfold bind at 1. unfold emit at 1. cbv beta iota.
  unfold bind at 1. unfold emit at 1. cbv beta iota.
  cbn [results residuals trace clock rss].
  unfold bind, ret. rewrite save_results_cases.
  destruct (mem name recognised); cbn; rewrite <- !app_assoc; reflexivity.
Qed.


(** The rounds from [a] on, when the function raises in round [k]. *)
Lemma rounds_raise (function : Z -> M world unit) (step_size baseRam : Z) (k : nat) (e : exn)
    (n a : nat) (arrays : list value * list value * list value) (w : world) :
  (forall i w0, (a <= i < k)%nat -> function (Z.of_nat i * step_size) w0 = (Ok tt, w0)) ->
  (forall w0, function (Z.of_nat k * step_size) w0 = (Raise e, w0)) ->
  (a <= k < a + n)%nat ->
  exists w' later,
    fold_each (seq a n) (measure function step_size baseRam) arrays w = (Raise e, w')
    /\ results w' = results w
    /\ trace w' = trace w ++ later
    /\ Forall (fun ev => ev <> GcEnable) later
    /\ last later = Some (Call (Z.of_nat k * step_size)).
Proof.
  intros Hquiet Hraise. revert a arrays w Hquiet.
  induction n as [|n IH]; intros a arrays w Hquiet Hk; [lia|].
  cbn [seq fold_each]. destruct (decide (a = k)) as [->|Hne].
  - rewrite (bind_raise _ _ _ _ _ (measure_raises function step_size baseRam arrays k e w
                                     Hraise)).
    eexists _, _. split; [reflexivity|]. split; [reflexivity|]. split; [reflexivity|].
    split; [|reflexivity]. repeat constructor; discriminate.
  - destruct arrays as [[var_size resTime] resSpace].
    rewrite (bind_ok _ _ _ _ _ (measure_returns function step_size baseRam _ _ _ a w
                                  (fun w0 => Hquiet a w0 ltac:(lia)))).
    edestruct (IH (S a)) as (w' & later & E & Hr & Ht & Hall & Hlast);
      [| |rewrite E].
    + intros i w0 Hi. apply Hquiet. lia.
    + lia.
    + exists w', (round_events step_size a ++ later).
      split; [reflexivity|]. split; [exact Hr|]. split; [|split].
      * rewrite Ht. cbn [trace]. rewrite <- app_assoc. reflexivity.
      * apply Forall_app. split; [repeat constructor; discriminate | exact Hall].
      * destruct later as [|ev later]; [discriminate Hlast|].
        rewrite last_app. rewrite Hlast. reflexivity.
Qed.

(** X22.  When the function under measurement raises in one of the ten
    rounds, having returned in the rounds before, [investigate] raises the
    same exception, stores nothing, and garbage collection stays disabled:
    after it is disabled no event enables it, and the last event is the call
    that raised. *)
Theorem investigate_leaves_gc_disabled (function : Z -> M world unit) (name : string)
    (step_size : Z) (k : nat) (e : exn) (w : world) :
  (1 <= k <= 10)%nat ->
  (forall i w0, (1 <= i < k)%nat -> function (Z.of_nat i * step_size) w0 = (Ok tt, w0)) ->
  (forall w0, function (Z.of_nat k * step_size) w0 = (Raise e, w0)) ->
  exists w' later,
    investigate function name step_size false w = (Raise e, w')
    /\ results w' = results w
    /\ trace w' = trace w ++ [Seed 1303; GcCollect; ReadRss; GcDisable] ++ later
    /\ Forall (fun ev => ev <> GcEnable) later
    /\ last later = Some (Call (Z.of_nat k * step_size)).
Proof.
  intros Hk Hquiet Hraise. unfold investigate.
  unfold bind at 1. unfold emit at 1. cbv beta iota.
  unfold bind at 1. unfold emit at 1. cbv beta iota.
  unfold bind at 1. unfold memory_rss at 1. cbv beta iota.
  unfold bind at 1. unfold emit at 1. cbv beta iota.
  cbn [results residuals trace clock rss].
  match goal with
  | |- context [bind (fold_each _ (measure _ _ ?base) ?arrays) _ ?w1] =>
      destruct (rounds_raise function step_size base k e 10 1 arrays w1 Hquiet Hraise)
        as (w' & later & E & Hr & Ht & Hall & Hlast); [lia|]
  end.
  rewrite (bind_raise _ _ _ _ _ E).
  exists w', later. split; [reflexivity|]. split; [exact Hr|]. split; [|split; assumption].
  rewrite Ht. cbn [trace]. rewrite <- !app_assoc. reflexivity.
Qed.

(** X23.  After a live measurement of a quiet function under one of the
    five names, [extract_vars] returns the three columns of the table that
    [investigate] returned.  Under any other name the table is not stored:
    [extract_vars] raises [KeyError] unless a table was stored under the name
    before. *)
Theorem investigate_then_extract_vars (function : Z -> M world unit) (name : string)
    (step_size : Z) (w : world) :
  quiet function ->
  exists table w',
    investigate function name step_size false w = (Ok table, w')
    /\ (mem name recognised = true ->
        exists size resTime resSpace,
          extract_vars name w' = (Ok (size, resTime, resSpace), w')
          /\ table = [("Size", size); ("Time (s)", resTime); ("Memory (bytes)", resSpace)])
    /\ (mem name recognised = false ->
        results w !! name = None -> extract_vars name w' = (Raise KeyError, w')).
Proof.
  intros Hq. eexists _, _. split; [apply (investigate_quiet function name step_size w Hq)|].
  split.
  - intros Hname. rewrite Hname. eexists _, _, _.
    unfold extract_vars, bind, gets. cbn [results]. rewrite lookup_insert_eq.
    split; reflexivity.
  - intros Hname Hnone. rewrite Hname.
    unfold extract_vars, bind, gets. cbn [results]. rewrite Hnone. reflexivity.
Qed.


Lemma investigate_then_extract_vars_witness :
  exists table w',
    investigate (fun _ => ret tt) "dummy_func" 50 false
      (init (fun n => inject_Z (Z.of_nat n)) Z.of_nat) = (Ok table, w')
    /\ extract_vars "dummy_func" w' = (Raise KeyError, w').
Proof.
  destruct (investigate_then_extract_vars (fun _ => ret tt) "dummy_func" 50
              (init (fun n => inject_Z (Z.of_nat n)) Z.of_nat))
    as (table & w' & E & _ & Hnot); [intros size w; reflexivity|].
  exists table, w'. split; [exact E|]. apply Hnot; reflexivity.
Defined.

(** X22 on a function that raises [ValueError] from the third round on. *)
Lemma investigate_leaves_gc_disabled_witness :
  exists w' later,
    investigate (fun size => if size <? 30 then ret tt else raise ValueError) "sort_ints" 10
      false (init (fun n => inject_Z (Z.of_nat n)) Z.of_nat) = (Raise ValueError, w')
    /\ results w' = results (init (fun n => inject_Z (Z.of_nat n)) Z.of_nat)
    /\ trace w' = [Seed 1303; GcCollect; ReadRss; GcDisable] ++ later
    /\ Forall (fun ev => ev <> GcEnable) later
    /\ last later = Some (Call 30).
Proof.
  apply (investigate_leaves_gc_disabled
           (fun size => if size <? 30 then ret tt else raise ValueError) "sort_ints" 10 3
           ValueError (init (fun n => inject_Z (Z.of_nat n)) Z.of_nat)).
  - lia.
  - intros i w0 Hi. destruct (Z.ltb_spec (Z.of_nat i * 10) 30); [reflexivity | lia].
  - intros w0. reflexivity.
Defined.

End ProfilerFacts.

(** * The string algorithms under measurement *)

Module StringFacts.
Import Py A2 Vocabulary Examples Run HelperFacts.

Lemma of_chars_inj (a b : list ascii) : of_chars a = of_chars b -> a = b.
Proof. intros E. rewrite <- (chars_of_chars a), <- (chars_of_chars b), E. reflexivity. Qed.

(** The slice is the substring exactly when the substring stands at the
    index. *)
Lemma between_is (s t : string) (i : nat) :
  (i <= String.length s)%nat ->
  between s i (i + String.length t) = t
  <-> exists before after, chars s = before ++ chars t ++ after /\ length before = i.
Proof.
  intros Hi. unfold between.
  replace (i + String.length t - i)%nat with (String.length t) by lia.
  rewrite <- chars_length in *. split.
  - intros E. exists (take i (chars s)), (drop (length (chars t)) (drop i (chars s))).
    assert (Ht : take (length (chars t)) (drop i (chars s)) = chars t).
    { apply of_chars_inj. rewrite E, of_chars_chars. reflexivity. }
    split; [|rewrite length_take; lia].
    rewrite <- Ht at 1. rewrite take_drop, take_drop. reflexivity.
  - intros (before & after & E & <-). rewrite E.
    rewrite drop_app_length, take_app_length. apply of_chars_chars.
Qed.

Lemma first_match_is (s t : string) (indices : list nat) :
  first_match s t indices = true
  <-> exists i, i ∈ indices /\ between s i (i + String.length t) = t.
Proof.
  induction indices as [|i indices IH]; simpl.
  - split; [discriminate | intros (i & Hi & _); inversion Hi].
  - destruct (String.eqb_spec (between s i (i + String.length t)) t) as [E|Hne].
    + split; [intros _; exists i; split; [left | exact E] | reflexivity].
    + rewrite IH. split.
      * intros (j & Hj & E). exists j. split; [right; exact Hj | exact E].
      * intros (j & Hj & E). inversion Hj; subst; [contradiction|]. eauto.
Qed.

(** X24.  [substring_check] raises [ValueError] when either argument is
    the empty string or no string; on two strings that are not empty it
    returns whether the substring occurs in the string. *)
Theorem substring_check_occurs (string substring : value) :
  match string, substring with
  | VStr s, VStr t =>
      if String.eqb s "" || String.eqb t "" then substring_check string substring = Raise ValueError
      else exists found, substring_check string substring = Ok found
                         /\ (found = true <-> occurs_in t s)
  | _, _ => substring_check string substring = Raise ValueError
  end.
Proof.
  destruct string as [s| | |], substring as [t| | |]; try reflexivity.
  unfold substring_check.
  destruct (String.eqb s "" || String.eqb t "") eqn:Eempty; [reflexivity|].
  assert (Hocc : occurs_in t s
                 <-> exists before after, chars s = before ++ chars t ++ after).
  { split.
    - intros (before & after & ->). exists (chars before), (chars after).
      rewrite !chars_append. reflexivity.
    - intros (before & after & E). exists (of_chars before), (of_chars after).
      rewrite <- (of_chars_chars s), E, !of_chars_app, of_chars_chars. reflexivity. }
  destruct (Z.ltb_spec (len s) (len t)) as [Hshort|Hlong].
  - exists false. split; [reflexivity|]. split; [discriminate|].
    rewrite Hocc. intros (before & after & E). exfalso.
    apply (f_equal (@length ascii)) in E. rewrite !length_app, !chars_length in E.
    unfold len in Hshort. lia.
  - eexists. split; [reflexivity|]. rewrite first_match_is, Hocc. split.
    + intros (i & Hi & E). apply elem_of_seq in Hi.
      apply between_is in E as (before & after & E & _); [eauto|]. unfold len in *. lia.
    + intros (before & after & E). exists (length before). split.
      * apply elem_of_seq. apply (f_equal (@length ascii)) in E.
        rewrite !length_app, !chars_length in E. unfold len. lia.
      * apply between_is; [|eauto]. apply (f_equal (@length ascii)) in E.
        rewrite !length_app, !chars_length in E. lia.
Qed.

(** X24 on the example of the documentation, and on a word that does not
    occur. *)
Example substring_check_examples :
  substring_check (VStr "good morning") (VStr "good") = Ok true
  /\ substring_check (VStr "good morning") (VStr "night") = Ok false
  /\ substring_check (VStr "good morning") (VStr "") = Raise ValueError.
Proof. repeat split; reflexivity. Qed.

Lemma draw_returns {A : Type} (pick : nat -> A) (size : Z) (g : generator) :
  0 <= size ->
  draw pick size g
  = (Ok (map (fun k => pick (g k)) (seq 0 (Z.to_nat size))),
     fun k => g (Z.to_nat size + k)%nat).
Proof. intros Hs. unfold draw. destruct (Z.ltb_spec size 0); [lia | reflexivity]. Qed.

Lemma empty_string_len (s : string) : String.eqb s "" = (len s =? 0).
Proof. destruct s; reflexivity. Qed.

(** X25.  For a length that is not negative, [random_str] returns a
    string of that length made of the lower-case letters and the space, and
    draws as many numbers as the length; NumPy refuses a negative length with
    [ValueError], and the method anything but an int with [TypeError]. *)
Theorem random_str_length (length : value) (g : generator) :
  match length with
  | VInt n =>
      if n <? 0 then random_str length g = (Raise ValueError, g)
      else exists s, random_str length g = (Ok s, fun k => g (Z.to_nat n + k)%nat)
                     /\ len s = n /\ made_of characters s
  | _ => random_str length g = (Raise TypeError, g)
  end.
Proof.
  destruct length as [s|n|q|]; try reflexivity.
  unfold random_str. destruct (Z.ltb_spec n 0) as [Hneg|Hn].
  - unfold bind, draw. destruct (Z.ltb_spec n 0); [reflexivity | lia].
  - rewrite (bind_ok _ _ _ _ _ (draw_returns _ n g Hn)).
    eexists. split; [reflexivity|]. split.
    + rewrite len_of_chars, length_map, length_seq. lia.
    + unfold made_of. rewrite chars_of_chars. apply Forall_map, Forall_forall.
      intros k _. cbv beta. apply list_elem_of_In, nth_In.
      apply Nat.mod_upper_bound. discriminate.
Qed.

Lemma random_str_drawn (n : Z) (g : generator) :
  0 <= n ->
  exists s, random_str (VInt n) g = (Ok s, fun k => g (Z.to_nat n + k)%nat) /\ len s = n.
Proof.
  intros Hn. unfold random_str. rewrite (bind_ok _ _ _ _ _ (draw_returns _ n g Hn)).
  eexists. split; [reflexivity|]. rewrite len_of_chars, length_map, length_seq. lia.
Qed.

Section Substring.
Context `{Tenth}.

(** The two strings that [substring_inv] and [python_find_inv] draw. *)
Lemma strings_drawn (n : Z) (g : generator) :
  0 <= n -> 0 <= tenth n ->
  exists s t g1 g2,
    random_str (VInt n) g = (Ok s, g1) /\ random_str (VInt (tenth n)) g1 = (Ok t, g2)
    /\ len s = n /\ len t = tenth n.
Proof.
  intros Hn Ht.
  pose proof (random_str_drawn n g Hn) as (s & E1 & Hs).
  pose proof (random_str_drawn (tenth n) (fun k => g (Z.to_nat n + k)%nat) Ht) as (t & E2 & Hlen).
  eauto 10.
Qed.

(** X26.  For a length that is not negative, [python_find_inv] returns,
    and [substring_inv] returns unless the length, or the tenth of it that is
    the length of the substring, is 0: then [substring_check] refuses the
    empty string and [substring_inv] raises [ValueError]. *)
Theorem substring_inv_needs_substring (n : Z) (g : generator) :
  0 <= n -> 0 <= tenth n ->
  (exists g', python_find_inv (VInt n) g = (Ok tt, g'))
  /\ exists g',
       substring_inv (VInt n) g
       = (if (n =? 0) || (tenth n =? 0) then Raise ValueError else Ok tt, g').
Proof.
  intros Hn Ht.
  destruct (strings_drawn n g Hn Ht) as (s & t & g1 & g2 & E1 & E2 & Hs & Hlen).
  split.
  - exists g2. unfold python_find_inv.
    rewrite (bind_ok _ _ _ _ _ E1), (bind_ok _ _ _ _ _ E2). reflexivity.
  - exists g2. unfold substring_inv.
    rewrite (bind_ok _ _ _ _ _ E1), (bind_ok _ _ _ _ _ E2).
    unfold substring_check. rewrite !empty_string_len, Hs, Hlen.
    destruct ((n =? 0) || (tenth n =? 0)); [reflexivity|].
    destruct (n <? tenth n); reflexivity.
Qed.

End Substring.

(** X25 on a generator that counts. *)
Example random_str_counts : random_str (VInt 10) (fun k => k) = (Ok "abcdefghij", fun k => (10 + k)%nat).
Proof. reflexivity. Qed.

(** X26 on a length of 5, whose tenth is 0, and on a length of 20. *)
Lemma substring_inv_needs_substring_witness :
  ((exists g', python_find_inv (H := tenths) (VInt 5) (fun k => k) = (Ok tt, g'))
   /\ exists g', substring_inv (H := tenths) (VInt 5) (fun k => k) = (Raise ValueError, g'))
  /\ ((exists g', python_find_inv (H := tenths) (VInt 20) (fun k => k) = (Ok tt, g'))
      /\ exists g', substring_inv (H := tenths) (VInt 20) (fun k => k) = (Ok tt, g')).
Proof.
  split.
  - apply (substring_inv_needs_substring (H := tenths) 5 (fun k => k)); [lia | discriminate].
  - apply (substring_inv_needs_substring (H := tenths) 20 (fun k => k)); [lia | discriminate].
Defined.

End StringFacts.

(** * The selection sort of [sort_ints] *)

Module SortFacts.
Import Py A2 Vocabulary Examples Run.

(** The inner loop finds an index of a least value among the one it starts
    with and the ones it goes over. *)
Lemma least_fold (values : list Z) (js : list nat) (start : nat) :
  (foldl (least values) start js = start \/ foldl (least values) start js ∈ js)
  /\ nth (foldl (least values) start js) values 0 <= nth start values 0
  /\ Forall (fun j => nth (foldl (least values) start js) values 0 <= nth j values 0) js.
Proof.
  revert start. induction js as [|j js IH]; intros start; cbn [foldl].
  - split; [left; reflexivity|]. split; [lia | constructor].
  - destruct (IH (least values start j)) as (Hm & Hle & Hall).
    assert (Hstep : (least values start j = start \/ least values start j = j)
                    /\ nth (least values start j) values 0 <= nth start values 0
                    /\ nth (least values start j) values 0 <= nth j values 0).
    { unfold least. destruct (Z.ltb_spec (nth j values 0) (nth start values 0));
        (split; [auto|]); lia. }
    destruct Hstep as (Hwhich & Hs & Hj). split; [|split].
    + destruct Hm as [Hm | Hm]; [|right; right; exact Hm].
      rewrite Hm. destruct Hwhich as [-> | ->]; [left; reflexivity | right; left].
    + lia.
    + constructor; [lia | exact Hall].
Qed.

Lemma nth_at (values : list Z) (j : nat) :
  (j < length values)%nat -> values !! j = Some (nth j values 0).
Proof. intros Hj. destruct (nth_lookup_or_length values j 0) as [E|Hge]; [exact E | lia]. Qed.

(** The array after the swap of the values at [i] and [m]. *)
Lemma nth_swap (values : list Z) (i m j : nat) :
  (i < length values)%nat -> (m < length values)%nat ->
  nth j (<[m := nth i values 0]> (<[i := nth m values 0]> values)) 0
  = if decide (j = m) then nth i values 0
    else if decide (j = i) then nth m values 0 else nth j values 0.
Proof.
  intros Hi Hm. rewrite !nth_lookup.
  destruct (decide (j = m)) as [->|Hjm].
  - rewrite list_lookup_insert_eq by (rewrite length_insert; exact Hm). reflexivity.
  - rewrite list_lookup_insert_ne by congruence.
    destruct (decide (j = i)) as [->|Hji].
    + rewrite list_lookup_insert_eq by exact Hi. reflexivity.
    + rewrite list_lookup_insert_ne by congruence. reflexivity.
Qed.

Lemma swap_apart (A B C : list Z) (x y : Z) :
  <[(length A + S (length B))%nat := x]> (<[length A := y]> (A ++ x :: B ++ y :: C))
  = A ++ y :: B ++ x :: C.
Proof.
  rewrite (insert_app_r_alt A _ (length A)) by lia. rewrite Nat.sub_diag.
  change (<[0%nat := y]> (x :: B ++ y :: C)) with (y :: B ++ y :: C).
  rewrite insert_app_r_alt by lia.
  replace (length A + S (length B) - length A)%nat with (S (length B)) by lia.
  change (<[S (length B) := x]> (y :: B ++ y :: C))
    with (y :: <[length B := x]> (B ++ y :: C)).
  rewrite insert_app_r_alt by lia. rewrite Nat.sub_diag. reflexivity.
Qed.

Lemma swap_perm (values : list Z) (i m : nat) :
  (i <= m < length values)%nat ->
  Permutation (<[m := nth i values 0]> (<[i := nth m values 0]> values)) values.
Proof.
  intros Him.
  assert (Hi : values !! i = Some (nth i values 0)) by (apply nth_at; lia).
  assert (Hm : values !! m = Some (nth m values 0)) by (apply nth_at; lia).
  destruct (decide (i = m)) as [->|Hne].
  - rewrite (list_insert_id values m _ Hm), (list_insert_id values m _ Hm). reflexivity.
  - set (x := nth i values 0) in *. set (y := nth m values 0) in *.
    set (A := take i values). set (R := drop (S i) values).
    assert (Hy : R !! (m - S i)%nat = Some y).
    { unfold R. rewrite lookup_drop. replace (S i + (m - S i))%nat with m by lia. exact Hm. }
    set (B := take (m - S i) R). set (C := drop (S (m - S i)) R).
    assert (E : values = A ++ x :: B ++ y :: C).
    { unfold B, C. rewrite (take_drop_middle R _ y Hy). unfold A, R.
      symmetry. apply take_drop_middle, Hi. }
    assert (HA : length A = i) by (unfold A; rewrite length_take; lia).
    assert (HB : length B = (m - S i)%nat).
    { unfold B. rewrite length_take. unfold R. rewrite length_drop. lia. }
    rewrite E at 1.
    replace i with (length A) at 1 by exact HA.
    replace m with (length A + S (length B))%nat at 1 by lia.
    rewrite swap_apart, E. apply Permutation_app_head.
    transitivity (y :: x :: B ++ C); [constructor; symmetry; apply Permutation_middle|].
    transitivity (x :: y :: B ++ C); [apply perm_swap|].
    constructor. apply Permutation_middle.
Qed.

Lemma select_round (k : nat) (original values : list Z) :
  (k < length values)%nat -> sorted_up_to k original values ->
  sorted_up_to (S k) original (select values k).
Proof.
  intros Hk (Hlen & Hperm & Hsorted). unfold select.
  set (m := foldl (least values) k (seq (k + 1) (length values - (k + 1)))).
  destruct (least_fold values (seq (k + 1) (length values - (k + 1))) k)
    as (Hm & _ & Hleast). fold m in Hm, Hleast.
  assert (Hrange : (k <= m < length values)%nat).
  { destruct Hm as [-> | Hm]; [lia|]. apply elem_of_seq in Hm. lia. }
  assert (Hmin : forall j, (k <= j < length values)%nat -> nth m values 0 <= nth j values 0).
  { intros j Hj. destruct (decide (j = k)) as [->|Hne].
    - destruct (least_fold values (seq (k + 1) (length values - (k + 1))) k) as (_ & Hle & _).
      exact Hle.
    - rewrite Forall_forall in Hleast. apply Hleast, elem_of_seq. lia. }
  split; [rewrite !length_insert; exact Hlen|].
  split; [rewrite (swap_perm values k m Hrange); exact Hperm|].
  intros a b Ha Hb. rewrite !length_insert in Hb.
  rewrite !nth_swap by lia. clearbody m.
  destruct (decide (a = m)), (decide (a = k)), (decide (b = m)), (decide (b = k));
    subst; try lia; first [ apply Hmin; lia | apply Hsorted; lia ].
Qed.

Lemma select_rounds (k : nat) (values : list Z) :
  (k <= length values - 1)%nat ->
  sorted_up_to k values (foldl select values (seq 0 k)).
Proof.
  induction k as [|k IH]; intros Hk.
  - split; [reflexivity|]. split; [reflexivity|]. intros a b Ha. lia.
  - rewrite seq_S, foldl_snoc. cbn [Nat.add].
    assert (Hbefore : sorted_up_to k values (foldl select values (seq 0 k))) by (apply IH; lia).
    apply select_round; [|exact Hbefore]. destruct Hbefore as (-> & _). lia.
Qed.

Lemma ascending_Sorted (values : list Z) : ascending values -> Sorted.Sorted Z.le values.
Proof.
  induction values as [|x values IH]; intros Hasc; [constructor|].
  constructor.
  - apply IH. intros a b Hab. apply (Hasc (S a) (S b)). cbn [length]. lia.
  - destruct values as [|y values]; constructor.
    apply (Hasc 0%nat 1%nat). cbn [length]. lia.
Qed.

(** X27.  [sort_ints] raises [TypeError] for anything but an int and
    [ValueError] for a length of 0 or less, before a number is drawn; for a
    positive length it draws [length] numbers and returns nothing.  Its two
    loops sort the array: what they leave has the values of the array, each
    as often, and no value is less than one before it. *)
Theorem sort_ints_sorts (length : value) (g : generator) :
  sort_ints length g
  = match length with
    | VInt n => if n <=? 0 then (Raise ValueError, g)
                else (Ok tt, fun k => g (Z.to_nat n + k)%nat)
    | _ => (Raise TypeError, g)
    end
  /\ forall values,
       Permutation (selection_sort values) values
       /\ ascending (selection_sort values)
       /\ Sorted.Sorted Z.le (selection_sort values).
Proof.
  split.
  - destruct length as [s|n|q|]; try reflexivity.
    unfold sort_ints. destruct (Z.leb_spec n 0) as [Hn|Hn]; [reflexivity|].
    unfold bind, draw. destruct (Z.ltb_spec n 0); [lia | reflexivity].
  - intros values.
    destruct (select_rounds (List.length values - 1) values (le_n _))
      as (Hlen & Hperm & Hsorted).
    fold (selection_sort values) in Hlen, Hperm, Hsorted.
    assert (Hasc : ascending (selection_sort values)).
    { intros a b Hab. destruct (decide (a = b)) as [->|Hne]; [lia|].
      apply Hsorted; lia. }
    split; [exact Hperm|]. split; [exact Hasc | apply ascending_Sorted, Hasc].
Qed.

(** The loops on an array of five values. *)
Example selection_sort_example : selection_sort [5; 3; 9; 3; 1] = [1; 3; 3; 5; 9].
Proof. reflexivity. Qed.

End SortFacts.
